(** * ScaleInsights ranking workbook parser: a shallow embedding of
      [scripts/utils/parser.py] and the properties of its merge engine.

    Python values are modelled as follows.
    - [str] is [string]; cell text is ASCII, so [strip], [upper] and
      [lower] act on the ASCII white space and letters.
    - [float] is an IEEE 754 binary64 value, [spec_float] with
      [prec = 53] and [emax = 1024]; [float(str)] rounds the decimal
      literal to the nearest double, [repr] prints the shortest decimal
      that reads back.
    - [int] is [Z].
    - an exception is the [Raises] branch of [result].
    - [dict] is an insertion ordered association list ([odict]) where the
      order of iteration reaches the output, a [gmap] otherwise.
    - [datetime.utcnow()] reads a clock: the n-th reading of a run is
      [clock n], and the number of readings so far is threaded as state.
    - the workbook is taken as [CalamineWorkbook] decodes it, its sheets
      by name with the rows of [to_python()]; writing the bytes to a
      temporary file and the log messages are left out.
    - the caller is modelled where it uses what the parser returns: the
      loop of [process_country] in [scripts/pull_rankings.py] that joins
      the rank map with the keyword ids, and [upsert_keywords],
      [upsert_ranks] and [fetch_keyword_ids] of [scripts/utils/db.py].
      The database service is a parameter of these definitions. *)

From Stdlib Require Import ZArith Lia Ascii String List Bool.
From Stdlib Require Import Floats.SpecFloat.
From Stdlib Require Import Sorting.Sorted Sorting.Permutation.
From stdpp Require Import base option list strings gmap.

Local Open Scope string_scope.
Local Open Scope list_scope.
Local Open Scope Z_scope.

(** ** Exceptions and results *)

(** What a [ValueError] of the parser says. *)
Inductive value_error :=
| BadLiteral
| NoRankSheet (found : list string)
| PrimarySheetEmpty
| MissingRequiredColumns (missing : list string)
| NoDateColumns.

Inductive exn :=
| ValueError (e : value_error)
| TypeError
| OverflowError
| IndexError.

Inductive result (A : Type) :=
| Returns (a : A)
| Raises (e : exn).
Arguments Returns {A} a.
Arguments Raises {A} e.

Definition rbind {A B} (r : result A) (k : A -> result B) : result B :=
  match r with
  | Returns a => k a
  | Raises e => Raises e
  end.

Notation "'let*' x ':=' c 'in' k" := (rbind c (fun x => k))
  (at level 10, x name, c at level 100, k at level 200).
Notation "'let*' ' p ':=' c 'in' k" :=
  (rbind c (fun x => match x with p => k end))
  (at level 10, p pattern, c at level 100, k at level 200).

Definition rmap {A B} (f : A -> B) (r : result A) : result B :=
  match r with
  | Returns a => Returns (f a)
  | Raises e => Raises e
  end.

(** [try: ... except (ValueError, TypeError): return default]. *)
Definition except_value_type {A} (r : result A) (default : A) : result A :=
  match r with
  | Raises (ValueError _) | Raises TypeError => Returns default
  | _ => r
  end.

(** The exceptions a cell or a short row can cause. *)
Definition cell_error (e : exn) : Prop := e = IndexError \/ e = OverflowError.

Definition is_schema_error (e : exn) : bool :=
  match e with
  | ValueError (NoRankSheet _) | ValueError PrimarySheetEmpty
  | ValueError (MissingRequiredColumns _) | ValueError NoDateColumns => true
  | _ => false
  end.

(** ** Python string methods on ASCII text *)

Module PyStr.

Definition code (c : ascii) : nat := nat_of_ascii c.

(** [str.isspace] on ASCII: TAB, LF, VT, FF, CR, FS, GS, RS, US, space. *)
Definition is_space (c : ascii) : bool :=
  let n := code c in
  ((9 <=? n) && (n <=? 13) || (28 <=? n) && (n <=? 32))%nat.

Definition is_digit (c : ascii) : bool :=
  let n := code c in ((48 <=? n) && (n <=? 57))%nat.

Definition upper_char (c : ascii) : ascii :=
  let n := code c in
  if ((97 <=? n) && (n <=? 122))%nat then ascii_of_nat (n - 32) else c.

Definition lower_char (c : ascii) : ascii :=
  let n := code c in
  if ((65 <=? n) && (n <=? 90))%nat then ascii_of_nat (n + 32) else c.

Fixpoint smap (f : ascii -> ascii) (s : string) : string :=
  match s with
  | EmptyString => EmptyString
  | String c s' => String (f c) (smap f s')
  end.

Definition upper := smap upper_char.
Definition lower := smap lower_char.

Fixpoint lstrip (s : string) : string :=
  match s with
  | String c s' => if is_space c then lstrip s' else s
  | EmptyString => EmptyString
  end.

(** [rstrip] keeps a character when it is not white space or when
    something other than white space follows it. *)
Fixpoint rstrip (s : string) : string :=
  match s with
  | EmptyString => EmptyString
  | String c s' =>
      match rstrip s' with
      | EmptyString => if is_space c then EmptyString else String c EmptyString
      | t => String c t
      end
  end.

Definition strip (s : string) : string := rstrip (lstrip s).

Fixpoint endswith_char (s : string) (x : ascii) : bool :=
  match s with
  | EmptyString => false
  | String c EmptyString => Ascii.eqb c x
  | String _ s' => endswith_char s' x
  end.

(** [s[:n]] *)
Fixpoint take (n : nat) (s : string) : string :=
  match n, s with
  | S n', String c s' => String c (take n' s')
  | _, _ => EmptyString
  end.

(** [s[n:]] *)
Fixpoint drop (n : nat) (s : string) : string :=
  match n, s with
  | S n', String _ s' => drop n' s'
  | _, _ => s
  end.

(** Truthiness of a string: [not s] is [is_empty s]. *)
Definition is_empty (s : string) : bool :=
  match s with EmptyString => true | _ => false end.

(** [s or None] *)
Definition or_none (s : string) : option string :=
  if is_empty s then None else Some s.

Fixpoint repeat_char (c : ascii) (n : nat) : string :=
  match n with
  | O => EmptyString
  | S n' => String c (repeat_char c n')
  end.

(** Decimal digits of a natural number, most significant first. *)
Fixpoint digits_fuel (fuel : nat) (n : Z) (acc : string) : string :=
  match fuel with
  | O => acc
  | S f =>
      let acc' := String (ascii_of_nat (48 + Z.to_nat (n mod 10))) acc in
      if n / 10 =? 0 then acc' else digits_fuel f (n / 10) acc'
  end.

Definition of_nonneg (n : Z) : string :=
  digits_fuel (S (Z.to_nat (Z.log2 n))) n EmptyString.

(** [str(n)] for an [int]. *)
Definition of_int (n : Z) : string :=
  if n <? 0 then String "-" (of_nonneg (- n)) else of_nonneg n.

(** ["%0wd" % n] for [0 <= n]. *)
Definition zero_pad (w : nat) (n : Z) : string :=
  let d := of_nonneg n in
  repeat_char "0" (w - String.length d) +:+ d.

(** Lexicographic order by code point, the order of [sorted] on [str]. *)
Fixpoint leb (s t : string) : bool :=
  match s, t with
  | EmptyString, _ => true
  | String _ _, EmptyString => false
  | String a s', String b t' =>
      if (code a <? code b)%nat then true
      else if (code b <? code a)%nat then false
      else leb s' t'
  end.

End PyStr.

(** ** Python floats *)

Module PyFloat.

Definition prec : Z := 53.
Definition emax : Z := 1024.

Definition pos_zero : spec_float := S754_zero false.
Definition one : spec_float := S754_finite false 4503599627370496 (-52).

Definition is_nan (x : spec_float) : bool :=
  match x with S754_nan => true | _ => false end.

(** [x > 0] for a float [x] and the integer [0]. *)
Definition gt_zero (x : spec_float) : bool :=
  match x with
  | S754_infinity false | S754_finite false _ _ => true
  | _ => false
  end.

(** The double nearest to [m * 10^e] (ties to even), for [0 <= m].
    A negative exponent divides: the quotient is taken with at least 64
    bits and the remainder tells on which side of the half it lies. *)
Definition of_decimal (neg : bool) (m e : Z) : spec_float :=
  if m =? 0 then S754_zero neg
  else if 0 <=? e then
    binary_normalize prec emax (cond_Zopp neg (m * 10 ^ e)) 0 neg
  else
    let d := 10 ^ (- e) in
    let k := Z.max 0 (64 + Z.log2 d - Z.log2 m) in
    let n := m * 2 ^ k in
    let q := n / d in
    let r := n mod d in
    let loc := if r =? 0 then loc_Exact else loc_Inexact (Z.compare (2 * r) d) in
    binary_round_aux prec emax neg q (- k) loc.

(** [float(n)] for an [int]: [OverflowError] when it rounds to infinity. *)
Definition of_int (n : Z) : result spec_float :=
  match binary_normalize prec emax n 0 false with
  | S754_infinity _ => Raises OverflowError
  | x => Returns x
  end.

(** [int(x)]: truncation towards zero. *)
Definition to_int (x : spec_float) : result Z :=
  match x with
  | S754_nan => Raises (ValueError BadLiteral)
  | S754_infinity _ => Raises OverflowError
  | S754_zero _ => Returns 0
  | S754_finite s m e =>
      let a := if 0 <=? e then Z.pos m * 2 ^ e else Z.pos m / 2 ^ (- e) in
      Returns (cond_Zopp s a)
  end.

(** *** [float(str)] *)

(** C [isspace], which [float] uses to trim an ASCII string. *)
Definition is_cspace (c : ascii) : bool :=
  let n := PyStr.code c in ((9 <=? n) && (n <=? 13) || (n =? 32))%nat.

Fixpoint ltrim (l : list ascii) : list ascii :=
  match l with
  | c :: l' => if is_cspace c then ltrim l' else l
  | [] => []
  end.

Definition trim (l : list ascii) : list ascii := rev (ltrim (rev (ltrim l))).

(** Underscores may only stand between two digits; they are removed.
    [prev] is the character before, [None] at the start. *)
Fixpoint strip_underscores (prev : option ascii) (l : list ascii)
  : option (list ascii) :=
  let prev_digit := from_option PyStr.is_digit false prev in
  let prev_under := from_option (Ascii.eqb "_") false prev in
  match l with
  | [] => if prev_under then None else Some []
  | c :: l' =>
      if Ascii.eqb c "_" then
        if prev_digit then strip_underscores (Some c) l' else None
      else if prev_under && negb (PyStr.is_digit c) then None
      else cons c <$> strip_underscores (Some c) l'
  end.

Fixpoint span_digits (l : list ascii) : list ascii * list ascii :=
  match l with
  | c :: l' =>
      if PyStr.is_digit c then
        let '(ds, r) := span_digits l' in (c :: ds, r)
      else ([], l)
  | [] => ([], [])
  end.

Definition digits_value (ds : list ascii) : Z :=
  fold_left (fun acc c => 10 * acc + (Z.of_nat (PyStr.code c) - 48)) ds 0.

Definition parse_sign (l : list ascii) : bool * list ascii :=
  match l with
  | "-"%char :: r => (true, r)
  | "+"%char :: r => (false, r)
  | _ => (false, l)
  end.

(** What follows the mantissa: nothing, or [e], an optional sign and at
    least one digit, up to the end of the text. *)
Definition parse_exponent (l : list ascii) : option Z :=
  match l with
  | [] => Some 0
  | c :: r =>
      if Ascii.eqb c "e" || Ascii.eqb c "E" then
        let '(neg, r') := parse_sign r in
        match span_digits r' with
        | ((_ :: _) as ds, []) => Some (cond_Zopp neg (digits_value ds))
        | _ => None
        end
      else None
  end.

Definition parse_literal (l : list ascii) : option spec_float :=
  let '(neg, r) := parse_sign l in
  let word := PyStr.lower (string_of_list_ascii r) in
  if String.eqb word "inf" || String.eqb word "infinity" then
    Some (S754_infinity neg)
  else if String.eqb word "nan" then Some S754_nan
  else
    let '(ip, r1) := span_digits r in
    let '(fp, r2) :=
      match r1 with
      | "."%char :: r1' => span_digits r1'
      | _ => ([], r1)
      end in
    match (ip ++ fp) with
    | [] => None
    | ds =>
        e ← parse_exponent r2;
        Some (of_decimal neg (digits_value ds) (e - Z.of_nat (length fp)))
    end.

(** [float(s)]: [None] stands for the [ValueError]. *)
Definition of_string (s : string) : option spec_float :=
  let l := trim (list_ascii_of_string s) in
  if existsb (Ascii.eqb "_") l
  then strip_underscores None l ≫= parse_literal
  else parse_literal l.

(** *** [repr(x)]: the shortest decimal that reads back as [x] *)

Definition eqb (x y : spec_float) : bool :=
  match x, y with
  | S754_zero a, S754_zero b | S754_infinity a, S754_infinity b => Bool.eqb a b
  | S754_nan, S754_nan => true
  | S754_finite a m e, S754_finite b m' e' =>
      Bool.eqb a b && (m =? m')%positive && (e =? e')
  | _, _ => false
  end.

(** [n / d < 10 ^ j] for positive [n] and [d]. *)
Definition below_pow10 (n d j : Z) : bool :=
  if 0 <=? j then n <? d * 10 ^ j else n * 10 ^ (- j) <? d.

(** The [t] with [10^t <= n/d < 10^(t+1)], searched upwards from [t]. *)
Fixpoint dec_exponent (fuel : nat) (t n d : Z) : Z :=
  match fuel with
  | O => t
  | S f => if below_pow10 n d (t + 1) then t else dec_exponent f (t + 1) n d
  end.

(** The digits [g] and exponent [k] of the decimal [g * 10^k] with at
    most [p] digits that reads back as [x = n/d], nearest to [x] when
    both neighbours do. *)
Definition try_digits (x : spec_float) (n d t : Z) (p : Z) : option (Z * Z) :=
  let k := t - p + 1 in
  let num := if 0 <=? k then n else n * 10 ^ (- k) in
  let den := if 0 <=? k then d * 10 ^ k else d in
  let lo := num / den in
  let r := num mod den in
  let lo_ok := eqb (of_decimal false lo k) x in
  let hi_ok := negb (r =? 0) && eqb (of_decimal false (lo + 1) k) x in
  match lo_ok, hi_ok with
  | true, true =>
      match Z.compare (2 * r) den with
      | Lt => Some (lo, k)
      | Gt => Some (lo + 1, k)
      | Eq => Some (if Z.even lo then lo else lo + 1, k)
      end
  | true, false => Some (lo, k)
  | false, true => Some (lo + 1, k)
  | false, false => None
  end.

Fixpoint shortest (x : spec_float) (n d t : Z) (ps : list Z) : Z * Z :=
  match ps with
  | [] => (0, 0)
  | p :: ps' =>
      match try_digits x n d t p with
      | Some gk => gk
      | None => shortest x n d t ps'
      end
  end.

Fixpoint drop_trailing_zeros (fuel : nat) (g k : Z) : Z * Z :=
  match fuel with
  | O => (g, k)
  | S f => if (g mod 10 =? 0) && negb (g =? 0)
           then drop_trailing_zeros f (g / 10) (k + 1) else (g, k)
  end.

(** Layout of [repr]: digits [ds] with the decimal point after the
    first [decpt] of them; exponent form when [decpt] is outside
    [-3 .. 16]. *)
Definition layout (ds : string) (decpt : Z) : string :=
  let nd := Z.of_nat (String.length ds) in
  if (decpt <=? -4) || (16 <? decpt) then
    let e := decpt - 1 in
    let mant :=
      match ds with
      | String c EmptyString => ds
      | String c rest => String c (String "." rest)
      | EmptyString => ds
      end in
    mant +:+ "e" +:+ (if e <? 0 then "-" else "+") +:+ PyStr.zero_pad 2 (Z.abs e)
  else if decpt <=? 0 then
    "0." +:+ PyStr.repeat_char "0" (Z.to_nat (- decpt)) +:+ ds
  else if nd <=? decpt then
    ds +:+ PyStr.repeat_char "0" (Z.to_nat (decpt - nd)) +:+ ".0"
  else
    PyStr.take (Z.to_nat decpt) ds +:+ "." +:+ PyStr.drop (Z.to_nat decpt) ds.

Definition repr (x : spec_float) : string :=
  match x with
  | S754_nan => "nan"
  | S754_infinity s => if s then "-inf" else "inf"
  | S754_zero s => if s then "-0.0" else "0.0"
  | S754_finite s m e =>
      let n := if 0 <=? e then Z.pos m * 2 ^ e else Z.pos m in
      let d := if 0 <=? e then 1 else 2 ^ (- e) in
      let t0 := (Z.log2 n - Z.log2 d - 1) * 30103 / 100000 - 1 in
      let t := dec_exponent 8 t0 n d in
      let '(g0, k0) := shortest (S754_finite false m e) n d t
                         [1;2;3;4;5;6;7;8;9;10;11;12;13;14;15;16;17] in
      let '(g, k) := drop_trailing_zeros 17 g0 k0 in
      let ds := PyStr.of_nonneg g in
      (if s then "-" else "") +:+ layout ds (Z.of_nat (String.length ds) + k)
  end.

End PyFloat.

(** ** Cell values

    What [to_python()] of a sheet holds: text, numbers, booleans and the
    date and time types, and [None], which the helpers guard against.
    A float cell carries a binary64 value; the fields of a date or time
    are those of the Python object. *)

Inductive cell :=
| CNone
| CStr (s : string)
| CInt (n : Z)
| CFloat (x : spec_float)
| CBool (b : bool)
| CDateTime (year month day hour minute second micro : Z)
| CDate (year month day : Z)
| CTime (hour minute second micro : Z)
| CTimeDelta (days seconds micro : Z).

Definition iso_date (y m d : Z) : string :=
  PyStr.zero_pad 4 y +:+ "-" +:+ PyStr.zero_pad 2 m +:+ "-" +:+ PyStr.zero_pad 2 d.

Definition iso_time (h m s us : Z) : string :=
  PyStr.zero_pad 2 h +:+ ":" +:+ PyStr.zero_pad 2 m +:+ ":" +:+ PyStr.zero_pad 2 s
  +:+ (if us =? 0 then "" else "." +:+ PyStr.zero_pad 6 us).

(** [str(val)] *)
Definition str (val : cell) : string :=
  match val with
  | CNone => "None"
  | CStr s => s
  | CInt n => PyStr.of_int n
  | CFloat x => PyFloat.repr x
  | CBool b => if b then "True" else "False"
  | CDateTime y mo d h mi s us => iso_date y mo d +:+ " " +:+ iso_time h mi s us
  | CDate y mo d => iso_date y mo d
  | CTime h mi s us => iso_time h mi s us
  | CTimeDelta days secs us =>
      (if days =? 0 then ""
       else PyStr.of_int days +:+ " day" +:+ (if Z.abs days =? 1 then "" else "s") +:+ ", ")
      +:+ PyStr.of_int (secs / 3600) +:+ ":" +:+ PyStr.zero_pad 2 (secs / 60 mod 60)
      +:+ ":" +:+ PyStr.zero_pad 2 (secs mod 60)
      +:+ (if us =? 0 then "" else "." +:+ PyStr.zero_pad 6 us)
  end.

(** [val.strftime('%Y-%m-%d')] where [val] has the method ([hasattr]):
    the C library prints the year without padding, and a [time] has the
    date 1900-01-01. *)
Definition strftime_ymd (val : cell) : option string :=
  match val with
  | CDateTime y mo d _ _ _ _ | CDate y mo d =>
      Some (PyStr.of_int y +:+ "-" +:+ PyStr.zero_pad 2 mo +:+ "-" +:+ PyStr.zero_pad 2 d)
  | CTime _ _ _ _ => Some "1900-01-01"
  | _ => None
  end.

Definition is_none (val : cell) : bool :=
  match val with CNone => true | _ => false end.

(** [isinstance(val, float) and (val != val)] *)
Definition is_nan_float (val : cell) : bool :=
  match val with CFloat x => PyFloat.is_nan x | _ => false end.

(** [val == ''] *)
Definition eq_empty_str (val : cell) : bool :=
  match val with CStr s => PyStr.is_empty s | _ => false end.

(** [float(val)] *)
Definition float_of (val : cell) : result spec_float :=
  match val with
  | CStr s =>
      match PyFloat.of_string s with
      | Some x => Returns x
      | None => Raises (ValueError BadLiteral)
      end
  | CInt n => PyFloat.of_int n
  | CFloat x => Returns x
  | CBool b => Returns (if b then PyFloat.one else PyFloat.pos_zero)
  | _ => Raises TypeError
  end.

(** ** Helpers *)

Definition _safe_str (val : cell) : string :=
  if is_none val then ""
  else if is_nan_float val then ""
  else PyStr.strip (str val).

Definition _safe_numeric (val : cell) : result (option spec_float) :=
  if is_none val then Returns None
  else if is_nan_float val then Returns None
  else except_value_type (let* x := float_of val in Returns (Some x)) None.

Definition _safe_int (val : cell) : result (option Z) :=
  if is_none val then Returns None
  else if is_nan_float val then Returns None
  else except_value_type
         (let* x := float_of val in
          let* n := PyFloat.to_int x in
          Returns (Some n)) None.

(** [(rank, is_out_of_range)] of a rank cell. *)
Definition parse_rank_value (val : cell) : result (option Z * bool) :=
  if is_none val || eq_empty_str val then Returns (None, false)
  else if is_nan_float val then Returns (None, false)
  else
    let val_str := PyStr.strip (str val) in
    if PyStr.is_empty val_str then Returns (None, false)
    else if PyStr.endswith_char val_str "+" then Returns (None, true)
    else
      except_value_type
        (let* x := float_of (CStr val_str) in
         let* rank := PyFloat.to_int x in
         if (1 <=? rank) && (rank <=? 306) then Returns (Some rank, false)
         else Returns (None, true))
        (None, false).

(** ** Insertion ordered dictionaries

    A Python [dict] whose order of iteration matters: assigning to a key
    that is present replaces its value in place, a new key goes last. *)

Section odict.
Context {K V : Type} `{EqDecision K}.

Fixpoint od_get (k : K) (d : list (K * V)) : option V :=
  match d with
  | [] => None
  | (k', v) :: d' => if decide (k = k') then Some v else od_get k d'
  end.

Fixpoint od_set (k : K) (v : V) (d : list (K * V)) : list (K * V) :=
  match d with
  | [] => [(k, v)]
  | (k', v') :: d' =>
      if decide (k = k') then (k, v) :: d' else (k', v') :: od_set k v d'
  end.

(** [k in d] *)
Definition od_mem (k : K) (d : list (K * V)) : bool :=
  bool_decide (is_Some (od_get k d)).

(** [list(d.values())] *)
Definition od_values (d : list (K * V)) : list V := d.*2.

End odict.

(** ** Date columns *)

(** A pattern made of digit classes and literal characters, matched from
    the start of the text; [$] accepts the end of the text or a single
    line feed before it. *)
Inductive pat_item := PDigit | PLit (c : ascii).

Fixpoint match_items (p : list pat_item) (s : string) : option string :=
  match p, s with
  | [], _ => Some s
  | PDigit :: p', String c s' => if PyStr.is_digit c then match_items p' s' else None
  | PLit x :: p', String c s' => if Ascii.eqb c x then match_items p' s' else None
  | _ :: _, EmptyString => None
  end.

Definition at_dollar (s : string) : bool :=
  match s with
  | EmptyString => true
  | String c EmptyString => Ascii.eqb c (ascii_of_nat 10)
  | _ => false
  end.

(** [^\d{4}-\d{2}-\d{2}$] *)
Definition DATE_PATTERN : list pat_item :=
  [PDigit; PDigit; PDigit; PDigit; PLit "-"; PDigit; PDigit; PLit "-"; PDigit; PDigit].

Definition date_pattern_match (s : string) : bool :=
  match match_items DATE_PATTERN s with
  | Some rest => at_dollar rest
  | None => false
  end.

(** The body of the loop of [detect_date_columns]: [normalized] for one
    header cell. *)
Definition normalize_column (col : cell) : option string :=
  let col_str := PyStr.strip (str col) in
  if date_pattern_match col_str then Some col_str
  else
    match strftime_ymd col with
    | Some d => Some d
    | None =>
        if (10 <=? String.length col_str)%nat
           && date_pattern_match (PyStr.take 10 col_str)
        then Some (PyStr.take 10 col_str)
        else None
    end.

Definition detect_step (acc : list string * list (string * cell)) (col : cell)
  : list string * list (string * cell) :=
  match normalize_column col with
  | Some normalized =>
      if PyStr.is_empty normalized then acc
      else (acc.1 ++ [normalized], od_set normalized col acc.2)
  | None => acc
  end.

Definition detect_date_columns (columns : list cell)
  : list string * list (string * cell) :=
  fold_left detect_step columns ([], []).

(** [sorted(l)] on strings, by insertion. *)
Fixpoint insert_sorted (x : string) (l : list string) : list string :=
  match l with
  | [] => [x]
  | y :: l' => if PyStr.leb x y then x :: l else y :: insert_sorted x l'
  end.

Definition sorted (l : list string) : list string :=
  fold_right insert_sorted [] l.

(** ** Records *)

Record kw_record := {
  marketplace_id : string;
  child_asin : string;
  keyword : string;
  sku : option string;
  title : option string;
  tracked : bool;
  sales : option spec_float;
  acos : option spec_float;
  conversion : option spec_float;
  spent : option spec_float;
  orders : option Z;
  units : option Z;
  clicks : option Z;
  query_volume : option Z;
  conversion_delta : option spec_float;
  market_conversion : option spec_float;
  asin_conversion : option spec_float;
  purchase_share : option spec_float;
  metrics_period_start : option string;
  metrics_period_end : option string;
  import_id : string;
  updated_at : string;
}.

Record rank_record := {
  rk_asin : string;
  rk_keyword : string;
  rk_date : string;
  organic_rank : option Z;
  organic_out_of_range : bool;
  sponsored_rank : option Z;
  sponsored_out_of_range : bool;
}.

Record stats := {
  keyword_count : nat;
  keyword_total_parsed : nat;
  keyword_filtered : nat;
  rank_entries : nat;
  organic_ranks : nat;
  sponsored_ranks : nat;
  date_range_start : option string;
  date_range_end : option string;
  date_count : nat;
}.

(** What the header of the primary sheet resolves to. *)
Record schema := {
  col_indices : gmap string nat;
  date_col_map : list (string * cell);
  sorted_dates : list string;
}.

Abbreviation entity_key := (string * string)%type.
Abbreviation measurement_key := (string * string * string)%type.

(** A workbook: its sheets by name, each the rows of [to_python()]. *)
Abbreviation workbook := (list (string * list (list cell))).

Definition sheet_names (wb : workbook) : list string := wb.*1.

Definition get_sheet_by_name (wb : workbook) (name : string)
  : option (list (list cell)) :=
  od_get name wb.

(** Truthiness of [sheet_data]: [None] and the empty list are false. *)
Definition rows_of (sheet_data : option (list (list cell))) : list (list cell) :=
  match sheet_data with
  | Some (_ :: rows) => rows
  | _ => []
  end.

Definition FIXED_COLUMNS : list string :=
  ["ASIN"; "SKU"; "Title"; "Keyword"; "Tracked";
   "Sales"; "ACOS"; "Conversion"; "Spent"; "Orders";
   "Units"; "Clicks"; "Query Volume"; "Conversion Delta";
   "Market Conversion"; "Asin Conversion"; "Purchase Share"].

(** ** The parser *)

(** [row[i]] *)
Definition getitem (r : list cell) (i : nat) : result cell :=
  match r !! i with
  | Some c => Returns c
  | None => Raises IndexError
  end.

(** [col_indices.get(name, fallback)] *)
Definition col (ci : gmap string nat) (name : string) (fallback : nat) : nat :=
  default fallback (ci !! name).

Fixpoint rfold {A S : Type} (f : S -> A -> result S) (xs : list A) (s : S)
  : result S :=
  match xs with
  | [] => Returns s
  | x :: xs' => let* s' := f s x in rfold f xs' s'
  end.

(** Sheets, header and columns: everything before the two passes. *)
Definition header_text (h : cell) : string :=
  if is_none h then "" else PyStr.strip (str h).

Definition index_headers (headers : list string) : gmap string nat :=
  (fold_left (fun acc h => (<[h := acc.2]> acc.1, S acc.2)) headers (∅, O)).1.

Definition add_date_index (ci : gmap string nat) (item : string * cell)
  : gmap string nat :=
  let '(date_str, original_col) := item in
  match ci !! date_str with
  | Some _ => ci
  | None =>
      match ci !! str original_col with
      | Some i => <[date_str := i]> ci
      | None => ci
      end
  end.

(** [organic_data if organic_data else sponsored_data] *)
Definition primary_sheet (organic_data sponsored_data : option (list (list cell)))
  : option (list (list cell)) :=
  match organic_data with
  | Some (_ :: _) => organic_data
  | _ => sponsored_data
  end.

Definition resolve_schema (wb : workbook)
  : result (option (list (list cell)) * option (list (list cell)) * schema) :=
  let has_organic := bool_decide ("Organic" ∈ sheet_names wb) in
  let has_sponsored := bool_decide ("Sponsored" ∈ sheet_names wb) in
  if negb has_organic && negb has_sponsored then
    Raises (ValueError (NoRankSheet (sheet_names wb)))
  else
    let organic_data := if has_organic then get_sheet_by_name wb "Organic" else None in
    let sponsored_data := if has_sponsored then get_sheet_by_name wb "Sponsored" else None in
    match primary_sheet organic_data sponsored_data with
    | Some (header :: _ :: _) =>
        let headers := header_text <$> header in
        let ci := index_headers headers in
        let missing_cols :=
          filter (fun fc => ci !! fc = None) (take 5 FIXED_COLUMNS) in
        match missing_cols with
        | _ :: _ => Raises (ValueError (MissingRequiredColumns missing_cols))
        | [] =>
            let '(date_columns, dcm) := detect_date_columns (CStr <$> headers) in
            match date_columns with
            | [] => Raises (ValueError NoDateColumns)
            | _ :: _ =>
                Returns (organic_data, sponsored_data,
                         {| col_indices := fold_left add_date_index dcm ci;
                            date_col_map := dcm;
                            sorted_dates := sorted date_columns |})
            end
        end
    | _ => Raises (ValueError PrimarySheetEmpty)
    end.

Section Engine.
(** [clock n] is what the n-th call of [datetime.utcnow().isoformat()]
    of the run returns. *)
Variable clock : nat -> string.
Variables marketplace_id_arg import_id_arg : string.
Variable sc : schema.

Let ci := col_indices sc.

(** [asin] and [keyword_text] of a row. *)
Definition row_identity (r : list cell) : result (string * string) :=
  let* a := getitem r (col ci "ASIN" 0) in
  let* k := getitem r (col ci "Keyword" 3) in
  Returns (_safe_str a, _safe_str k).

Definition numeric_at (r : list cell) (name : string) (fallback : nat)
  : result (option spec_float) :=
  let* c := getitem r (col ci name fallback) in _safe_numeric c.

Definition int_at (r : list cell) (name : string) (fallback : nat)
  : result (option Z) :=
  let* c := getitem r (col ci name fallback) in _safe_int c.

(** The record a row gives, stamped [now]. *)
Definition kw_record_of (now : string) (asin keyword_text : string)
    (r : list cell) : result kw_record :=
  let* tracked_c := getitem r (col ci "Tracked" 4) in
  let tracked_val := PyStr.lower (_safe_str tracked_c) in
  let* sku_c := getitem r (col ci "SKU" 1) in
  let* title_c := getitem r (col ci "Title" 2) in
  let* sales_v := numeric_at r "Sales" 5 in
  let* acos_v := numeric_at r "ACOS" 6 in
  let* conversion_v := numeric_at r "Conversion" 7 in
  let* spent_v := numeric_at r "Spent" 8 in
  let* orders_v := int_at r "Orders" 9 in
  let* units_v := int_at r "Units" 10 in
  let* clicks_v := int_at r "Clicks" 11 in
  let* query_volume_v := int_at r "Query Volume" 12 in
  let* conversion_delta_v := numeric_at r "Conversion Delta" 13 in
  let* market_conversion_v := numeric_at r "Market Conversion" 14 in
  let* asin_conversion_v := numeric_at r "Asin Conversion" 15 in
  let* purchase_share_v := numeric_at r "Purchase Share" 16 in
  Returns {|
    marketplace_id := marketplace_id_arg;
    child_asin := asin;
    keyword := keyword_text;
    sku := PyStr.or_none (_safe_str sku_c);
    title := PyStr.or_none (PyStr.take 500 (_safe_str title_c));
    tracked := String.eqb tracked_val "yes";
    sales := sales_v;
    acos := acos_v;
    conversion := conversion_v;
    spent := spent_v;
    orders := orders_v;
    units := units_v;
    clicks := clicks_v;
    query_volume := query_volume_v;
    conversion_delta := conversion_delta_v;
    market_conversion := market_conversion_v;
    asin_conversion := asin_conversion_v;
    purchase_share := purchase_share_v;
    metrics_period_start := head (sorted_dates sc);
    metrics_period_end := last (sorted_dates sc);
    import_id := import_id_arg;
    updated_at := now;
  |}.

(** Step 1, one row: the state is the number of clock readings so far
    and [keyword_map]. *)
Definition keyword_row (is_organic : bool)
    (st : nat * list (entity_key * kw_record)) (r : list cell)
  : result (nat * list (entity_key * kw_record)) :=
  let* '(asin, keyword_text) := row_identity r in
  if PyStr.is_empty asin || PyStr.is_empty keyword_text then Returns st
  else
    let key := (PyStr.upper asin, PyStr.lower keyword_text) in
    if negb is_organic && od_mem key st.2 then Returns st
    else
      let* record := kw_record_of (clock st.1) asin keyword_text r in
      Returns (S st.1, od_set key record st.2).

(** Step 1: Sponsored first, then Organic. *)
Definition build_keyword_map (organic_data sponsored_data : option (list (list cell)))
  : result (nat * list (entity_key * kw_record)) :=
  let* st := rfold (keyword_row false) (rows_of sponsored_data) (O, []) in
  rfold (keyword_row true) (rows_of organic_data) st.

(** [kw.get('tracked', False) or (kw.get('spent') is not None and kw['spent'] > 0)] *)
Definition retained (kw : kw_record) : bool :=
  tracked kw || from_option PyFloat.gt_zero false (spent kw).

Definition key_of (kw : kw_record) : entity_key :=
  (PyStr.upper (child_asin kw), PyStr.lower (keyword kw)).

(** Step 2. The state is [merged_ranks], [organic_count] and
    [sponsored_count]. *)
Definition date_index (date_col : string) : option nat :=
  match ci !! date_col with
  | Some i => Some i
  | None =>
      let original_col := default (CStr date_col) (od_get date_col (date_col_map sc)) in
      ci !! str original_col
  end.

Definition fresh_rank (asin keyword_text date_col : string) : rank_record :=
  {| rk_asin := asin; rk_keyword := keyword_text; rk_date := date_col;
     organic_rank := None; organic_out_of_range := false;
     sponsored_rank := None; sponsored_out_of_range := false |}.

Definition set_organic (rank : option Z) (is_oor : bool) (rec : rank_record) :=
  {| rk_asin := rk_asin rec; rk_keyword := rk_keyword rec; rk_date := rk_date rec;
     organic_rank := rank; organic_out_of_range := is_oor;
     sponsored_rank := sponsored_rank rec;
     sponsored_out_of_range := sponsored_out_of_range rec |}.

Definition set_sponsored (rank : option Z) (is_oor : bool) (rec : rank_record) :=
  {| rk_asin := rk_asin rec; rk_keyword := rk_keyword rec; rk_date := rk_date rec;
     organic_rank := organic_rank rec;
     organic_out_of_range := organic_out_of_range rec;
     sponsored_rank := rank; sponsored_out_of_range := is_oor |}.

Definition rank_cell (is_organic : bool) (asin keyword_text : string)
    (r : list cell)
    (st : gmap measurement_key rank_record * nat * nat) (date_col : string)
  : result (gmap measurement_key rank_record * nat * nat) :=
  let '(merged_ranks, organic_count, sponsored_count) := st in
  match date_index date_col with
  | None => Returns st
  | Some date_idx =>
      if (length r <=? date_idx)%nat then Returns st
      else
        let* cell_val := getitem r date_idx in
        let* '(rank, is_oor) := parse_rank_value cell_val in
        if bool_decide (rank = None) && negb is_oor then Returns st
        else
          let key := (PyStr.upper asin, PyStr.lower keyword_text, date_col) in
          let merged_ranks' :=
            match merged_ranks !! key with
            | Some _ => merged_ranks
            | None => <[key := fresh_rank asin keyword_text date_col]> merged_ranks
            end in
          if is_organic then
            Returns (alter (set_organic rank is_oor) key merged_ranks',
                     S organic_count, sponsored_count)
          else
            Returns (alter (set_sponsored rank is_oor) key merged_ranks',
                     organic_count, S sponsored_count)
  end.

Definition rank_row (is_organic : bool)
    (st : gmap measurement_key rank_record * nat * nat) (r : list cell)
  : result (gmap measurement_key rank_record * nat * nat) :=
  let* '(asin, keyword_text) := row_identity r in
  if PyStr.is_empty asin || PyStr.is_empty keyword_text then Returns st
  else rfold (rank_cell is_organic asin keyword_text r) (sorted_dates sc) st.

(** Step 2: Organic first, then Sponsored. *)
Definition build_merged_ranks (organic_data sponsored_data : option (list (list cell)))
  : result (gmap measurement_key rank_record * nat * nat) :=
  let* st := rfold (rank_row true) (rows_of organic_data) (∅, O, O) in
  rfold (rank_row false) (rows_of sponsored_data) st.

End Engine.

Definition kept_keys (keyword_records : list kw_record) : gset entity_key :=
  list_to_set (key_of <$> keyword_records).

Definition parse_excel (clock : nat -> string) (wb : workbook)
    (marketplace_id_arg import_id_arg : string)
  : result (list kw_record * gmap measurement_key rank_record * list string * stats) :=
  let* '(organic_data, sponsored_data, sc) := resolve_schema wb in
  let* '(_, keyword_map) :=
    build_keyword_map clock marketplace_id_arg import_id_arg sc
      organic_data sponsored_data in
  let all_keywords := od_values keyword_map in
  let keyword_records := filter (fun kw => retained kw = true) all_keywords in
  let filtered_count := (length all_keywords - length keyword_records)%nat in
  let kept_keyword_keys := kept_keys keyword_records in
  let* '(merged_ranks, organic_count, sponsored_count) :=
    build_merged_ranks sc organic_data sponsored_data in
  let merged_ranks' :=
    filter (fun kv => (kv.1.1.1, kv.1.1.2) ∈ kept_keyword_keys) merged_ranks in
  Returns (keyword_records, merged_ranks', sorted_dates sc,
           {| keyword_count := length keyword_records;
              keyword_total_parsed := length all_keywords;
              keyword_filtered := filtered_count;
              rank_entries := size merged_ranks';
              organic_ranks := organic_count;
              sponsored_ranks := sponsored_count;
              date_range_start := head (sorted_dates sc);
              date_range_end := last (sorted_dates sc);
              date_count := length (sorted_dates sc) |}).

(** ** Vocabulary of the statements *)

(** [x] is the first, respectively the last, element of [l] with [P]. *)
Definition first_with {A} (P : A -> Prop) (l : list A) (x : A) : Prop :=
  exists pre post, l = pre ++ x :: post /\ P x /\ Forall (fun y => ~ P y) pre.

Definition last_with {A} (P : A -> Prop) (l : list A) (x : A) : Prop :=
  exists pre post, l = pre ++ x :: post /\ P x /\ Forall (fun y => ~ P y) post.

Section Vocabulary.
Variable clock : nat -> string.
Variables marketplace_id_arg import_id_arg : string.
Variable sc : schema.

(** The entity key a row addresses: none when the row lacks the
    product identifier or the search term. *)
Definition row_key (r : list cell) : option entity_key :=
  match row_identity sc r with
  | Returns (asin, keyword_text) =>
      if PyStr.is_empty asin || PyStr.is_empty keyword_text then None
      else Some (PyStr.upper asin, PyStr.lower keyword_text)
  | Raises _ => None
  end.

(** [record] is what the row [r] gives, stamped with some reading of
    the clock. *)
Definition built_from (r : list cell) (record : kw_record) : Prop :=
  exists asin keyword_text n,
    row_identity sc r = Returns (asin, keyword_text) /\
    kw_record_of marketplace_id_arg import_id_arg sc (clock n)
      asin keyword_text r = Returns record.

(** The cell of row [r] under the date column [d] classifies as a rank
    or as out of range. *)
Definition cell_counts (r : list cell) (d : string) : Prop :=
  exists i c rank is_oor,
    date_index sc d = Some i /\ r !! i = Some c /\
    parse_rank_value c = Returns (rank, is_oor) /\
    (rank <> None \/ is_oor = true).

(** The row [r] produces a non-trivial cell for the measurement key,
    under one of the date columns [ds]. *)
Definition contributes_in (ds : list string) (r : list cell)
    (key : measurement_key) : Prop :=
  row_key r = Some key.1 /\ key.2 ∈ ds /\ cell_counts r key.2.

Definition contributes (r : list cell) (key : measurement_key) : Prop :=
  contributes_in (sorted_dates sc) r key.

(** The record under a key carries the identity of the first row, in
    the order of processing, that contributed to the key. *)
Definition from_first (rows : list (list cell)) (key : measurement_key)
    (rec : rank_record) : Prop :=
  exists r, first_with (fun r => contributes r key) rows r /\
            row_identity sc r = Returns (rk_asin rec, rk_keyword rec).

(** The map after the rows [rows]. *)
Definition rows_inv (rows : list (list cell))
    (m : gmap measurement_key rank_record) : Prop :=
  forall key,
    match m !! key with
    | None => Forall (fun r => ~ contributes r key) rows
    | Some rec => rk_date rec = key.2 /\ from_first rows key rec
    end.

(** The map after the rows [pre] and the date columns [ds] of [r]. *)
Definition cells_inv (pre : list (list cell)) (r : list cell)
    (ds : list string) (m : gmap measurement_key rank_record) : Prop :=
  forall key,
    match m !! key with
    | None => Forall (fun r' => ~ contributes r' key) pre /\ ~ contributes_in ds r key
    | Some rec =>
        rk_date rec = key.2 /\
        (from_first pre key rec \/
         (Forall (fun r' => ~ contributes r' key) pre /\ contributes_in ds r key /\
          row_identity sc r = Returns (rk_asin rec, rk_keyword rec)))
    end.

End Vocabulary.

(** Keys stay distinct, and each record sits under its own key. *)
Definition keyed (m : list (entity_key * kw_record)) : Prop :=
  NoDup m.*1 /\ forall k record, (k, record) ∈ m -> key_of record = k.

(** The three shapes of a classified cell. *)
Definition rank_shape (p : option Z * bool) : Prop :=
  p = (None, false) \/ p = (None, true) \/
  exists r, p = (Some r, false) /\ 1 <= r <= 306.

(** Checks on the decimal text of a year and of a two digit field. *)
Definition digit4 (s : string) : bool :=
  match s with
  | String a (String b (String c (String d ""))) =>
      forallb PyStr.is_digit [a; b; c; d]
  | _ => false
  end.

Definition digit2 (s : string) : bool :=
  match s with
  | String a (String b "") => forallb PyStr.is_digit [a; b]
  | _ => false
  end.

Definition year_ok (n : nat) : bool :=
  let y := Z.of_nat n + 1000 in
  digit4 (PyStr.zero_pad 4 y) && String.eqb (PyStr.of_int y) (PyStr.zero_pad 4 y).

Definition field_ok (n : nat) : bool := digit2 (PyStr.zero_pad 2 (Z.of_nat n)).

(** The output with the clock readings blanked. *)
Definition unstamped (kw : kw_record) : kw_record :=
  {| marketplace_id := marketplace_id kw; child_asin := child_asin kw;
     keyword := keyword kw; sku := sku kw; title := title kw;
     tracked := tracked kw; sales := sales kw; acos := acos kw;
     conversion := conversion kw; spent := spent kw; orders := orders kw;
     units := units kw; clicks := clicks kw; query_volume := query_volume kw;
     conversion_delta := conversion_delta kw;
     market_conversion := market_conversion kw;
     asin_conversion := asin_conversion kw;
     purchase_share := purchase_share kw;
     metrics_period_start := metrics_period_start kw;
     metrics_period_end := metrics_period_end kw;
     import_id := import_id kw; updated_at := "" |}.

Definition unstamped_output
    (r : result (list kw_record * gmap measurement_key rank_record
                 * list string * stats))
  : result (list kw_record * gmap measurement_key rank_record
            * list string * stats) :=
  match r with
  | Returns (kws, ranks, dates, st) => Returns (unstamped <$> kws, ranks, dates, st)
  | Raises e => Raises e
  end.

(** ** Date columns, as the specification words them *)

(** The text has the form YYYY-MM-DD: ten characters, hyphens at
    positions 4 and 7, digits elsewhere. *)
Definition is_ymd (s : string) : bool :=
  match list_ascii_of_string s with
  | [y1; y2; y3; y4; h1; m1; m2; h2; d1; d2] =>
      forallb PyStr.is_digit [y1; y2; y3; y4; m1; m2; d1; d2]
      && Ascii.eqb h1 "-" && Ascii.eqb h2 "-"
  | _ => false
  end.

(** The canonical date of a header cell, read on the cell's text with
    the surrounding white space trimmed: the text itself when it is a
    date, else the calendar date of a timestamp-like value, else the
    first ten characters of the text when they are a date. *)
Definition canonical_date (col : cell) : option string :=
  let text := PyStr.strip (str col) in
  if is_ymd text then Some text
  else
    match strftime_ymd col with
    | Some d => Some d
    | None =>
        if (10 <=? String.length text)%nat && is_ymd (PyStr.take 10 text)
        then Some (PyStr.take 10 text)
        else None
    end.

(** The same rules read on the cell as it is, the text of a string cell
    untrimmed. *)
Definition canonical_date_untrimmed (col : cell) : option string :=
  match col with
  | CStr s =>
      if is_ymd s then Some s
      else if (10 <=? String.length s)%nat && is_ymd (PyStr.take 10 s)
           then Some (PyStr.take 10 s)
           else None
  | _ => strftime_ymd col
  end.

(** Ascending order of a list of strings. *)
Definition ascending (l : list string) : Prop :=
  StronglySorted (fun a b => PyStr.leb a b = true) l.

(** ** Example workbooks *)

Module Examples.

Definition clock_a (n : nat) : string :=
  "2025-02-01T06:00:0" +:+ PyStr.of_nonneg (Z.of_nat n).
Definition clock_b (n : nat) : string :=
  "2025-02-02T06:00:0" +:+ PyStr.of_nonneg (Z.of_nat n).

(** The seventeen fixed columns and two date columns, one of them
    written with a time of day. *)
Definition header : list cell :=
  (CStr <$> FIXED_COLUMNS) ++ [CStr "2025-01-02"; CStr "2025-01-01 00:00:00"].

(** A row: identity, title, tracking flag, spend, and the two rank
    cells; the other metrics are empty. *)
Definition data_row (asin kw ttl trk : string) (spend d2 d1 : cell) : list cell :=
  [CStr asin; CStr "sku"; CStr ttl; CStr kw; CStr trk;
   CStr ""; CStr ""; CStr ""; spend; CStr "";
   CStr ""; CStr ""; CStr ""; CStr ""; CStr ""; CStr ""; CStr "";
   d2; d1].

Definition organic_sheet : list (list cell) :=
  [header;
   data_row "b0aaa" "Pens" "organic title, first" "Yes" (CStr "") (CFloat PyFloat.one) (CStr "97+");
   data_row "B0AAA" "pens" "organic title, last" "yes" (CStr "") (CStr "") (CStr "7");
   data_row "B0BBB" "ink" "ink, organic" "No" (CInt 0) (CStr "12") (CStr "");
   data_row "" "orphan" "no product" "Yes" (CStr "") (CStr "3") (CStr "");
   data_row "B0CCC" "paper" "paper, organic" "no" (CStr "12.5") (CStr "n/a") (CStr "400")].

Definition sponsored_sheet : list (list cell) :=
  [header;
   data_row "B0AAA" "PENS" "sponsored title" "No" (CStr "") (CStr "2") (CStr "");
   data_row "B0DDD" "glue" "glue, first" "Yes" (CStr "") (CStr "") (CStr "25+");
   data_row "b0ddd" "Glue" "glue, second" "No" (CStr "") (CStr "9") (CStr "");
   data_row "B0BBB" "ink" "ink, sponsored" "No" (CStr "") (CStr "1") (CStr "1")].

Definition both_sheets : workbook :=
  [("Organic", organic_sheet); ("Sponsored", sponsored_sheet)].

(** A workbook with the text [inf] in one rank cell. *)
Definition inf_rank : workbook :=
  [("Organic",
    [header;
     data_row "B0AAA" "pens" "title" "Yes" (CStr "") (CStr "inf") (CStr "4")])].

(** A workbook with the five required columns and one date column only,
    so that the positions the optional metrics fall back to lie beyond
    the end of each row. *)
Definition narrow : workbook :=
  [("Organic",
    [[CStr "ASIN"; CStr "SKU"; CStr "Title"; CStr "Keyword"; CStr "Tracked";
      CStr "2025-01-01"];
     [CStr "B0AAA"; CStr "sku"; CStr "title"; CStr "pens"; CStr "Yes"; CStr "4"]])].

(** What the parser returns on [both_sheets], its sheets and schema,
    and its keyword map before the retention filter. *)
Definition both_sheets_run :=
  Eval vm_compute in parse_excel clock_a both_sheets "US" "imp-1".

Definition both_sheets_resolved :=
  Eval vm_compute in resolve_schema both_sheets.

Definition both_sheets_keywords :=
  Eval vm_compute in
    (let* '(od, sd, sc) := resolve_schema both_sheets in
     build_keyword_map clock_a "US" "imp-1" sc od sd).

End Examples.

(** ** Integer ranks *)

(** What the integer [n] classifies as: a rank inside 1..306, out of
    range elsewhere. *)
Definition classify_int (n : Z) : option Z * bool :=
  if (1 <=? n) && (n <=? 306) then (Some n, false) else (None, true).

Definition classified_as (p : option Z * bool) (r : result (option Z * bool)) : bool :=
  match r, p with
  | Returns (Some a, b), (Some a', b') => (a =? a') && Bool.eqb b b'
  | Returns (None, b), (None, b') => Bool.eqb b b'
  | _, _ => false
  end.

(** The four ways a sheet can hold the integer [k - 1000]: an [int], its
    decimal text, the [float] of the same value, and the text of the
    value plus one half. *)
Definition integer_forms_ok (k : nat) : bool :=
  let n := Z.of_nat k - 1000 in
  classified_as (classify_int n) (parse_rank_value (CInt n))
  && classified_as (classify_int n) (parse_rank_value (CStr (PyStr.of_int n)))
  && match PyFloat.of_int n with
     | Returns x => classified_as (classify_int n) (parse_rank_value (CFloat x))
     | Raises _ => false
     end
  && classified_as (classify_int n) (parse_rank_value (CStr (PyStr.of_int n +:+ ".5"))).


(** ** The two placements of a rank record *)

Section Facets.
Variable sc : schema.

(** The pair a rank record holds for one placement. *)
Definition facet (is_organic : bool) (rec : rank_record) : option Z * bool :=
  if is_organic then (organic_rank rec, organic_out_of_range rec)
  else (sponsored_rank rec, sponsored_out_of_range rec).

(** [p] is what the cell of row [r] under the date column [d] classifies
    as. *)
Definition cell_class (r : list cell) (d : string) (p : option Z * bool) : Prop :=
  exists i c,
    date_index sc d = Some i /\ r !! i = Some c /\ parse_rank_value c = Returns p.

(** [p] is the classification of the cell of the last row of [rows]
    that contributes to the key, and the empty pair when no row does. *)
Definition facet_of (rows : list (list cell)) (key : measurement_key)
    (p : option Z * bool) : Prop :=
  (Forall (fun r => ~ contributes sc r key) rows /\ p = (None, false)) \/
  exists r, last_with (fun r => contributes sc r key) rows r /\ cell_class r key.2 p.

(** One placement of the map after the rows [rows] of its sheet. *)
Definition facet_rows_inv (is_organic : bool) (rows : list (list cell))
    (m : gmap measurement_key rank_record) : Prop :=
  forall key rec, m !! key = Some rec -> facet_of rows key (facet is_organic rec).

(** The same after the rows [pre] and the date columns [ds] of [r]. *)
Definition facet_cells_inv (is_organic : bool) (pre : list (list cell))
    (r : list cell) (ds : list string)
    (m : gmap measurement_key rank_record) : Prop :=
  forall key rec, m !! key = Some rec ->
    (~ contributes_in sc ds r key /\ facet_of pre key (facet is_organic rec)) \/
    (contributes_in sc ds r key /\ cell_class r key.2 (facet is_organic rec)).

(** A pass keeps the other placement of every record, and no key
    leaves the map. *)
Definition keeps_other (is_organic : bool)
    (m m' : gmap measurement_key rank_record) : Prop :=
  forall key,
    match m' !! key with
    | Some rec' =>
        facet (negb is_organic) rec'
        = from_option (facet (negb is_organic)) (None, false) (m !! key)
    | None => m !! key = None
    end.

End Facets.

(** ** Rows without an identity *)

(** A row that names no product or no search term: both passes skip
    it. A row too short to hold the two cells is not one of these. *)
Definition is_blank_row (sc : schema) (r : list cell) : bool :=
  match row_identity sc r with
  | Returns (asin, keyword_text) => PyStr.is_empty asin || PyStr.is_empty keyword_text
  | Raises _ => false
  end.

(** The sheet with these rows taken out of its data rows. *)
Definition without_blank_rows (sc : schema) (sheet_data : option (list (list cell)))
  : option (list (list cell)) :=
  match sheet_data with
  | Some (header :: rows) =>
      Some (header :: filter (fun r => is_blank_row sc r = false) rows)
  | _ => sheet_data
  end.

(** ** The cells the counters count *)

(** The guard of step 2 for one cell: the date column resolves to a
    position inside the row, and the cell there classifies as a rank or
    as out of range. *)
Definition cell_counted (sc : schema) (r : list cell) (d : string) : bool :=
  match date_index sc d with
  | Some i =>
      match r !! i with
      | Some c =>
          match parse_rank_value c with
          | Returns (rank, is_oor) => negb (bool_decide (rank = None) && negb is_oor)
          | Raises _ => false
          end
      | None => false
      end
  | None => false
  end.

(** The number of such cells of a row, over the dates of the run; none
    for a row that names no product or no search term. *)
Definition cells_counted (sc : schema) (r : list cell) : nat :=
  match row_key sc r with
  | Some _ => length (filter (fun d => cell_counted sc r d = true) (sorted_dates sc))
  | None => O
  end.

(** ** The caller: rank rows for the database

    The loop of [process_country] in [scripts/pull_rankings.py] that
    joins the rank map of a run with the keyword ids fetched from the
    database. [keyword_id_map] is the dictionary [fetch_keyword_ids]
    returns, from the upper-cased product identifier and the lower-cased
    search term to the id of the keyword, a UUID in text; the rank map
    is iterated as the list of its items. *)

(** A dictionary appended to [rank_records]. *)
Record db_rank := {
  row_keyword_id : string;
  row_rank_date : string;
  row_organic_rank : option Z;
  row_organic_out_of_range : bool;
  row_sponsored_rank : option Z;
  row_sponsored_out_of_range : bool;
  row_marketplace_id : string;
  row_child_asin : string;
  row_keyword : string;
  row_import_id : string;
}.

(** The row for one item of the rank map: none when
    [keyword_id_map.get(...)] is [None] or the empty string
    ([not keyword_id]). *)
Definition db_rank_of (keyword_id_map : gmap entity_key string)
    (marketplace_id_arg import_id_arg : string)
    (item : measurement_key * rank_record) : option db_rank :=
  let '(asin_upper, keyword_lower, date_col, data) := item in
  match keyword_id_map !! (asin_upper, keyword_lower) with
  | Some keyword_id =>
      if PyStr.is_empty keyword_id then None
      else Some {| row_keyword_id := keyword_id;
                   row_rank_date := date_col;
                   row_organic_rank := organic_rank data;
                   row_organic_out_of_range := organic_out_of_range data;
                   row_sponsored_rank := sponsored_rank data;
                   row_sponsored_out_of_range := sponsored_out_of_range data;
                   row_marketplace_id := marketplace_id_arg;
                   row_child_asin := rk_asin data;
                   row_keyword := rk_keyword data;
                   row_import_id := import_id_arg |}
  | None => None
  end.

(** The body of the loop: the state is [rank_records] and [skipped]. *)
Definition rank_records_step (keyword_id_map : gmap entity_key string)
    (marketplace_id_arg import_id_arg : string)
    (st : list db_rank * nat) (item : measurement_key * rank_record)
  : list db_rank * nat :=
  match db_rank_of keyword_id_map marketplace_id_arg import_id_arg item with
  | Some row => (st.1 ++ [row], st.2)
  | None => (st.1, S st.2)
  end.

Definition rank_records_for (keyword_id_map : gmap entity_key string)
    (marketplace_id_arg import_id_arg : string)
    (items : list (measurement_key * rank_record)) : list db_rank * nat :=
  fold_left (rank_records_step keyword_id_map marketplace_id_arg import_id_arg)
    items ([], O).

(** The columns of the conflict target of [upsert_ranks]. *)
Definition conflict_key (row : db_rank) : string * string :=
  (row_keyword_id row, row_rank_date row).

Module CallerExamples.

(** Ids for two keywords, and a rank map with two dates of the first
    and one of the second. *)
Definition keyword_id_map : gmap entity_key string :=
  <[("B0AAA", "pens") := "kw-1"]> {[ ("B0DDD", "glue") := "kw-2" ]}.

Definition rank_map : gmap measurement_key rank_record :=
  <[("B0AAA", "pens", "2025-01-01") := fresh_rank "b0aaa" "Pens" "2025-01-01"]>
  (<[("B0AAA", "pens", "2025-01-02") := fresh_rank "B0AAA" "pens" "2025-01-02"]>
   {[ ("B0DDD", "glue", "2025-01-01") := fresh_rank "B0DDD" "glue" "2025-01-01" ]}).

End CallerExamples.

(** ** The caller: batched upserts

    [upsert_keywords] and [upsert_ranks] of [scripts/utils/db.py]. The
    database service is outside the program: a request is a function of
    the state of the service that gives the state after it and the
    exception, if it raised one. A call returns its value on the left
    and raises on the right of a sum. *)

(** [range(start, n, step)] for a positive [step]; [fuel] bounds the
    number of elements. *)
Fixpoint range_from (fuel start n step : nat) : list nat :=
  match fuel with
  | O => []
  | S fuel' =>
      if (start <? n)%nat then start :: range_from fuel' (start + step) n step
      else []
  end.

(** [range(0, n, step)] *)
Definition range_step (n step : nat) : list nat := range_from n 0 n step.

Section Upsert.
Context {A J DB E : Type}.
(** [json.loads(json.dumps(batch, default=str))] on one record. *)
Variable json_roundtrip : A -> J.
(** [client.table(...).upsert(batch_json, on_conflict=...).execute()] *)
Variable execute : list J -> DB -> DB * option E.
(** The exception of [get_supabase_client()], when the environment does
    not name the service. *)
Variable client_error : option E.
(** The [ValueError] of [range] on a zero step. *)
Variable zero_step : E.

(** The loop over the starts of the batches; the state is [upserted]
    and the service. *)
Fixpoint upsert_loop (starts : list nat) (batch_size : nat) (records : list A)
    (upserted : nat) (db : DB) : DB * (nat + E) :=
  match starts with
  | [] => (db, inl upserted)
  | i :: starts' =>
      let batch := take batch_size (drop i records) in
      let batch_json := json_roundtrip <$> batch in
      match execute batch_json db with
      | (db', None) =>
          upsert_loop starts' batch_size records (upserted + length batch)%nat db'
      | (db', Some e) => (db', inr e)
      end
  end.

Definition upsert_records (batch_size : nat) (records : list A) (db : DB)
  : DB * (nat + E) :=
  match records with
  | [] => (db, inl O)
  | _ :: _ =>
      match client_error with
      | Some e => (db, inr e)
      | None =>
          match batch_size with
          | O => (db, inr zero_step)
          | S _ =>
              upsert_loop (range_step (length records) batch_size)
                batch_size records O db
          end
      end
  end.

(** [upsert_keywords(keyword_records)] and [upsert_ranks(rank_records)]
    with their default batch sizes. *)
Definition upsert_keywords (keyword_records : list A) (db : DB) : DB * (nat + E) :=
  upsert_records 500 keyword_records db.

Definition upsert_ranks (rank_records : list A) (db : DB) : DB * (nat + E) :=
  upsert_records 2000 rank_records db.

(** Sending batches one after the other, up to the first that fails. *)
Fixpoint send_all (batches : list (list A)) (db : DB) : DB * option E :=
  match batches with
  | [] => (db, None)
  | batch :: batches' =>
      match execute (json_roundtrip <$> batch) db with
      | (db', None) => send_all batches' db'
      | (db', Some e) => (db', Some e)
      end
  end.

End Upsert.

Module UpsertExamples.

(** A service that keeps the requests it was sent and accepts each. *)
Definition log_request (batch : list nat) (db : list (list nat))
  : list (list nat) * option string :=
  (db ++ [batch], None).

End UpsertExamples.

(** ** The caller: the keyword ids

    [fetch_keyword_ids] of [scripts/utils/db.py]. The loop has no bound
    of its own: [fuel] is the number of pages it may ask for, and the
    result is [None] when that is not enough. *)

(** A row of [si_keywords] as the query selects it. *)
Record si_keyword := {
  kw_id : string;
  kw_child_asin : string;
  kw_keyword : string;
}.

(** [key = (kw["child_asin"].upper(), kw["keyword"].lower())] *)
Definition si_keyword_key (kw : si_keyword) : entity_key :=
  (PyStr.upper (kw_child_asin kw), PyStr.lower (kw_keyword kw)).

(** [keyword_id_map[key] = kw["id"]] *)
Definition add_keyword_id (keyword_id_map : gmap entity_key string)
    (kw : si_keyword) : gmap entity_key string :=
  <[si_keyword_key kw := kw_id kw]> keyword_id_map.

Section Fetch.
Context {E : Type}.
(** [client.table("si_keywords").select("id, child_asin, keyword")
    .eq("marketplace_id", marketplace_id).range(first, last).execute()]:
    the rows of the answer ([result.data or []]), or the exception. *)
Variable query : string -> nat -> nat -> list si_keyword + E.
(** The exception of [get_supabase_client()], if any. *)
Variable client_error : option E.

Fixpoint fetch_loop (fuel : nat) (page_size : nat) (marketplace_id_arg : string)
    (offset : nat) (keyword_id_map : gmap entity_key string)
  : option (gmap entity_key string + E) :=
  match fuel with
  | O => None
  | S fuel' =>
      match query marketplace_id_arg offset (offset + page_size - 1) with
      | inr e => Some (inr e)
      | inl rows =>
          let keyword_id_map' := fold_left add_keyword_id rows keyword_id_map in
          if (length rows <? page_size)%nat then Some (inl keyword_id_map')
          else fetch_loop fuel' page_size marketplace_id_arg (offset + page_size)
                 keyword_id_map'
      end
  end.

Definition fetch_keyword_ids (fuel : nat) (marketplace_id_arg : string)
  : option (gmap entity_key string + E) :=
  match client_error with
  | Some e => Some (inr e)
  | None => fetch_loop fuel (Z.to_nat 10000) marketplace_id_arg O ∅
  end.

End Fetch.

(** A service that answers a range query from a table that does not
    change: the rows from position [first] to position [last]. *)
Definition serves {E : Type} (query : string -> nat -> nat -> list si_keyword + E)
    (marketplace_id_arg : string) (table : list si_keyword) : Prop :=
  forall first last,
    query marketplace_id_arg first last = inl (take (S last - first) (drop first table)).

Module FetchExamples.

(** A table with a row for each keyword kept in the run of the example
    workbook, one of them twice in another casing. *)
Definition keyword_table : list si_keyword :=
  [{| kw_id := "kw-1"; kw_child_asin := "B0AAA"; kw_keyword := "pens" |};
   {| kw_id := "kw-0"; kw_child_asin := "b0ddd"; kw_keyword := "Glue" |};
   {| kw_id := "kw-2"; kw_child_asin := "B0DDD"; kw_keyword := "glue" |};
   {| kw_id := "kw-3"; kw_child_asin := "B0CCC"; kw_keyword := "paper" |}].

Definition table_query (marketplace_id_arg : string) (first last : nat)
  : list si_keyword + string :=
  inl (take (S last - first) (drop first keyword_table)).

End FetchExamples.

(** * Properties *)

(** ** Results *)

Lemma rbind_returns {A B} (r : result A) (k : A -> result B) (b : B) :
  rbind r k = Returns b -> exists a, r = Returns a /\ k a = Returns b.
Proof. destruct r as [a|e]; simpl; [eauto | discriminate]. Qed.

Ltac inv_bind H :=
  let a := fresh "a" in
  let Ha := fresh "Ha" in
  apply rbind_returns in H; destruct H as (a & Ha & H).

Ltac inv_bind_as H x Hx :=
  apply rbind_returns in H; destruct H as (x & Hx & H).

Lemma except_returns {A} (r : result A) (d a : A) :
  except_value_type r d = Returns a ->
  r = Returns a \/ (a = d /\ exists e, r = Raises e).
Proof.
  destruct r as [x|[v| | |]]; simpl; intros H; inversion H; subst; eauto.
Qed.

(** ** Insertion ordered dictionaries *)

Section odict_facts.
Context {K V : Type} `{EqDecision K}.
Implicit Types (d : list (K * V)) (k : K) (v : V).

Lemma od_get_set_eq d k v : od_get k (od_set k v d) = Some v.
Proof.
  induction d as [|[k' v'] d IH]; simpl.
  - rewrite decide_True; auto.
  - destruct (decide (k = k')) as [->|Hne]; simpl.
    + rewrite decide_True; auto.
    + rewrite decide_False; auto.
Qed.

Lemma od_get_set_ne d k k' v : k <> k' -> od_get k' (od_set k v d) = od_get k' d.
Proof.
  intros Hne. induction d as [|[k0 v0] d IH]; simpl.
  - rewrite decide_False; auto.
  - destruct (decide (k = k0)) as [->|Hne0]; simpl.
    + rewrite !decide_False; auto.
    + destruct (decide (k' = k0)); auto.
Qed.

Lemma od_get_elem d k v : od_get k d = Some v -> (k, v) ∈ d.
Proof.
  induction d as [|[k0 v0] d IH]; simpl; [discriminate|].
  destruct (decide (k = k0)) as [->|Hne].
  - intros [= ->]. left.
  - intros Hg. right. auto.
Qed.

Lemma od_get_None d k : od_get k d = None <-> k ∉ d.*1.
Proof.
  induction d as [|[k0 v0] d IH]; simpl.
  - split; [intros _; apply not_elem_of_nil | reflexivity].
  - rewrite not_elem_of_cons. destruct (decide (k = k0)) as [->|Hne].
    + split; [discriminate | intros [? _]; congruence].
    + rewrite IH. tauto.
Qed.

Lemma od_elem_get d k v : NoDup d.*1 -> (k, v) ∈ d -> od_get k d = Some v.
Proof.
  induction d as [|[k0 v0] d IH]; simpl; intros Hnd Hin.
  - apply elem_of_nil in Hin as [].
  - apply NoDup_cons in Hnd as [Hk0 Hnd].
    apply elem_of_cons in Hin as [[= -> ->]|Hin].
    + rewrite decide_True; auto.
    + destruct (decide (k = k0)) as [->|Hne]; [|auto].
      exfalso. apply Hk0. apply list_elem_of_fmap. exists (k0, v). auto.
Qed.

Lemma od_set_keys_present d k v :
  k ∈ d.*1 -> (od_set k v d).*1 = d.*1.
Proof.
  induction d as [|[k0 v0] d IH]; simpl; intros Hin.
  - apply elem_of_nil in Hin as [].
  - destruct (decide (k = k0)) as [->|Hne]; simpl; [reflexivity|].
    apply elem_of_cons in Hin as [?|Hin]; [congruence|].
    f_equal. auto.
Qed.

Lemma od_set_keys_absent d k v :
  k ∉ d.*1 -> (od_set k v d).*1 = d.*1 ++ [k].
Proof.
  induction d as [|[k0 v0] d IH]; simpl; intros Hin; [reflexivity|].
  apply not_elem_of_cons in Hin as [Hne Hin].
  rewrite decide_False by auto. simpl. f_equal. auto.
Qed.

Lemma od_set_NoDup d k v : NoDup d.*1 -> NoDup (od_set k v d).*1.
Proof.
  intros Hnd. destruct (decide (k ∈ d.*1)) as [Hin|Hin].
  - rewrite od_set_keys_present; auto.
  - rewrite od_set_keys_absent by auto.
    apply NoDup_app. split; [auto|]. split.
    + intros x Hx Hx'. apply list_elem_of_singleton in Hx'. congruence.
    + apply NoDup_singleton.
Qed.

Lemma od_set_elem d k v k' v' :
  (k', v') ∈ od_set k v d -> (k' = k /\ v' = v) \/ (k', v') ∈ d.
Proof.
  induction d as [|[k0 v0] d IH]; simpl.
  - intros Hin. apply list_elem_of_singleton in Hin as [= -> ->]. auto.
  - destruct (decide (k = k0)) as [->|Hne]; intros Hin;
      apply elem_of_cons in Hin as [[= -> ->]|Hin]; auto.
    + right. right. auto.
    + right. left.
    + destruct (IH Hin); auto. right. right. auto.
Qed.

Lemma od_mem_true d k : od_mem k d = true <-> is_Some (od_get k d).
Proof. unfold od_mem. apply bool_decide_eq_true. Qed.

Lemma od_mem_false d k : od_mem k d = false <-> od_get k d = None.
Proof.
  unfold od_mem. rewrite bool_decide_eq_false.
  rewrite eq_None_not_Some. reflexivity.
Qed.

End odict_facts.

Lemma od_fmap_set {K V W} `{EqDecision K} (f : V -> W) (d : list (K * V)) k v :
  prod_map id f <$> od_set k v d = od_set k (f v) (prod_map id f <$> d).
Proof.
  induction d as [|[k0 v0] d IH]; simpl; [reflexivity|].
  destruct (decide (k = k0)); simpl; [reflexivity|]. f_equal. auto.
Qed.

Lemma od_fmap_get {K V W} `{EqDecision K} (f : V -> W) (d : list (K * V)) k :
  od_get k (prod_map id f <$> d) = f <$> od_get k d.
Proof.
  induction d as [|[k0 v0] d IH]; simpl; [reflexivity|].
  destruct (decide (k = k0)); simpl; auto.
Qed.

(** ** Occurrences in a list *)

Lemma first_with_cons_hit {A} (P : A -> Prop) x l : P x -> first_with P (x :: l) x.
Proof. intros Hx. exists [], l. auto. Qed.

Lemma first_with_cons_miss {A} (P : A -> Prop) x y l :
  ~ P y -> first_with P l x -> first_with P (y :: l) x.
Proof.
  intros Hy (pre & post & -> & Hx & Hpre). exists (y :: pre), post. auto.
Qed.

Lemma first_with_app_l {A} (P : A -> Prop) x l l' :
  first_with P l x -> first_with P (l ++ l') x.
Proof.
  intros (pre & post & -> & Hx & Hpre). exists pre, (post ++ l').
  rewrite <- app_assoc. auto.
Qed.

Lemma first_with_app_r {A} (P : A -> Prop) x l l' :
  Forall (fun y => ~ P y) l -> first_with P l' x -> first_with P (l ++ l') x.
Proof.
  intros Hl (pre & post & -> & Hx & Hpre). exists (l ++ pre), post.
  rewrite <- app_assoc. split; [reflexivity|]. split; [auto|].
  apply Forall_app; auto.
Qed.

Lemma first_with_elem {A} (P : A -> Prop) x l : first_with P l x -> x ∈ l /\ P x.
Proof.
  intros (pre & post & -> & Hx & _). split; [|auto].
  apply elem_of_app. right. left.
Qed.

Lemma first_with_unique {A} (P : A -> Prop) x y l :
  first_with P l x -> first_with P l y -> x = y.
Proof.
  intros (pre & post & -> & Hx & Hpre) (pre' & post' & Heq & Hy & Hpre').
  revert pre' Heq Hpre'. induction pre as [|a pre IH]; intros [|b pre'] Heq Hpre';
    simpl in Heq; injection Heq as -> Heq.
  - reflexivity.
  - apply Forall_cons in Hpre' as [Hb _]. contradiction.
  - apply Forall_cons in Hpre as [Hb _]. contradiction.
  - apply Forall_cons in Hpre as [_ Hpre]. apply Forall_cons in Hpre' as [_ Hpre'].
    eauto.
Qed.

Lemma last_with_cons {A} (P : A -> Prop) x y l :
  last_with P l x -> last_with P (y :: l) x.
Proof.
  intros (pre & post & -> & Hx & Hpost). exists (y :: pre), post. auto.
Qed.

Lemma last_with_inv {A} (P : A -> Prop) x y l :
  last_with P (y :: l) x ->
  (x = y /\ P y /\ Forall (fun z => ~ P z) l) \/ last_with P l x.
Proof.
  intros ([|a pre] & post & Heq & Hx & Hpost); simpl in Heq; injection Heq as -> ->.
  - left. auto.
  - right. exists pre, post. auto.
Qed.

(** ** Folds that may raise *)

Lemma rfold_app {A S} (f : S -> A -> result S) (xs ys : list A) (s : S) :
  rfold f (xs ++ ys) s = let* s' := rfold f xs s in rfold f ys s'.
Proof.
  revert s. induction xs as [|x xs IH]; intros s; simpl; [reflexivity|].
  destruct (f s x); simpl; auto.
Qed.

(** ** Step 1: the keyword map *)

Lemma exists_last_with {A} (P : A -> Prop) `{forall x, Decision (P x)} (l : list A) :
  (exists x, x ∈ l /\ P x) -> exists x, last_with P l x.
Proof.
  induction l as [|y l IH]; intros (x & Hin & Hx).
  - apply elem_of_nil in Hin as [].
  - destruct (decide (Exists P l)) as [Hex|Hno].
    + apply Exists_exists in Hex as (z & Hz & HPz).
      destruct IH as (w & Hw); [eauto|]. exists w. apply last_with_cons, Hw.
    + apply elem_of_cons in Hin as [->|Hin].
      * exists y, [], l. split; [reflexivity|]. split; [auto|].
        apply Forall_forall. intros z Hz HPz. apply Hno, Exists_exists. eauto.
      * exfalso. apply Hno, Exists_exists. eauto.
Qed.

Lemma exists_first_with {A} (P : A -> Prop) `{forall x, Decision (P x)} (l : list A) :
  (exists x, x ∈ l /\ P x) -> exists x, first_with P l x.
Proof.
  induction l as [|y l IH]; intros (x & Hin & Hx).
  - apply elem_of_nil in Hin as [].
  - destruct (decide (P y)) as [Hy|Hy].
    + exists y. apply first_with_cons_hit, Hy.
    + apply elem_of_cons in Hin as [->|Hin]; [contradiction|].
      destruct IH as (w & Hw); [eauto|]. exists w.
      apply first_with_cons_miss; auto.
Qed.

Lemma last_with_elem {A} (P : A -> Prop) x l : last_with P l x -> x ∈ l /\ P x.
Proof.
  intros (pre & post & -> & Hx & _). split; [|auto].
  apply elem_of_app. right. left.
Qed.

Section Step1.
Variable clock : nat -> string.
Variables mk imp : string.
Variable sc : schema.

Local Abbreviation krow := (keyword_row clock mk imp sc).
Local Abbreviation built := (built_from clock mk imp sc).
Local Abbreviation has_key k := (fun r => row_key sc r = Some k).

Lemma kw_record_of_key now a k r record :
  kw_record_of mk imp sc now a k r = Returns record ->
  child_asin record = a /\ keyword record = k.
Proof.
  unfold kw_record_of. intros H.
  repeat (let x := fresh "x" in let Hx := fresh "Hx" in
          apply rbind_returns in H; destruct H as (x & Hx & H)).
  injection H as <-. auto.
Qed.

(** The title of a record is the trimmed text of the row's title cell,
    cut to 500 characters. *)
Lemma kw_record_of_title now a k r record :
  kw_record_of mk imp sc now a k r = Returns record ->
  exists c, getitem r (col (col_indices sc) "Title" 2) = Returns c /\
            title record = PyStr.or_none (PyStr.take 500 (_safe_str c)).
Proof.
  unfold kw_record_of. intros H.
  repeat (let x := fresh "x" in let Hx := fresh "Hx" in
          apply rbind_returns in H; destruct H as (x & Hx & H)).
  injection H as <-. simpl. eauto.
Qed.

(** What one row does to the keyword map, when it does not raise. *)
Lemma keyword_row_returns is_organic n m r n' m' :
  krow is_organic (n, m) r = Returns (n', m') ->
  match row_key sc r with
  | None => n' = n /\ m' = m
  | Some k =>
      if negb is_organic && od_mem k m then n' = n /\ m' = m
      else exists record, built r record /\ key_of record = k /\
                          n' = S n /\ m' = od_set k record m
  end.
Proof.
  unfold keyword_row, row_key. intros H. inv_bind H.
  destruct a as [asin kw]. rewrite Ha.
  destruct (PyStr.is_empty asin || PyStr.is_empty kw).
  { injection H as <- <-. auto. }
  simpl in H |- *.
  destruct (negb is_organic && od_mem _ m).
  { injection H as <- <-. auto. }
  inv_bind H. injection H as <- <-.
  exists a. split; [|split; [|auto]].
  - exists asin, kw, n. auto.
  - apply kw_record_of_key in Ha0 as [Hc Hk]. unfold key_of. rewrite Hc, Hk.
    reflexivity.
Qed.

Lemma keyed_set k record m :
  key_of record = k -> keyed m -> keyed (od_set k record m).
Proof.
  intros Hk [Hnd Hall]. split; [apply od_set_NoDup, Hnd|].
  intros k' r' Hin. apply od_set_elem in Hin as [[-> ->]|Hin]; auto.
Qed.

Lemma keyword_pass_keyed is_organic rows : forall n m n' m',
  rfold (krow is_organic) rows (n, m) = Returns (n', m') ->
  keyed m -> keyed m'.
Proof.
  induction rows as [|r rows IH]; simpl; intros n m n' m' H Hm.
  - injection H as <- <-. exact Hm.
  - inv_bind H. destruct a as [n1 m1].
    apply keyword_row_returns in Ha. apply (IH _ _ _ _ H).
    destruct (row_key sc r) as [k|]; [|destruct Ha as [_ ->]; exact Hm].
    destruct (negb is_organic && od_mem k m); [destruct Ha as [_ ->]; exact Hm|].
    destruct Ha as (record & _ & Hk & _ & ->). apply keyed_set; auto.
Qed.

(** The Sponsored pass: a key that is present keeps its record; a new
    key gets the record of the first row that has it. *)
Lemma sponsored_pass rows : forall n m n' m' k,
  rfold (krow false) rows (n, m) = Returns (n', m') ->
  match od_get k m with
  | Some record => od_get k m' = Some record
  | None =>
      match od_get k m' with
      | Some record => exists r, first_with (has_key k) rows r /\ built r record
      | None => Forall (fun r => row_key sc r <> Some k) rows
      end
  end.
Proof.
  induction rows as [|r rows IH]; simpl; intros n m n' m' k H.
  - injection H as <- <-. destruct (od_get k m); auto.
  - inv_bind H. destruct a as [n1 m1].
    apply keyword_row_returns in Ha. specialize (IH _ _ _ _ k H).
    assert (Hsame : m1 = m -> row_key sc r <> Some k \/ is_Some (od_get k m) ->
      match od_get k m with
      | Some record => od_get k m' = Some record
      | None =>
          match od_get k m' with
          | Some record => exists r0, first_with (has_key k) (r :: rows) r0 /\ built r0 record
          | None => Forall (fun r => row_key sc r <> Some k) (r :: rows)
          end
      end).
    { intros -> Hr. destruct (od_get k m) as [rec|] eqn:Ek; [exact IH|].
      destruct Hr as [Hr|[? Hr]]; [|discriminate].
      destruct (od_get k m') as [rec'|].
      - destruct IH as (r0 & Hf & Hb). exists r0. split; [|exact Hb].
        apply first_with_cons_miss; auto.
      - apply Forall_cons; auto. }
    destruct (row_key sc r) as [k0|] eqn:Ek0.
    2: { destruct Ha as [_ ->]. apply Hsame; auto. }
    simpl in Ha. destruct (od_mem k0 m) eqn:Emem.
    { destruct Ha as [_ ->]. apply Hsame; [reflexivity|].
      destruct (decide (k0 = k)) as [->|Hne].
      - right. apply od_mem_true, Emem.
      - left. congruence. }
    destruct Ha as (record & Hb & Hk & _ & ->).
    apply od_mem_false in Emem.
    destruct (decide (k0 = k)) as [->|Hne].
    + rewrite Emem. rewrite od_get_set_eq in IH. rewrite IH.
      exists r. split; [|exact Hb]. apply first_with_cons_hit. exact Ek0.
    + rewrite od_get_set_ne in IH by exact Hne.
      destruct (od_get k m) as [rec|]; [exact IH|].
      destruct (od_get k m') as [rec'|].
      * destruct IH as (r0 & Hf & Hb0). exists r0. split; [|exact Hb0].
        apply first_with_cons_miss; [congruence|auto].
      * apply Forall_cons; split; [congruence|auto].
Qed.

(** The Organic pass: every row with a key overwrites, so the record
    of a key comes from the last row that has it; other keys keep what
    they had. *)
Lemma organic_pass rows : forall n m n' m' k,
  rfold (krow true) rows (n, m) = Returns (n', m') ->
  (Forall (fun r => row_key sc r <> Some k) rows -> od_get k m' = od_get k m) /\
  (forall r, last_with (has_key k) rows r ->
             exists record, od_get k m' = Some record /\ built r record).
Proof.
  induction rows as [|r0 rows IH]; simpl; intros n m n' m' k H.
  - injection H as <- <-. split; [reflexivity|].
    intros r ([|? ?] & post & Heq & _); discriminate Heq.
  - inv_bind H. destruct a as [n1 m1].
    apply keyword_row_returns in Ha. destruct (IH _ _ _ _ k H) as [IH1 IH2].
    simpl in Ha. split.
    + intros Hall. apply Forall_cons in Hall as [Hr0 Hall].
      rewrite (IH1 Hall).
      destruct (row_key sc r0) as [k0|]; [|destruct Ha as [_ ->]; reflexivity].
      destruct Ha as (record & _ & _ & _ & ->).
      apply od_get_set_ne. congruence.
    + intros r Hlast. apply last_with_inv in Hlast as [(-> & Hk & Hall)|Hlast];
        [|auto].
      rewrite Hk in Ha. destruct Ha as (record & Hb & _ & _ & ->).
      exists record. split; [|exact Hb].
      rewrite (IH1 Hall). apply od_get_set_eq.
Qed.

Lemma keyed_nil : keyed [].
Proof. split; [constructor|]. intros k r Hin. apply elem_of_nil in Hin as []. Qed.

Lemma build_keyword_map_keyed od sd n kmap :
  build_keyword_map clock mk imp sc od sd = Returns (n, kmap) -> keyed kmap.
Proof.
  unfold build_keyword_map. intros H. inv_bind H. destruct a as [n1 m1].
  eapply keyword_pass_keyed; [exact H|].
  eapply keyword_pass_keyed; [exact Ha|]. apply keyed_nil.
Qed.

(** Where the record of a key comes from after both passes. *)
Lemma build_keyword_map_spec od sd n kmap k :
  build_keyword_map clock mk imp sc od sd = Returns (n, kmap) ->
  (forall r, last_with (has_key k) (rows_of od) r ->
             exists record, od_get k kmap = Some record /\ built r record) /\
  (Forall (fun r => row_key sc r <> Some k) (rows_of od) ->
   forall r, first_with (has_key k) (rows_of sd) r ->
             exists record, od_get k kmap = Some record /\ built r record).
Proof.
  unfold build_keyword_map. intros H. inv_bind H. destruct a as [n1 m1].
  destruct (organic_pass _ _ _ _ _ k H) as [Ho1 Ho2].
  split; [exact Ho2|]. intros Hnone r Hfirst.
  rewrite (Ho1 Hnone).
  pose proof (sponsored_pass _ _ _ _ _ k Ha) as Hs. simpl in Hs.
  destruct (od_get k m1) as [record|].
  - destruct Hs as (r' & Hf' & Hb'). exists record. split; [reflexivity|].
    rewrite (first_with_unique _ _ _ _ Hfirst Hf'). exact Hb'.
  - apply first_with_elem in Hfirst as [Hin Hr].
    rewrite Forall_forall in Hs. exfalso. exact (Hs r Hin Hr).
Qed.

End Step1.

(** ** The whole run *)

Lemma parse_excel_returns clock wb mk imp kws ranks dates st :
  parse_excel clock wb mk imp = Returns (kws, ranks, dates, st) ->
  exists od sd sc n kmap m oc scn,
    resolve_schema wb = Returns (od, sd, sc) /\
    build_keyword_map clock mk imp sc od sd = Returns (n, kmap) /\
    build_merged_ranks sc od sd = Returns (m, oc, scn) /\
    kws = filter (fun kw => retained kw = true) (od_values kmap) /\
    ranks = filter (fun kv => (kv.1.1.1, kv.1.1.2) ∈ kept_keys kws) m /\
    dates = sorted_dates sc.
Proof.
  unfold parse_excel. intros H.
  inv_bind H. destruct a as [[od sd] sc].
  inv_bind H. destruct a as [n kmap].
  inv_bind H. destruct a as [[m oc] scn].
  injection H as <- <- <- <-.
  exists od, sd, sc, n, kmap, m, oc, scn. auto 10.
Qed.

Lemma keyed_values_keys (m : list (entity_key * kw_record)) :
  keyed m -> key_of <$> od_values m = m.*1.
Proof.
  intros [_ Hall]. unfold od_values.
  induction m as [|[k r] m IH]; simpl; [reflexivity|]. f_equal.
  - apply Hall. left.
  - apply IH. intros k' r' Hin. apply Hall. right. exact Hin.
Qed.

Lemma NoDup_fmap_filter {A B} (f : A -> B) (P : A -> Prop)
    `{forall x, Decision (P x)} (l : list A) :
  NoDup (f <$> l) -> NoDup (f <$> filter P l).
Proof.
  induction l as [|x l IH]; simpl; intros Hnd; [constructor|].
  apply NoDup_cons in Hnd as [Hx Hnd]. rewrite filter_cons.
  destruct (decide (P x)); simpl; [|auto].
  apply NoDup_cons. split; [|auto].
  intros Hin. apply Hx. apply list_elem_of_fmap in Hin as (y & -> & Hy).
  apply list_elem_of_filter in Hy as [_ Hy]. apply list_elem_of_fmap. eauto.
Qed.

Lemma keyed_value_get (m : list (entity_key * kw_record)) kw :
  keyed m -> kw ∈ od_values m -> od_get (key_of kw) m = Some kw.
Proof.
  intros [Hnd Hall] Hin. unfold od_values in Hin.
  apply list_elem_of_fmap in Hin as ([k r] & -> & Hin). simpl.
  rewrite (Hall _ _ Hin). apply od_elem_get; auto.
Qed.

(** The run of the example workbook, as an equation to apply the
    theorems to. *)
Ltac example_run E :=
  assert (E : parse_excel Examples.clock_a Examples.both_sheets "US" "imp-1"
              = Examples.both_sheets_run)
    by (vm_cast_no_check (@eq_refl _ Examples.both_sheets_run));
  unfold Examples.both_sheets_run in E.

(** C1. Extraction yields at most one record per entity key, before and
    after the retention filter, and a record whose key occurs in both
    sheets is, field by field, the record that an Organic row with that
    key gives; in particular its title is that row's title. *)
Theorem entity_merge_precedence clock wb mk imp kws ranks dates st :
  parse_excel clock wb mk imp = Returns (kws, ranks, dates, st) ->
  exists od sd sc n kmap,
    resolve_schema wb = Returns (od, sd, sc) /\
    build_keyword_map clock mk imp sc od sd = Returns (n, kmap) /\
    NoDup (key_of <$> od_values kmap) /\
    NoDup (key_of <$> kws) /\
    (forall kw, kw ∈ kws -> kw ∈ od_values kmap) /\
    forall kw, kw ∈ od_values kmap ->
      (exists r, r ∈ rows_of od /\ row_key sc r = Some (key_of kw)) ->
      (exists r, r ∈ rows_of sd /\ row_key sc r = Some (key_of kw)) ->
      exists r c,
        r ∈ rows_of od /\ row_key sc r = Some (key_of kw) /\
        built_from clock mk imp sc r kw /\
        getitem r (col (col_indices sc) "Title" 2) = Returns c /\
        title kw = PyStr.or_none (PyStr.take 500 (_safe_str c)).
Proof.
  intros H. apply parse_excel_returns in H
    as (od & sd & sc & n & kmap & m & oc & scn & Hsc & Hk & _ & -> & _ & _).
  pose proof (build_keyword_map_keyed _ _ _ _ _ _ _ _ Hk) as Hkeyed.
  assert (Hnd : NoDup (key_of <$> od_values kmap)).
  { rewrite keyed_values_keys by exact Hkeyed. apply Hkeyed. }
  exists od, sd, sc, n, kmap.
  split; [exact Hsc|]. split; [exact Hk|]. split; [exact Hnd|].
  split; [apply NoDup_fmap_filter, Hnd|]. split.
  { intros kw Hin. apply list_elem_of_filter in Hin as [_ Hin]. exact Hin. }
  intros kw Hin Horg _.
  apply (exists_last_with (fun r => row_key sc r = Some (key_of kw))) in Horg
    as (r & Hlast).
  destruct (build_keyword_map_spec _ _ _ _ _ _ _ _ (key_of kw) Hk) as [Ho _].
  destruct (Ho r Hlast) as (record & Hget & Hb).
  rewrite (keyed_value_get _ _ Hkeyed Hin) in Hget. injection Hget as <-.
  apply last_with_elem in Hlast as [Hr Hkey].
  pose proof Hb as (a & k & t & _ & Hrec).
  apply kw_record_of_title in Hrec as (c & Hc & Ht).
  exists r, c. auto 10.
Qed.

(** A run on a workbook where the key (B0AAA, pens) is in both sheets. *)
Lemma entity_merge_precedence_witness :
  exists kws ranks dates st,
    parse_excel Examples.clock_a Examples.both_sheets "US" "imp-1"
      = Returns (kws, ranks, dates, st) /\
    exists od sd sc n kmap,
      resolve_schema Examples.both_sheets = Returns (od, sd, sc) /\
      build_keyword_map Examples.clock_a "US" "imp-1" sc od sd = Returns (n, kmap) /\
      NoDup (key_of <$> od_values kmap) /\
      NoDup (key_of <$> kws) /\
      (forall kw, kw ∈ kws -> kw ∈ od_values kmap) /\
      forall kw, kw ∈ od_values kmap ->
        (exists r, r ∈ rows_of od /\ row_key sc r = Some (key_of kw)) ->
        (exists r, r ∈ rows_of sd /\ row_key sc r = Some (key_of kw)) ->
        exists r c,
          r ∈ rows_of od /\ row_key sc r = Some (key_of kw) /\
          built_from Examples.clock_a "US" "imp-1" sc r kw /\
          getitem r (col (col_indices sc) "Title" 2) = Returns c /\
          title kw = PyStr.or_none (PyStr.take 500 (_safe_str c)).
Proof.
  example_run E. eexists _, _, _, _. split; [exact E|].
  exact (entity_merge_precedence _ _ _ _ _ _ _ _ E).
Defined.

(** C9. Duplicates of a key within one sheet: after the Sponsored pass
    the record of a key is the one its first Sponsored row gives (later
    rows with the key are skipped); after the Organic pass it is the one
    the last Organic row with the key gives, and a key with no Organic
    row keeps the record of the Sponsored pass. *)
Theorem duplicate_rows_by_sheet clock mk imp sc od sd n kmap :
  build_keyword_map clock mk imp sc od sd = Returns (n, kmap) ->
  exists n1 m1,
    rfold (keyword_row clock mk imp sc false) (rows_of sd) (O, []) = Returns (n1, m1) /\
    rfold (keyword_row clock mk imp sc true) (rows_of od) (n1, m1) = Returns (n, kmap) /\
    forall k,
      (forall r, first_with (fun r => row_key sc r = Some k) (rows_of sd) r ->
         exists record, od_get k m1 = Some record /\ built_from clock mk imp sc r record) /\
      (forall r, last_with (fun r => row_key sc r = Some k) (rows_of od) r ->
         exists record, od_get k kmap = Some record /\ built_from clock mk imp sc r record) /\
      (Forall (fun r => row_key sc r <> Some k) (rows_of od) ->
         od_get k kmap = od_get k m1).
Proof.
  unfold build_keyword_map. intros H. inv_bind H. destruct a as [n1 m1].
  exists n1, m1. split; [exact Ha|]. split; [exact H|]. intros k.
  destruct (organic_pass _ _ _ _ _ _ _ _ _ k H) as [Ho1 Ho2].
  split; [|split; assumption].
  intros r Hfirst.
  pose proof (sponsored_pass _ _ _ _ _ _ _ _ _ k Ha) as Hs. simpl in Hs.
  destruct (od_get k m1) as [record|].
  - destruct Hs as (r' & Hf' & Hb'). exists record. split; [reflexivity|].
    rewrite (first_with_unique _ _ _ _ Hfirst Hf'). exact Hb'.
  - apply first_with_elem in Hfirst as [Hin Hr].
    rewrite Forall_forall in Hs. exfalso. exact (Hs r Hin Hr).
Qed.

(** The keyword map of the example workbook, where Sponsored has two
    rows for (B0DDD, glue) and Organic two rows for (B0AAA, pens). *)
Lemma duplicate_rows_by_sheet_witness :
  exists od sd sc n kmap,
    resolve_schema Examples.both_sheets = Returns (od, sd, sc) /\
    build_keyword_map Examples.clock_a "US" "imp-1" sc od sd = Returns (n, kmap) /\
    exists n1 m1,
      rfold (keyword_row Examples.clock_a "US" "imp-1" sc false) (rows_of sd) (O, [])
        = Returns (n1, m1) /\
      rfold (keyword_row Examples.clock_a "US" "imp-1" sc true) (rows_of od) (n1, m1)
        = Returns (n, kmap) /\
      forall k,
        (forall r, first_with (fun r => row_key sc r = Some k) (rows_of sd) r ->
           exists record, od_get k m1 = Some record /\
                          built_from Examples.clock_a "US" "imp-1" sc r record) /\
        (forall r, last_with (fun r => row_key sc r = Some k) (rows_of od) r ->
           exists record, od_get k kmap = Some record /\
                          built_from Examples.clock_a "US" "imp-1" sc r record) /\
        (Forall (fun r => row_key sc r <> Some k) (rows_of od) ->
           od_get k kmap = od_get k m1).
Proof.
  assert (E1 : resolve_schema Examples.both_sheets = Examples.both_sheets_resolved)
    by (vm_cast_no_check (@eq_refl _ Examples.both_sheets_resolved)).
  unfold Examples.both_sheets_resolved in E1.
  lazymatch type of E1 with
  | _ = Returns (?od, ?sd, ?sc) =>
      assert (E2 : build_keyword_map Examples.clock_a "US" "imp-1" sc od sd
                   = Examples.both_sheets_keywords)
        by (vm_cast_no_check (@eq_refl _ Examples.both_sheets_keywords));
      unfold Examples.both_sheets_keywords in E2;
      exists od, sd, sc
  end.
  eexists _, _. split; [exact E1|]. split; [exact E2|].
  exact (duplicate_rows_by_sheet _ _ _ _ _ _ _ _ E2).
Defined.

Lemma gt_zero_spec (x : spec_float) :
  PyFloat.gt_zero x = true <-> SFltb PyFloat.pos_zero x = true.
Proof. destruct x as [s|[|]| |[|] p e]; cbv; split; congruence. Qed.

(** C6. The records returned are exactly the extracted ones that are
    tracked or have a spend that is present and above zero. *)
Theorem retention_filter clock wb mk imp kws ranks dates st :
  parse_excel clock wb mk imp = Returns (kws, ranks, dates, st) ->
  exists od sd sc n kmap,
    resolve_schema wb = Returns (od, sd, sc) /\
    build_keyword_map clock mk imp sc od sd = Returns (n, kmap) /\
    (forall kw, kw ∈ kws <->
       kw ∈ od_values kmap /\
       (tracked kw = true \/
        exists x, spent kw = Some x /\ SFltb PyFloat.pos_zero x = true)) /\
    (forall kw, kw ∈ od_values kmap -> tracked kw = false ->
       spent kw = None \/ (exists s, spent kw = Some (S754_zero s)) -> kw ∉ kws) /\
    (forall kw, kw ∈ od_values kmap -> tracked kw = false ->
       spent kw = PyFloat.of_string "12.5" -> kw ∈ kws).
Proof.
  intros H. apply parse_excel_returns in H
    as (od & sd & sc & n & kmap & m & oc & scn & Hsc & Hk & _ & -> & _ & _).
  exists od, sd, sc, n, kmap. split; [exact Hsc|]. split; [exact Hk|].
  assert (Hret : forall kw, retained kw = true <->
            tracked kw = true \/
            exists x, spent kw = Some x /\ SFltb PyFloat.pos_zero x = true).
  { intros kw. unfold retained. rewrite orb_true_iff.
    apply or_iff_compat_l. destruct (spent kw) as [x|]; simpl.
    - rewrite gt_zero_spec. split; [eauto|]. intros (y & [= <-] & Hy). exact Hy.
    - split; [discriminate|]. intros (y & Hy & _). discriminate Hy. }
  split; [|split].
  - intros kw. rewrite list_elem_of_filter, Hret. tauto.
  - intros kw Hin Ht Hs Hkept. apply list_elem_of_filter in Hkept as [Hkept _].
    apply Hret in Hkept as [Hkept|(x & Hx & Hlt)]; [congruence|].
    destruct Hs as [Hs|[s Hs]]; rewrite Hs in Hx; [discriminate|].
    injection Hx as <-. discriminate Hlt.
  - intros kw Hin Ht Hs. apply list_elem_of_filter. split; [|exact Hin].
    apply Hret. right. eexists. split; [exact Hs|]. vm_compute. reflexivity.
Qed.

(** The run of the example workbook: (B0BBB, ink) is untracked with a
    spend of 0 and dropped, (B0CCC, paper) is untracked with a spend of
    12.5 and kept. *)
Lemma retention_filter_witness :
  exists kws ranks dates st,
    parse_excel Examples.clock_a Examples.both_sheets "US" "imp-1"
      = Returns (kws, ranks, dates, st) /\
    exists od sd sc n kmap,
      resolve_schema Examples.both_sheets = Returns (od, sd, sc) /\
      build_keyword_map Examples.clock_a "US" "imp-1" sc od sd = Returns (n, kmap) /\
      (forall kw, kw ∈ kws <->
         kw ∈ od_values kmap /\
         (tracked kw = true \/
          exists x, spent kw = Some x /\ SFltb PyFloat.pos_zero x = true)) /\
      (forall kw, kw ∈ od_values kmap -> tracked kw = false ->
         spent kw = None \/ (exists s, spent kw = Some (S754_zero s)) -> kw ∉ kws) /\
      (forall kw, kw ∈ od_values kmap -> tracked kw = false ->
         spent kw = PyFloat.of_string "12.5" -> kw ∈ kws).
Proof.
  example_run E. eexists _, _, _, _. split; [exact E|].
  exact (retention_filter _ _ _ _ _ _ _ _ E).
Defined.

(** ** Step 2: the merged ranks *)

Section Step2.
Variable sc : schema.

Local Abbreviation counts := (contributes sc).

Lemma contributes_in_mono ds d r key :
  contributes_in sc ds r key -> contributes_in sc (ds ++ [d]) r key.
Proof.
  intros (Hk & Hd & Hc). split; [exact Hk|]. split; [|exact Hc].
  apply elem_of_app. auto.
Qed.

Lemma contributes_in_snoc ds d r key :
  contributes_in sc (ds ++ [d]) r key ->
  contributes_in sc ds r key \/
  (row_key sc r = Some key.1 /\ key.2 = d /\ cell_counts sc r d).
Proof.
  intros (Hk & Hd & Hc). apply elem_of_app in Hd as [Hd|Hd].
  - left. split; auto.
  - apply list_elem_of_singleton in Hd. right. rewrite <- Hd. auto.
Qed.

(** What one cell does to the map, when it does not raise. *)
Lemma rank_cell_returns is_organic a k r m oc sn d m' oc' sn' :
  rank_cell sc is_organic a k r (m, oc, sn) d = Returns (m', oc', sn') ->
  (~ cell_counts sc r d /\ m' = m) \/
  (cell_counts sc r d /\
   exists f : rank_record -> rank_record,
     (forall rec, rk_asin (f rec) = rk_asin rec /\
                  rk_keyword (f rec) = rk_keyword rec /\
                  rk_date (f rec) = rk_date rec) /\
     let key := (PyStr.upper a, PyStr.lower k, d) in
     m' = alter f key
            (match m !! key with
             | Some _ => m
             | None => <[key := fresh_rank a k d]> m
             end)).
Proof.
  unfold rank_cell. destruct (date_index sc d) as [i|] eqn:Ei.
  2: { intros [= <- <- <-]. left. split; [|reflexivity].
       intros (i & c & rank & o & Hi & _). congruence. }
  destruct (length r <=? i)%nat eqn:El.
  { intros [= <- <- <-]. left. split; [|reflexivity].
    apply Nat.leb_le in El. apply lookup_ge_None in El.
    intros (i' & c & rank & o & Hi & Hc & _). congruence. }
  intros H. inv_bind_as H c0 Hc0. unfold getitem in Hc0.
  destruct (r !! i) as [c|] eqn:Ec; [|discriminate]. injection Hc0 as <-.
  inv_bind_as H p Hp0. destruct p as [rank o].
  destruct (bool_decide (rank = None) && negb o) eqn:Et.
  { injection H as <- <- <-. left. split; [|reflexivity].
    apply andb_true_iff in Et as [Hr Ho]. apply bool_decide_eq_true in Hr.
    apply negb_true_iff in Ho.
    intros (i' & c' & rank' & o' & Hi & Hc & Hp & Hnt).
    assert (i' = i) as -> by congruence.
    assert (c' = c) as -> by congruence.
    rewrite Hp0 in Hp. injection Hp as <- <-.
    destruct Hnt; congruence. }
  right. split.
  { exists i, c, rank, o. repeat split; auto.
    apply andb_false_iff in Et as [Hr|Ho].
    - left. apply bool_decide_eq_false in Hr. exact Hr.
    - right. apply negb_false_iff in Ho. exact Ho. }
  destruct is_organic; injection H as <- <- <-.
  - exists (set_organic rank o). split; [intros rec; simpl; auto | reflexivity].
  - exists (set_sponsored rank o). split; [intros rec; simpl; auto | reflexivity].
Qed.

Lemma from_first_same rows key rec rec' :
  rk_asin rec' = rk_asin rec -> rk_keyword rec' = rk_keyword rec ->
  from_first sc rows key rec -> from_first sc rows key rec'.
Proof. intros Ha Hk (r & Hf & Hid). exists r. rewrite Ha, Hk. auto. Qed.

Lemma rank_cell_inv is_organic a k r pre ds m oc sn d m' oc' sn' :
  row_identity sc r = Returns (a, k) ->
  PyStr.is_empty a || PyStr.is_empty k = false ->
  cells_inv sc pre r ds m ->
  rank_cell sc is_organic a k r (m, oc, sn) d = Returns (m', oc', sn') ->
  cells_inv sc pre r (ds ++ [d]) m'.
Proof.
  intros Hid Hne Hinv H.
  assert (Hrk : row_key sc r = Some (PyStr.upper a, PyStr.lower k)).
  { unfold row_key. rewrite Hid, Hne. reflexivity. }
  apply rank_cell_returns in H as [[Hno ->]|[Hyes (f & Hf & ->)]].
  - intros key. specialize (Hinv key). destruct (m !! key) as [rec|].
    + destruct Hinv as [Hd [Hl|(Hp & Hc & Hi)]]; split; auto.
      right. split; [exact Hp|]. split; [|exact Hi].
      apply contributes_in_mono, Hc.
    + destruct Hinv as [Hp Hc]. split; [exact Hp|]. intros Hc'.
      apply contributes_in_snoc in Hc' as [Hc'|(_ & <- & Hc')]; auto.
  - simpl. set (key0 := (PyStr.upper a, PyStr.lower k, d)).
    intros key. destruct (decide (key = key0)) as [->|Hne0].
    + specialize (Hinv key0). rewrite lookup_alter_eq.
      destruct (m !! key0) as [rec|] eqn:Em.
      * rewrite Em. simpl. destruct (Hf rec) as (Hfa & Hfk & Hfd).
        destruct Hinv as [Hd Hor]. split; [rewrite Hfd; exact Hd|].
        destruct Hor as [Hl|(Hp & Hc & Hi)].
        -- left. eapply from_first_same; eauto.
        -- right. split; [exact Hp|]. split; [apply contributes_in_mono, Hc|].
           rewrite Hfa, Hfk. exact Hi.
      * rewrite lookup_insert_eq. simpl.
        destruct (Hf (fresh_rank a k d)) as (Hfa & Hfk & Hfd).
        destruct Hinv as [Hp _]. split; [rewrite Hfd; reflexivity|].
        right. split; [exact Hp|]. split.
        -- split; [exact Hrk|]. split; [|exact Hyes].
           apply elem_of_app. right. apply list_elem_of_singleton. reflexivity.
        -- rewrite Hfa, Hfk. exact Hid.
    + assert (Hlk : alter f key0
                (match m !! key0 with
                 | Some _ => m
                 | None => <[key0 := fresh_rank a k d]> m
                 end) !! key = m !! key).
      { rewrite lookup_alter_ne by congruence.
        destruct (m !! key0); [reflexivity|].
        apply lookup_insert_ne. congruence. }
      rewrite Hlk. specialize (Hinv key).
      assert (Hsn : contributes_in sc (ds ++ [d]) r key -> contributes_in sc ds r key).
      { intros Hc. apply contributes_in_snoc in Hc as [Hc|(Hk1 & Hk2 & _)]; [exact Hc|].
        exfalso. apply Hne0. rewrite Hrk in Hk1. injection Hk1 as Hk1.
        destruct key as [k1 k2]. simpl in *. subst. reflexivity. }
      destruct (m !! key) as [rec|].
      * destruct Hinv as [Hd [Hl|(Hp & Hc & Hi)]]; split; auto.
        right. split; [exact Hp|]. split; [|exact Hi].
        apply contributes_in_mono, Hc.
      * destruct Hinv as [Hp Hc]. split; [exact Hp|]. auto.
Qed.

Lemma rank_cells_inv is_organic a k r pre :
  row_identity sc r = Returns (a, k) ->
  PyStr.is_empty a || PyStr.is_empty k = false ->
  forall todo ds st st',
    cells_inv sc pre r ds st.1.1 ->
    rfold (rank_cell sc is_organic a k r) todo st = Returns st' ->
    cells_inv sc pre r (ds ++ todo) st'.1.1.
Proof.
  intros Hid Hne. induction todo as [|d todo IH]; simpl; intros ds st st' Hinv H.
  - injection H as <-. rewrite app_nil_r. exact Hinv.
  - inv_bind_as H st1 Hst1. destruct st as [[m oc] sn], st1 as [[m1 oc1] sn1].
    replace (ds ++ d :: todo) with ((ds ++ [d]) ++ todo)
      by (rewrite <- app_assoc; reflexivity).
    apply (IH _ (m1, oc1, sn1)); [|exact H].
    eapply rank_cell_inv; eauto.
Qed.

Lemma rows_inv_snoc_skip pre r m :
  (forall key, ~ counts r key) -> rows_inv sc pre m -> rows_inv sc (pre ++ [r]) m.
Proof.
  intros Hno Hinv key. specialize (Hinv key). destruct (m !! key) as [rec|].
  - destruct Hinv as [Hd (r0 & Hf & Hi)]. split; [exact Hd|].
    exists r0. split; [|exact Hi]. apply first_with_app_l, Hf.
  - apply Forall_app. split; [exact Hinv|].
    apply Forall_singleton, Hno.
Qed.

Lemma rank_row_inv is_organic pre r st st' :
  rows_inv sc pre st.1.1 ->
  rank_row sc is_organic st r = Returns st' ->
  rows_inv sc (pre ++ [r]) st'.1.1.
Proof.
  intros Hinv H. unfold rank_row in H. inv_bind_as H ak Ha. destruct ak as [a k].
  destruct (PyStr.is_empty a || PyStr.is_empty k) eqn:Hne.
  { injection H as <-. apply rows_inv_snoc_skip; [|exact Hinv].
    intros key (Hk & _). unfold row_key in Hk. rewrite Ha, Hne in Hk.
    discriminate Hk. }
  assert (Hstart : cells_inv sc pre r [] st.1.1).
  { intros key. specialize (Hinv key). destruct (st.1.1 !! key) as [rec|].
    - destruct Hinv as [Hd Hf]. auto.
    - split; [exact Hinv|]. intros (_ & Hd & _). apply elem_of_nil in Hd as []. }
  pose proof (rank_cells_inv _ _ _ _ _ Ha Hne _ _ _ _ Hstart H) as Hend.
  simpl in Hend. intros key. specialize (Hend key).
  destruct (st'.1.1 !! key) as [rec|].
  - destruct Hend as [Hd [(r0 & Hf & Hi)|(Hp & Hc & Hi)]]; split; auto.
    + exists r0. split; [|exact Hi]. apply first_with_app_l, Hf.
    + exists r. split; [|exact Hi]. apply first_with_app_r; [exact Hp|].
      apply first_with_cons_hit. exact Hc.
  - destruct Hend as [Hp Hc]. apply Forall_app. split; [exact Hp|].
    apply Forall_singleton. exact Hc.
Qed.

Lemma rank_rows_inv is_organic rows : forall pre st st',
  rows_inv sc pre st.1.1 ->
  rfold (rank_row sc is_organic) rows st = Returns st' ->
  rows_inv sc (pre ++ rows) st'.1.1.
Proof.
  induction rows as [|r rows IH]; simpl; intros pre st st' Hinv H.
  - injection H as <-. rewrite app_nil_r. exact Hinv.
  - inv_bind_as H st1 Hst1.
    replace (pre ++ r :: rows) with ((pre ++ [r]) ++ rows)
      by (rewrite <- app_assoc; reflexivity).
    apply (IH _ st1); [|exact H]. eapply rank_row_inv; eauto.
Qed.

Lemma build_merged_ranks_inv od sd m oc sn :
  build_merged_ranks sc od sd = Returns (m, oc, sn) ->
  rows_inv sc (rows_of od ++ rows_of sd) m.
Proof.
  unfold build_merged_ranks. intros H. inv_bind_as H st1 Hst1.
  apply (rank_rows_inv false _ (rows_of od) st1 (m, oc, sn)); [|exact H].
  apply (rank_rows_inv true _ [] (∅, O, O) st1); [|exact Hst1].
  intros key. simpl. rewrite lookup_empty. constructor.
Qed.

(** A key is in the map exactly when some row contributed to it. *)
Lemma rows_inv_is_Some rows m key :
  rows_inv sc rows m ->
  is_Some (m !! key) <-> exists r, r ∈ rows /\ counts r key.
Proof.
  intros Hinv. specialize (Hinv key). destruct (m !! key) as [rec|].
  - split; [|eauto]. intros _. destruct Hinv as [_ (r & Hf & _)].
    exists r. apply first_with_elem in Hf. exact Hf.
  - split; [intros [? ?]; discriminate|].
    intros (r & Hin & Hc). rewrite Forall_forall in Hinv.
    exfalso. exact (Hinv r Hin Hc).
Qed.

End Step2.

Lemma elem_of_kept_keys (kws : list kw_record) (ek : entity_key) :
  ek ∈ kept_keys kws <-> exists kw, kw ∈ kws /\ key_of kw = ek.
Proof.
  unfold kept_keys. rewrite elem_of_list_to_set, list_elem_of_fmap.
  split; intros (kw & H1 & H2); exists kw; auto.
Qed.

(** C2. A measurement key is in the map returned exactly when a row of
    one of the two sheets has, under the key's date column, a cell that
    classifies as a rank or as out of range, and the key's product and
    search term are those of a record that was retained. *)
Theorem measurement_map_membership clock wb mk imp kws ranks dates st :
  parse_excel clock wb mk imp = Returns (kws, ranks, dates, st) ->
  exists od sd sc,
    resolve_schema wb = Returns (od, sd, sc) /\
    forall a k d,
      is_Some (ranks !! (a, k, d)) <->
      (exists r, (r ∈ rows_of od \/ r ∈ rows_of sd) /\ contributes sc r (a, k, d)) /\
      (exists kw, kw ∈ kws /\ key_of kw = (a, k)).
Proof.
  intros H. apply parse_excel_returns in H
    as (od & sd & sc & n & kmap & m & oc & scn & Hsc & _ & Hm & _ & -> & _).
  exists od, sd, sc. split; [exact Hsc|]. intros a k d.
  apply build_merged_ranks_inv in Hm.
  rewrite <- elem_of_kept_keys.
  setoid_rewrite <- elem_of_app.
  rewrite <- (rows_inv_is_Some sc _ m (a, k, d) Hm).
  unfold is_Some. setoid_rewrite map_lookup_filter_Some. simpl.
  split.
  - intros (rec & Hl & Hk). eauto.
  - intros [(rec & Hl) Hk]. eauto.
Qed.

(** The run of the example workbook. *)
Lemma measurement_map_membership_witness :
  exists kws ranks dates st,
    parse_excel Examples.clock_a Examples.both_sheets "US" "imp-1"
      = Returns (kws, ranks, dates, st) /\
    exists od sd sc,
      resolve_schema Examples.both_sheets = Returns (od, sd, sc) /\
      forall a k d,
        is_Some (ranks !! (a, k, d)) <->
        (exists r, (r ∈ rows_of od \/ r ∈ rows_of sd) /\ contributes sc r (a, k, d)) /\
        (exists kw, kw ∈ kws /\ key_of kw = (a, k)).
Proof.
  example_run E. eexists _, _, _, _. split; [exact E|].
  exact (measurement_map_membership _ _ _ _ _ _ _ _ E).
Defined.

(** C10. Every record of the map returned agrees with its key: its date
    is the key's date, its product identifier upper-cases and its search
    term lower-cases to the key's, and both are the trimmed texts, in
    their own casing, of the first row in the order of processing
    (Organic rows, then Sponsored rows) that contributed to the key. *)
Theorem measurement_records_consistent clock wb mk imp kws ranks dates st :
  parse_excel clock wb mk imp = Returns (kws, ranks, dates, st) ->
  exists od sd sc,
    resolve_schema wb = Returns (od, sd, sc) /\
    forall a k d rec,
      ranks !! (a, k, d) = Some rec ->
      rk_date rec = d /\
      PyStr.upper (rk_asin rec) = a /\
      PyStr.lower (rk_keyword rec) = k /\
      exists r,
        first_with (fun r => contributes sc r (a, k, d)) (rows_of od ++ rows_of sd) r /\
        row_identity sc r = Returns (rk_asin rec, rk_keyword rec).
Proof.
  intros H. apply parse_excel_returns in H
    as (od & sd & sc & n & kmap & m & oc & scn & Hsc & _ & Hm & _ & -> & _).
  exists od, sd, sc. split; [exact Hsc|]. intros a k d rec Hl.
  apply map_lookup_filter_Some in Hl as [Hl _].
  apply build_merged_ranks_inv in Hm. specialize (Hm (a, k, d)).
  rewrite Hl in Hm. destruct Hm as [Hd (r & Hf & Hi)]. simpl in Hd.
  split; [exact Hd|].
  assert (Hkey : PyStr.upper (rk_asin rec) = a /\ PyStr.lower (rk_keyword rec) = k).
  { apply first_with_elem in Hf as [_ (Hk & _)]. unfold row_key in Hk.
    rewrite Hi in Hk. simpl in Hk.
    destruct (PyStr.is_empty (rk_asin rec) || PyStr.is_empty (rk_keyword rec));
      [discriminate|].
    injection Hk as <- <-. auto. }
  destruct Hkey as [Ha Hk]. split; [exact Ha|]. split; [exact Hk|].
  exists r. auto.
Qed.

(** The run of the example workbook, where the record of (B0DDD, glue)
    on 2025-01-02 carries the casing of the second Sponsored row, the
    first to have a rank on that date. *)
Lemma measurement_records_consistent_witness :
  exists kws ranks dates st,
    parse_excel Examples.clock_a Examples.both_sheets "US" "imp-1"
      = Returns (kws, ranks, dates, st) /\
    exists od sd sc,
      resolve_schema Examples.both_sheets = Returns (od, sd, sc) /\
      forall a k d rec,
        ranks !! (a, k, d) = Some rec ->
        rk_date rec = d /\
        PyStr.upper (rk_asin rec) = a /\
        PyStr.lower (rk_keyword rec) = k /\
        exists r,
          first_with (fun r => contributes sc r (a, k, d)) (rows_of od ++ rows_of sd) r /\
          row_identity sc r = Returns (rk_asin rec, rk_keyword rec).
Proof.
  example_run E. eexists _, _, _, _. split; [exact E|].
  exact (measurement_records_consistent _ _ _ _ _ _ _ _ E).
Defined.

(** ** Date columns *)

Lemma is_digit_not_space c : PyStr.is_digit c = true -> PyStr.is_space c = false.
Proof.
  unfold PyStr.is_digit, PyStr.is_space. generalize (PyStr.code c). intros n H.
  apply andb_true_iff in H as [H1 H2].
  apply Nat.leb_le in H1. apply Nat.leb_le in H2.
  apply orb_false_iff. split; apply andb_false_iff.
  - right. apply Nat.leb_gt. lia.
  - right. apply Nat.leb_gt. lia.
Qed.

Lemma rstrip_nonempty a c b :
  PyStr.is_space c = false -> PyStr.rstrip (a +:+ String c b) <> "".
Proof.
  intros Hc. induction a as [|x a IH]; simpl.
  - destruct (PyStr.rstrip b); [rewrite Hc|]; discriminate.
  - destruct (PyStr.rstrip (a +:+ String c b)); [contradiction|discriminate].
Qed.

Lemma rstrip_app a b :
  PyStr.rstrip b <> "" -> PyStr.rstrip (a +:+ b) = a +:+ PyStr.rstrip b.
Proof.
  intros Hb. induction a as [|x a IH]; [reflexivity|].
  change (String x a +:+ b) with (String x (a +:+ b)).
  change (String x a +:+ PyStr.rstrip b) with (String x (a +:+ PyStr.rstrip b)).
  cbn [PyStr.rstrip]. rewrite IH.
  destruct (a +:+ PyStr.rstrip b) eqn:E; [|reflexivity].
  destruct a; [contradiction|discriminate].
Qed.

Lemma rstrip_length s : (String.length (PyStr.rstrip s) <= String.length s)%nat.
Proof.
  induction s as [|c s IH]; simpl; [lia|].
  destruct (PyStr.rstrip s); [destruct (PyStr.is_space c)|]; simpl in *; lia.
Qed.

(** Trimmed text does not end in white space. *)
Lemma rstrip_last s a c :
  PyStr.rstrip s = a +:+ String c "" -> PyStr.is_space c = false.
Proof.
  revert a. induction s as [|x s IH]; simpl; intros a H.
  - destruct a; discriminate.
  - destruct (PyStr.rstrip s) as [|y t] eqn:E.
    + destruct (PyStr.is_space x) eqn:Ex; [destruct a; discriminate|].
      destruct a as [|? [|? ?]]; simpl in H; try discriminate.
      injection H as <-. exact Ex.
    + destruct a as [|z a]; simpl in H.
      * discriminate.
      * injection H as _ H. eapply IH. exact H.
Qed.

Lemma take_length n s : (String.length (PyStr.take n s) <= n)%nat.
Proof.
  revert s. induction n as [|n IH]; intros [|c s]; simpl; try lia.
  specialize (IH s). lia.
Qed.

Ltac match_step H :=
  cbv beta iota in H;
  match type of H with
  | context [if PyStr.is_digit ?c then _ else _] =>
      destruct (PyStr.is_digit c) eqn:?; [|cbv beta iota in H; discriminate H]
  | context [if Ascii.eqb ?c ?d then _ else _] =>
      destruct (Ascii.eqb c d) eqn:?; [|cbv beta iota in H; discriminate H]
  | context [match ?s with EmptyString => _ | String _ _ => _ end] =>
      is_var s; destruct s as [|? ?]; [cbv beta iota in H; discriminate H|]
  end.

Ltac ymd_facts H :=
  cbn [list_ascii_of_string forallb] in H;
  apply andb_true_iff in H as [H ?];
  repeat match goal with
         | Hx : _ && _ = true |- _ => apply andb_true_iff in Hx as [? ?]
         end.

(** The pattern accepts the date texts, and a date text followed by one
    line feed, which [$] lets through. *)
Lemma date_pattern_match_true s :
  date_pattern_match s = true <->
  is_ymd s = true \/
  (is_ymd (PyStr.take 10 s) = true /\ PyStr.drop 10 s = String (ascii_of_nat 10) "").
Proof.
  unfold date_pattern_match, is_ymd, DATE_PATTERN. split.
  - intros H. cbn [match_items] in H. do 20 match_step H. cbv beta iota in H.
    cbn [PyStr.take PyStr.drop list_ascii_of_string forallb].
    repeat match goal with E : _ = true |- _ => rewrite E; clear E end.
    match type of H with at_dollar ?s = true => destruct s as [|c [|? ?]]; try discriminate H end.
    + left. reflexivity.
    + right. cbn in H. apply Ascii.eqb_eq in H. subst c.
      split; reflexivity.
  - intros [H|[H1 H2]].
    + do 10 (destruct s as [|? s]; [discriminate H|]).
      destruct s; [|discriminate H]. ymd_facts H.
      cbn [match_items].
      repeat match goal with E : _ = true |- _ => rewrite E; clear E end.
      reflexivity.
    + do 10 (destruct s as [|? s]; [discriminate H1|]).
      cbn [PyStr.drop] in H2. subst s. cbn [PyStr.take] in H1. ymd_facts H1.
      cbn [match_items].
      repeat match goal with E : _ = true |- _ => rewrite E; clear E end.
      reflexivity.
Qed.

Lemma date_pattern_match_ymd s :
  date_pattern_match s =
  is_ymd s || (is_ymd (PyStr.take 10 s)
               && String.eqb (PyStr.drop 10 s) (String (ascii_of_nat 10) "")).
Proof.
  apply eq_true_iff_eq. rewrite date_pattern_match_true.
  rewrite orb_true_iff, andb_true_iff, String.eqb_eq. reflexivity.
Qed.

Lemma is_ymd_length s : is_ymd s = true -> String.length s = 10%nat.
Proof.
  unfold is_ymd. do 10 (destruct s as [|? s]; [discriminate|]).
  destruct s; [reflexivity|discriminate].
Qed.

Lemma drop_take_app n s : PyStr.take n s +:+ PyStr.drop n s = s.
Proof.
  revert s. induction n as [|n IH]; intros [|c s]; try reflexivity.
  cbn [PyStr.take PyStr.drop].
  change (String c (PyStr.take n s) +:+ PyStr.drop n s)
    with (String c (PyStr.take n s +:+ PyStr.drop n s)).
  rewrite IH. reflexivity.
Qed.

Lemma date_pattern_match_stripped s :
  date_pattern_match (PyStr.strip s) = is_ymd (PyStr.strip s).
Proof.
  rewrite date_pattern_match_ymd.
  destruct (is_ymd (PyStr.take 10 (PyStr.strip s))
            && String.eqb (PyStr.drop 10 (PyStr.strip s)) (String (ascii_of_nat 10) ""))
    eqn:E; [|apply orb_false_r].
  exfalso. apply andb_true_iff in E as [_ E]. apply String.eqb_eq in E.
  pose proof (drop_take_app 10 (PyStr.strip s)) as Happ. rewrite E in Happ.
  unfold PyStr.strip in Happ. symmetry in Happ.
  apply rstrip_last in Happ. vm_compute in Happ. discriminate Happ.
Qed.

Lemma date_pattern_match_take s :
  date_pattern_match (PyStr.take 10 s) = is_ymd (PyStr.take 10 s).
Proof.
  rewrite date_pattern_match_ymd.
  destruct (is_ymd (PyStr.take 10 (PyStr.take 10 s))
            && String.eqb (PyStr.drop 10 (PyStr.take 10 s)) (String (ascii_of_nat 10) ""))
    eqn:E; [|apply orb_false_r].
  exfalso. apply andb_true_iff in E as [_ E]. apply String.eqb_eq in E.
  pose proof (drop_take_app 10 (PyStr.take 10 s)) as Happ. rewrite E in Happ.
  pose proof (take_length 10 s) as Hl. rewrite <- Happ in Hl.
  pose proof (take_length 10 (PyStr.take 10 s)) as Hl'.
  assert (Hlen : forall a b, String.length (a +:+ b) = (String.length a + String.length b)%nat).
  { induction a; simpl; intros; [reflexivity|]. rewrite IHa. reflexivity. }
  rewrite Hlen in Hl. simpl in Hl.
  assert (String.length (PyStr.take 10 (PyStr.take 10 s)) = String.length (PyStr.take 10 s)).
  { clear. generalize 10%nat. intros n. revert s.
    induction n as [|n IH]; intros [|c s]; simpl; auto. }
  rewrite <- Happ in H at 2. rewrite Hlen in H. simpl in H. lia.
Qed.

(** The code's [normalized] is the canonical date. *)
Lemma normalize_column_canonical col :
  normalize_column col = canonical_date col.
Proof.
  unfold normalize_column, canonical_date.
  rewrite date_pattern_match_stripped, date_pattern_match_take. reflexivity.
Qed.

Lemma is_ymd_nonempty s : is_ymd s = true -> PyStr.is_empty s = false.
Proof. intros H. apply is_ymd_length in H. destruct s; [discriminate|reflexivity]. Qed.

Lemma app_nonempty a c b : PyStr.is_empty (a +:+ String c b) = false.
Proof. destruct a; reflexivity. Qed.

(** A canonical date is never the empty text, so the truth test on
    [normalized] lets every one through. *)
Lemma canonical_date_nonempty col d :
  canonical_date col = Some d -> PyStr.is_empty d = false.
Proof.
  unfold canonical_date.
  destruct (is_ymd (PyStr.strip (str col))) eqn:E1.
  { intros [= <-]. apply is_ymd_nonempty, E1. }
  destruct (strftime_ymd col) as [t|] eqn:E2.
  { intros [= <-]. destruct col; simpl in E2; try discriminate;
      injection E2 as <-; first [apply app_nonempty | reflexivity]. }
  destruct (_ && is_ymd (PyStr.take 10 (PyStr.strip (str col)))) eqn:E3; [|discriminate].
  intros [= <-]. apply andb_true_iff in E3 as [_ E3]. apply is_ymd_nonempty, E3.
Qed.

Lemma detect_step_dates acc col :
  (detect_step acc col).1 = acc.1 ++ from_option (fun d => [d]) [] (canonical_date col).
Proof.
  unfold detect_step. rewrite normalize_column_canonical.
  destruct (canonical_date col) as [d|] eqn:E; simpl.
  - rewrite (canonical_date_nonempty _ _ E). reflexivity.
  - rewrite app_nil_r. reflexivity.
Qed.

Lemma detect_fold_dates cols : forall acc,
  (fold_left detect_step cols acc).1 = acc.1 ++ omap canonical_date cols.
Proof.
  induction cols as [|col cols IH]; intros acc; simpl.
  - rewrite app_nil_r. reflexivity.
  - rewrite IH, detect_step_dates, <- app_assoc. f_equal.
    destruct (canonical_date col); reflexivity.
Qed.

(** *** Timestamps and date texts *)

Lemma years_ok : forallb year_ok (seq 0 (Z.to_nat 9000)) = true.
Proof. vm_compute. reflexivity. Qed.

Lemma fields_ok : forallb field_ok (seq 0 (Z.to_nat 100)) = true.
Proof. vm_compute. reflexivity. Qed.

Lemma year_shape y :
  1000 <= y <= 9999 ->
  digit4 (PyStr.zero_pad 4 y) = true /\ PyStr.of_int y = PyStr.zero_pad 4 y.
Proof.
  intros Hy. pose proof years_ok as H. rewrite forallb_forall in H.
  specialize (H (Z.to_nat (y - 1000))). unfold year_ok in H.
  replace (Z.of_nat (Z.to_nat (y - 1000)) + 1000) with y in H by lia.
  apply andb_true_iff in H as [H1 H2].
  - split; [exact H1|]. apply String.eqb_eq, H2.
  - apply in_seq. lia.
Qed.

Lemma field_shape n : 0 <= n <= 99 -> digit2 (PyStr.zero_pad 2 n) = true.
Proof.
  intros Hn. pose proof fields_ok as H. rewrite forallb_forall in H.
  specialize (H (Z.to_nat n)). unfold field_ok in H.
  rewrite Z2Nat.id in H by lia. apply H. apply in_seq. lia.
Qed.

Ltac rewrite_digits :=
  repeat match goal with
         | H : PyStr.is_digit ?x = true |- context [PyStr.is_digit ?x] => rewrite H
         end.

(** The ISO text of a date with a four digit year is a date text,
    trimming leaves it alone, and it stays the first ten characters of
    the trimmed text when more text follows. *)
Lemma iso_date_ymd y mo d :
  1000 <= y <= 9999 -> 1 <= mo <= 12 -> 1 <= d <= 31 ->
  is_ymd (iso_date y mo d) = true /\
  PyStr.strip (iso_date y mo d) = iso_date y mo d /\
  forall rest, PyStr.rstrip rest <> "" ->
    is_ymd (PyStr.strip (iso_date y mo d +:+ rest)) = false /\
    is_ymd (PyStr.take 10 (PyStr.strip (iso_date y mo d +:+ rest))) = true /\
    PyStr.take 10 (PyStr.strip (iso_date y mo d +:+ rest)) = iso_date y mo d /\
    (10 <=? String.length (PyStr.strip (iso_date y mo d +:+ rest)))%nat = true.
Proof.
  intros Hy Hmo Hd. unfold iso_date.
  destruct (year_shape y Hy) as [H4 _].
  pose proof (field_shape mo ltac:(lia)) as Hm2.
  pose proof (field_shape d ltac:(lia)) as Hd2.
  destruct (PyStr.zero_pad 4 y) as [|a [|b [|c [|e [|? ?]]]]]; try discriminate H4.
  destruct (PyStr.zero_pad 2 mo) as [|f [|g [|? ?]]]; try discriminate Hm2.
  destruct (PyStr.zero_pad 2 d) as [|h [|i [|? ?]]]; try discriminate Hd2.
  cbn [digit4 digit2 forallb] in H4, Hm2, Hd2.
  repeat match goal with
         | H : _ && _ = true |- _ => apply andb_true_iff in H as [? ?]
         end.
  repeat match goal with H : true = true |- _ => clear H end.
  assert (Hsp : forall x, PyStr.is_digit x = true -> PyStr.is_space x = false)
    by exact is_digit_not_space.
  pose proof (Hsp a ltac:(assumption)) as Sa.
  pose proof (Hsp i ltac:(assumption)) as Si.
  cbv [String.append]. unfold is_ymd. cbn [list_ascii_of_string forallb].
  rewrite_digits.
  split; [reflexivity|]. split.
  - unfold PyStr.strip. cbn [PyStr.lstrip]. rewrite Sa.
    cbn [PyStr.rstrip]. rewrite Si. reflexivity.
  - intros rest Hrs. unfold PyStr.strip. cbn [PyStr.lstrip]. rewrite Sa.
    change (String a (String b (String c (String e (String "-" (String f
             (String g (String "-" (String h (String i rest))))))))))
      with (String a (String b (String c (String e (String "-" (String f
             (String g (String "-" (String h (String i "")))))))))
            +:+ rest).
    rewrite rstrip_app by exact Hrs.
    cbv [String.append]. cbn [PyStr.take list_ascii_of_string].
    destruct (PyStr.rstrip rest) as [|x t] eqn:Er; [contradiction|].
    cbn [list_ascii_of_string String.length forallb PyStr.take].
    rewrite_digits. repeat split; reflexivity.
Qed.

Lemma iso_time_rstrip h mi s us :
  PyStr.rstrip (" " +:+ iso_time h mi s us) <> "".
Proof.
  unfold iso_time.
  exact (rstrip_nonempty (String " " (PyStr.zero_pad 2 h)) ":" _ eq_refl).
Qed.

Lemma canonical_date_timestamp y mo d h mi s us :
  1000 <= y <= 9999 -> 1 <= mo <= 12 -> 1 <= d <= 31 ->
  canonical_date (CDateTime y mo d h mi s us) = Some (iso_date y mo d) /\
  canonical_date (CDate y mo d) = Some (iso_date y mo d) /\
  canonical_date (CStr (iso_date y mo d)) = Some (iso_date y mo d).
Proof.
  intros Hy Hmo Hd.
  destruct (iso_date_ymd y mo d Hy Hmo Hd) as (H1 & H2 & H3).
  destruct (H3 _ (iso_time_rstrip h mi s us)) as (H4 & _).
  unfold canonical_date. cbn [str strftime_ymd].
  rewrite H4, H2, H1. repeat split.
  unfold iso_date. destruct (year_shape y Hy) as [_ ->]. reflexivity.
Qed.

(** *** Sorting *)

Lemma leb_total a b : PyStr.leb a b = true \/ PyStr.leb b a = true.
Proof.
  revert b. induction a as [|x a IH]; intros [|y b]; simpl; auto.
  destruct (Nat.ltb_spec (PyStr.code x) (PyStr.code y)); auto.
  destruct (Nat.ltb_spec (PyStr.code y) (PyStr.code x)); auto.
Qed.

Lemma leb_trans a b c :
  PyStr.leb a b = true -> PyStr.leb b c = true -> PyStr.leb a c = true.
Proof.
  revert b c. induction a as [|x a IH]; intros [|y b] [|z c]; simpl; auto;
    try discriminate.
  destruct (Nat.ltb_spec (PyStr.code x) (PyStr.code y)),
           (Nat.ltb_spec (PyStr.code y) (PyStr.code x)),
           (Nat.ltb_spec (PyStr.code y) (PyStr.code z)),
           (Nat.ltb_spec (PyStr.code z) (PyStr.code y)),
           (Nat.ltb_spec (PyStr.code x) (PyStr.code z)),
           (Nat.ltb_spec (PyStr.code z) (PyStr.code x));
    try lia; try discriminate; auto.
  apply IH.
Qed.

Lemma insert_sorted_elem x l y : y ∈ insert_sorted x l -> y = x \/ y ∈ l.
Proof.
  induction l as [|z l IH]; simpl.
  - intros H. apply list_elem_of_singleton in H. auto.
  - destruct (PyStr.leb x z).
    + intros H. apply elem_of_cons in H as [->|H]; auto.
    + intros H. apply elem_of_cons in H as [->|H].
      * right. left.
      * destruct (IH H); auto. right. right. assumption.
Qed.

Lemma insert_sorted_ascending x l : ascending l -> ascending (insert_sorted x l).
Proof.
  unfold ascending. induction l as [|y l IH]; simpl; intros Hl.
  - repeat constructor.
  - apply StronglySorted_inv in Hl as [Hl Hy].
    destruct (PyStr.leb x y) eqn:E.
    + constructor; [constructor; assumption|].
      constructor; [exact E|].
      eapply Forall_impl; [exact Hy|]. simpl. intros z Hz.
      eapply leb_trans; eauto.
    + constructor; [auto|]. apply Forall_forall. intros z Hz.
      apply insert_sorted_elem in Hz as [->|Hz].
      * destruct (leb_total x y); congruence.
      * rewrite Forall_forall in Hy. auto.
Qed.

Lemma sorted_ascending l : ascending (sorted l).
Proof.
  induction l as [|x l IH]; simpl; [constructor|].
  apply insert_sorted_ascending, IH.
Qed.

Lemma insert_sorted_perm x l : Permutation (insert_sorted x l) (x :: l).
Proof.
  induction l as [|y l IH]; simpl; [reflexivity|].
  destruct (PyStr.leb x y); [reflexivity|].
  rewrite IH. apply perm_swap.
Qed.

Lemma sorted_perm l : Permutation (sorted l) l.
Proof.
  induction l as [|x l IH]; simpl; [reflexivity|].
  rewrite insert_sorted_perm, IH. reflexivity.
Qed.

Lemma resolve_schema_dates wb od sd sc :
  resolve_schema wb = Returns (od, sd, sc) ->
  exists header rows,
    primary_sheet od sd = Some (header :: rows) /\
    sorted_dates sc
    = sorted (detect_date_columns (CStr <$> (header_text <$> header))).1.
Proof.
  unfold resolve_schema.
  destruct (negb _ && negb _); [discriminate|].
  set (o := if bool_decide ("Organic" ∈ sheet_names wb) then _ else _).
  set (p := if bool_decide ("Sponsored" ∈ sheet_names wb) then _ else _).
  destruct (primary_sheet o p) as [[|header [|r rows]]|] eqn:Ep; try discriminate.
  destruct (filter _ _); [|discriminate].
  destruct (detect_date_columns _) as [[|dc dcs] dcm] eqn:Ed; [discriminate|].
  intros [= <- <- <-]. exists header, (r :: rows). rewrite Ep, Ed. auto.
Qed.

(** C7 as stated fails: a header whose text has white space before the
    date is none of the three kinds of cell the rules name, so the rules
    read on the cell as it is ignore it, yet the code counts it as a date
    column. *)
Lemma date_rules_untrimmed_fail :
  ~ (forall cols, (detect_date_columns cols).1 = omap canonical_date_untrimmed cols).
Proof.
  intros H. specialize (H [CStr " 2025-01-05"]). vm_compute in H. discriminate H.
Qed.

(** C7, amended. The rules are read on the text of the header cell with
    the surrounding white space trimmed: the dates detected are, in the
    order of the header, the canonical dates of its cells, where a text
    that is a date is kept, else a timestamp-like value gives its
    calendar date, else a text whose first ten characters are a date
    gives those, and any other cell is left out. A timestamp and the
    date text of one calendar date give the same single canonical date,
    and the dates a run returns are in ascending order. *)
Theorem date_normalization :
  (forall cols, (detect_date_columns cols).1 = omap canonical_date cols) /\
  (forall y mo d h mi s us,
     1000 <= y <= 9999 -> 1 <= mo <= 12 -> 1 <= d <= 31 ->
     (detect_date_columns [CDateTime y mo d h mi s us]).1 = [iso_date y mo d] /\
     (detect_date_columns [CDate y mo d]).1 = [iso_date y mo d] /\
     (detect_date_columns [CStr (iso_date y mo d)]).1 = [iso_date y mo d]) /\
  (forall clock wb mk imp kws ranks dates st,
     parse_excel clock wb mk imp = Returns (kws, ranks, dates, st) ->
     ascending dates).
Proof.
  assert (Hd : forall cols, (detect_date_columns cols).1 = omap canonical_date cols).
  { intros cols. unfold detect_date_columns. rewrite detect_fold_dates. reflexivity. }
  split; [exact Hd|]. split.
  - intros y mo d h mi s us Hy Hmo Hdd.
    destruct (canonical_date_timestamp y mo d h mi s us Hy Hmo Hdd) as (H1 & H2 & H3).
    rewrite !Hd. cbn [omap list_omap]. rewrite H1, H2, H3. auto.
  - intros clock wb mk imp kws ranks dates st H.
    apply parse_excel_returns in H
      as (od & sd & sc & n & kmap & m & oc & scn & Hsc & _ & _ & _ & _ & ->).
    apply resolve_schema_dates in Hsc as (header & rows & _ & ->).
    apply sorted_ascending.
Qed.

(** The header cells for 5 January 2025, and the dates of the run of the
    example workbook. *)
Lemma date_normalization_witness :
  (detect_date_columns [CDateTime 2025 1 5 0 0 0 0]).1 = ["2025-01-05"] /\
  (detect_date_columns [CDate 2025 1 5]).1 = ["2025-01-05"] /\
  (detect_date_columns [CStr "2025-01-05"]).1 = ["2025-01-05"] /\
  exists kws ranks dates st,
    parse_excel Examples.clock_a Examples.both_sheets "US" "imp-1"
      = Returns (kws, ranks, dates, st) /\
    ascending dates.
Proof.
  destruct date_normalization as (_ & Hts & Hasc).
  destruct (Hts 2025 1 5 0 0 0 0) as (H1 & H2 & H3); [lia|lia|lia|].
  split; [exact H1|]. split; [exact H2|]. split; [exact H3|].
  example_run E. eexists _, _, _, _. split; [exact E|].
  exact (Hasc _ _ _ _ _ _ _ _ E).
Defined.

(** ** The clock *)

Section Clock.
Variables clock1 clock2 : nat -> string.
Variables mk imp : string.
Variable sc : schema.

Local Abbreviation un := (fmap (M:=list) (prod_map (@id entity_key) unstamped)).
Local Abbreviation state_un :=
  (rmap (fun st : nat * list (entity_key * kw_record) => (st.1, un st.2))).

(** The reading of the clock reaches the field [updated_at] and nothing
    else. *)
Lemma kw_record_of_clock now now' a k r :
  rmap unstamped (kw_record_of mk imp sc now a k r)
  = rmap unstamped (kw_record_of mk imp sc now' a k r).
Proof.
  unfold kw_record_of.
  repeat (match goal with
          | |- context [rbind ?e _] => destruct e; simpl
          end; try reflexivity).
Qed.

Lemma od_mem_un (m : list (entity_key * kw_record)) k :
  od_mem k (un m) = od_mem k m.
Proof.
  unfold od_mem. rewrite od_fmap_get.
  destruct (od_get k m); simpl; reflexivity.
Qed.

Lemma keyword_row_clock is_organic n m1 m2 r :
  un m1 = un m2 ->
  state_un (keyword_row clock1 mk imp sc is_organic (n, m1) r)
  = state_un (keyword_row clock2 mk imp sc is_organic (n, m2) r).
Proof.
  intros Hm. unfold keyword_row.
  destruct (row_identity sc r) as [[a k]|e]; simpl; [|reflexivity].
  destruct (PyStr.is_empty a || PyStr.is_empty k); simpl; [rewrite Hm; reflexivity|].
  rewrite <- (od_mem_un m1), <- (od_mem_un m2), Hm.
  destruct (negb is_organic && od_mem _ (un m2)); simpl; [rewrite Hm; reflexivity|].
  pose proof (kw_record_of_clock (clock1 n) (clock2 n) a k r) as Hc.
  destruct (kw_record_of mk imp sc (clock1 n) a k r) as [r1|e1],
           (kw_record_of mk imp sc (clock2 n) a k r) as [r2|e2];
    cbn [rmap] in Hc |- *; try discriminate Hc.
  - assert (Hu : unstamped r1 = unstamped r2) by congruence.
    cbn [rbind rmap fst snd]. rewrite !od_fmap_set, Hm, Hu. reflexivity.
  - injection Hc as ->. reflexivity.
Qed.

Lemma keyword_pass_clock is_organic rows : forall n m1 m2,
  un m1 = un m2 ->
  state_un (rfold (keyword_row clock1 mk imp sc is_organic) rows (n, m1))
  = state_un (rfold (keyword_row clock2 mk imp sc is_organic) rows (n, m2)).
Proof.
  induction rows as [|r rows IH]; intros n m1 m2 Hm; simpl.
  - rewrite Hm. reflexivity.
  - pose proof (keyword_row_clock is_organic n m1 m2 r Hm) as Hr.
    destruct (keyword_row clock1 mk imp sc is_organic (n, m1) r) as [[n1 x1]|e1],
             (keyword_row clock2 mk imp sc is_organic (n, m2) r) as [[n2 x2]|e2];
      simpl in Hr |- *; try discriminate Hr.
    + injection Hr as <- Hx. apply IH, Hx.
    + injection Hr as ->. reflexivity.
Qed.

Lemma build_keyword_map_clock od sd :
  state_un (build_keyword_map clock1 mk imp sc od sd)
  = state_un (build_keyword_map clock2 mk imp sc od sd).
Proof.
  unfold build_keyword_map.
  pose proof (keyword_pass_clock false (rows_of sd) O [] [] eq_refl) as Hs.
  destruct (rfold (keyword_row clock1 mk imp sc false) (rows_of sd) (O, []))
    as [[n1 x1]|e1],
           (rfold (keyword_row clock2 mk imp sc false) (rows_of sd) (O, []))
    as [[n2 x2]|e2];
    simpl in Hs |- *; try discriminate Hs.
  - injection Hs as <- Hx. apply keyword_pass_clock, Hx.
  - injection Hs as ->. reflexivity.
Qed.

End Clock.

Lemma retained_unstamped kw : retained (unstamped kw) = retained kw.
Proof. reflexivity. Qed.

Lemma key_of_unstamped kw : key_of (unstamped kw) = key_of kw.
Proof. reflexivity. Qed.

Lemma fmap_filter_comm {A B} (f : A -> B) (P : A -> Prop) (Q : B -> Prop)
    `{forall x, Decision (P x)} `{forall y, Decision (Q y)} (l : list A) :
  (forall x, P x <-> Q (f x)) -> f <$> filter P l = filter Q (f <$> l).
Proof.
  intros HPQ. induction l as [|x l IH]; [reflexivity|].
  rewrite fmap_cons, !filter_cons.
  destruct (decide (P x)) as [Hp|Hp], (decide (Q (f x))) as [Hq|Hq].
  - rewrite fmap_cons, IH. reflexivity.
  - exfalso. apply Hq, HPQ, Hp.
  - exfalso. apply Hp, HPQ, Hq.
  - exact IH.
Qed.

Lemma od_values_unstamped (m : list (entity_key * kw_record)) :
  od_values (prod_map id unstamped <$> m) = unstamped <$> od_values m.
Proof.
  unfold od_values. induction m as [|[k kw] m IH]; [reflexivity|].
  rewrite !fmap_cons. cbn [prod_map snd id]. f_equal. exact IH.
Qed.

Lemma unstamped_retained (m : list (entity_key * kw_record)) :
  unstamped <$> filter (fun kw => retained kw = true) (od_values m)
  = filter (fun kw => retained kw = true)
      (od_values (prod_map id unstamped <$> m)).
Proof.
  rewrite od_values_unstamped. apply fmap_filter_comm.
  intros kw. rewrite retained_unstamped. reflexivity.
Qed.

Lemma kept_keys_unstamped kws : kept_keys (unstamped <$> kws) = kept_keys kws.
Proof.
  unfold kept_keys. rewrite <- list_fmap_compose. reflexivity.
Qed.

(** C8 as stated fails: two runs on the same workbook with the same
    identifiers read the clock at different times and return records
    with different [updated_at]. *)
Lemma two_runs_differ :
  parse_excel Examples.clock_a Examples.both_sheets "US" "imp-1"
  <> parse_excel Examples.clock_b Examples.both_sheets "US" "imp-1".
Proof.
  intros H.
  apply (f_equal (fun r => match r with
                           | Returns (kw :: _, _, _, _) => updated_at kw
                           | _ => ""
                           end)) in H.
  vm_compute in H. discriminate H.
Qed.

(** C8, amended. Two runs on the same workbook with the same identifiers
    agree on everything but the clock: whatever the two clocks, they
    raise the same exception or return the same measurement map, date
    list and statistics, and records equal in every field except
    [updated_at]. *)
Theorem runs_agree_up_to_clock clock1 clock2 wb mk imp :
  unstamped_output (parse_excel clock1 wb mk imp)
  = unstamped_output (parse_excel clock2 wb mk imp).
Proof.
  unfold parse_excel.
  destruct (resolve_schema wb) as [[[od sd] sc]|e]; simpl; [|reflexivity].
  pose proof (build_keyword_map_clock clock1 clock2 mk imp sc od sd) as Hk.
  destruct (build_keyword_map clock1 mk imp sc od sd) as [[n1 m1]|e1],
           (build_keyword_map clock2 mk imp sc od sd) as [[n2 m2]|e2];
    simpl in Hk |- *; try discriminate Hk.
  2: { injection Hk as ->. reflexivity. }
  injection Hk as _ Hm.
  assert (Hkws : unstamped <$> filter (fun kw => retained kw = true) (od_values m1)
               = unstamped <$> filter (fun kw => retained kw = true) (od_values m2)).
  { rewrite !unstamped_retained, Hm. reflexivity. }
  assert (Hkept : kept_keys (filter (fun kw => retained kw = true) (od_values m1))
                = kept_keys (filter (fun kw => retained kw = true) (od_values m2))).
  { rewrite <- (kept_keys_unstamped (filter _ (od_values m1))), Hkws.
    apply kept_keys_unstamped. }
  assert (Hlen : length (filter (fun kw => retained kw = true) (od_values m1))
               = length (filter (fun kw => retained kw = true) (od_values m2))).
  { rewrite <- (length_fmap unstamped (filter _ (od_values m1))), Hkws.
    apply length_fmap. }
  assert (Hall : length (od_values m1) = length (od_values m2)).
  { unfold od_values. rewrite !length_fmap.
    rewrite <- (length_fmap (prod_map id unstamped) m1), Hm. apply length_fmap. }
  destruct (build_merged_ranks sc od sd) as [[[m oc] sn]|e]; simpl; [|reflexivity].
  rewrite Hkws, Hkept, Hlen, Hall. reflexivity.
Qed.

(** C5, at a workbook the code fails on: the sheet passes every check of
    its structure, one rank cell holds the text [inf], and the run ends
    in an [OverflowError], which is neither a result nor a schema error.
    The same slip as in the classifier (C3): the handlers catch
    [ValueError] and [TypeError] only. *)
Theorem parse_excel_inf_cell_raises :
  parse_excel Examples.clock_a Examples.inf_rank "US" "imp-1" = Raises OverflowError /\
  is_schema_error OverflowError = false /\
  (exists sheets, resolve_schema Examples.inf_rank = Returns sheets).
Proof.
  split; [vm_compute; reflexivity|]. split; [reflexivity|].
  destruct (resolve_schema Examples.inf_rank) as [sheets|e] eqn:E; [eauto|].
  vm_compute in E. discriminate E.
Qed.

(** ** The cell classifier *)

Lemma parse_rank_value_shape (v : cell) (p : option Z * bool) :
  parse_rank_value v = Returns p -> rank_shape p.
Proof.
  unfold parse_rank_value, rank_shape.
  destruct (is_none v || eq_empty_str v); [intros [= <-]; auto|].
  destruct (is_nan_float v); [intros [= <-]; auto|].
  destruct (PyStr.is_empty _); [intros [= <-]; auto|].
  destruct (PyStr.endswith_char _ _); [intros [= <-]; auto|].
  intros H. apply except_returns in H as [H|[-> _]]; [|auto].
  inv_bind H. inv_bind H.
  destruct (1 <=? a0) eqn:E1, (a0 <=? 306) eqn:E2; simpl in H;
    injection H as <-; auto.
  right; right. exists a0. split; [reflexivity|lia].
Qed.

(** Whatever the cell, the classifier returns one of the three shapes or
    lets an [OverflowError] through. *)
Lemma parse_rank_value_outcome (v : cell) :
  (exists p, parse_rank_value v = Returns p /\ rank_shape p) \/
  parse_rank_value v = Raises OverflowError.
Proof.
  destruct (parse_rank_value v) as [p|e] eqn:E.
  - left. exists p. split; [reflexivity|]. eapply parse_rank_value_shape, E.
  - right. revert E. unfold parse_rank_value.
    repeat (match goal with |- context [if ?b then _ else _] => destruct b end;
            try discriminate).
    unfold float_of.
    destruct (PyFloat.of_string _) as [x|]; simpl; [|discriminate].
    destruct x as [s|s| |s m ex]; simpl; try discriminate; try congruence.
    repeat (match goal with |- context [if ?b then _ else _] => destruct b end;
            try discriminate).
Qed.

(** C3, at the cell the code fails on: the text [inf] is read as the
    float infinity, whose conversion to an integer raises an
    [OverflowError] that the handler for [ValueError] and [TypeError]
    does not catch, so the classifier is not total. *)
Theorem parse_rank_value_inf_raises :
  parse_rank_value (CStr "inf") = Raises OverflowError.
Proof. vm_compute. reflexivity. Qed.

(** C4 as stated fails: the text [150] lies inside the range 1..306, so
    the classifier does not report it as out of range. *)
Lemma classify_examples_as_stated_fail :
  ~ (parse_rank_value (CStr "97+") = Returns (None, true) /\
     parse_rank_value (CStr "") = Returns (None, false) /\
     parse_rank_value CNone = Returns (None, false) /\
     parse_rank_value (CStr "150") = Returns (None, true) /\
     parse_rank_value (CStr "42") = Returns (Some 42, false)).
Proof. vm_compute. intros (_ & _ & _ & H & _). discriminate H. Qed.

(** C4, amended: the worked examples of the classifier, with [150]
    classified as the rank 150. *)
Theorem classify_examples :
  parse_rank_value (CStr "97+") = Returns (None, true) /\
  parse_rank_value (CStr "") = Returns (None, false) /\
  parse_rank_value CNone = Returns (None, false) /\
  parse_rank_value (CStr "150") = Returns (Some 150, false) /\
  parse_rank_value (CStr "42") = Returns (Some 42, false).
Proof. vm_compute. repeat split; reflexivity. Qed.

(** ** What a run can raise *)

Lemma rbind_raises {A B} (r : result A) (k : A -> result B) (e : exn) :
  rbind r k = Raises e -> r = Raises e \/ exists a, r = Returns a /\ k a = Raises e.
Proof. destruct r as [a|e']; simpl; [eauto|]. intros [= ->]. auto. Qed.

Lemma rfold_raises {A S} (P : exn -> Prop) (f : S -> A -> result S) :
  (forall s x e, f s x = Raises e -> P e) ->
  forall xs s e, rfold f xs s = Raises e -> P e.
Proof.
  intros Hf. induction xs as [|x xs IH]; simpl; intros s e H; [discriminate|].
  apply rbind_raises in H as [H|(s' & _ & H)]; eauto.
Qed.

Lemma getitem_raises r i e : getitem r i = Raises e -> cell_error e.
Proof.
  unfold getitem. destruct (r !! i); [discriminate|]. intros [= <-]. left. reflexivity.
Qed.

Lemma to_int_raises x e :
  PyFloat.to_int x = Raises e -> e = OverflowError \/ e = ValueError BadLiteral.
Proof. destruct x; simpl; intros [= <-]; auto. Qed.

Lemma float_of_raises v e :
  float_of v = Raises e ->
  e = OverflowError \/ e = ValueError BadLiteral \/ e = TypeError.
Proof.
  destruct v; simpl; try (intros [= <-]; auto); try discriminate.
  - destruct (PyFloat.of_string s); [discriminate|]. intros [= <-]. auto.
  - unfold PyFloat.of_int. destruct (binary_normalize _ _ _ _ _); try discriminate.
    intros [= <-]. auto.
Qed.

Lemma except_raises {A} (r : result A) (d : A) e :
  except_value_type r d = Raises e ->
  r = Raises e /\ e <> TypeError /\ forall v, e <> ValueError v.
Proof.
  destruct r as [a|[v| | |]]; simpl; try discriminate;
    intros [= <-]; repeat split; discriminate.
Qed.

Lemma _safe_numeric_raises v e : _safe_numeric v = Raises e -> cell_error e.
Proof.
  unfold _safe_numeric. destruct (is_none v); [discriminate|].
  destruct (is_nan_float v); [discriminate|].
  intros H. apply except_raises in H as (H & Ht & Hv).
  apply rbind_raises in H as [H|(x & _ & H)]; [|discriminate].
  apply float_of_raises in H as [-> | [-> | ->]]; [right; reflexivity| |];
    [exfalso; eapply Hv; reflexivity | contradiction].
Qed.

Lemma _safe_int_raises v e : _safe_int v = Raises e -> cell_error e.
Proof.
  unfold _safe_int. destruct (is_none v); [discriminate|].
  destruct (is_nan_float v); [discriminate|].
  intros H. apply except_raises in H as (H & Ht & Hv).
  apply rbind_raises in H as [H|(x & _ & H)].
  - apply float_of_raises in H as [-> | [-> | ->]]; [right; reflexivity| |];
      [exfalso; eapply Hv; reflexivity | contradiction].
  - apply rbind_raises in H as [H|(n & _ & H)]; [|discriminate].
    apply to_int_raises in H as [-> | ->]; [right; reflexivity|].
    exfalso; eapply Hv; reflexivity.
Qed.

Lemma parse_rank_value_raises v e : parse_rank_value v = Raises e -> cell_error e.
Proof.
  intros H. destruct (parse_rank_value_outcome v) as [(p & Hp & _)|Hr].
  - congruence.
  - right. congruence.
Qed.

Section Raises.
Variable clock : nat -> string.
Variables mk imp : string.
Variable sc : schema.

Lemma row_identity_raises r e : row_identity sc r = Raises e -> cell_error e.
Proof.
  unfold row_identity. intros H.
  apply rbind_raises in H as [H|(a & _ & H)]; [eapply getitem_raises, H|].
  apply rbind_raises in H as [H|(k & _ & H)]; [eapply getitem_raises, H|].
  discriminate H.
Qed.

Lemma numeric_at_raises r name fb e :
  numeric_at sc r name fb = Raises e -> cell_error e.
Proof.
  unfold numeric_at. intros H.
  apply rbind_raises in H as [H|(c & _ & H)];
    [eapply getitem_raises, H | eapply _safe_numeric_raises, H].
Qed.

Lemma int_at_raises r name fb e :
  int_at sc r name fb = Raises e -> cell_error e.
Proof.
  unfold int_at. intros H.
  apply rbind_raises in H as [H|(c & _ & H)];
    [eapply getitem_raises, H | eapply _safe_int_raises, H].
Qed.

Lemma kw_record_of_raises now a k r e :
  kw_record_of mk imp sc now a k r = Raises e -> cell_error e.
Proof.
  unfold kw_record_of. intros H.
  repeat (apply rbind_raises in H as [H|(? & _ & H)];
          [first [eapply getitem_raises, H | eapply numeric_at_raises, H
                 | eapply int_at_raises, H]|]).
  discriminate H.
Qed.

Lemma keyword_row_raises is_organic st r e :
  keyword_row clock mk imp sc is_organic st r = Raises e -> cell_error e.
Proof.
  unfold keyword_row. intros H.
  apply rbind_raises in H as [H|([a k] & _ & H)]; [eapply row_identity_raises, H|].
  destruct (PyStr.is_empty a || PyStr.is_empty k); [discriminate|].
  destruct (negb is_organic && od_mem _ _); [discriminate|].
  apply rbind_raises in H as [H|(? & _ & H)]; [eapply kw_record_of_raises, H|].
  discriminate H.
Qed.

Lemma rank_cell_raises is_organic a k r st d e :
  rank_cell sc is_organic a k r st d = Raises e -> cell_error e.
Proof.
  unfold rank_cell. destruct st as [[m oc] sn].
  destruct (date_index sc d); [|discriminate].
  destruct (length r <=? n)%nat; [discriminate|]. intros H.
  apply rbind_raises in H as [H|(c & _ & H)]; [eapply getitem_raises, H|].
  apply rbind_raises in H as [H|([rank o] & _ & H)]; [eapply parse_rank_value_raises, H|].
  destruct (bool_decide (rank = None) && negb o); [discriminate|].
  destruct is_organic; discriminate.
Qed.

Lemma rank_row_raises is_organic st r e :
  rank_row sc is_organic st r = Raises e -> cell_error e.
Proof.
  unfold rank_row. intros H.
  apply rbind_raises in H as [H|([a k] & _ & H)]; [eapply row_identity_raises, H|].
  destruct (PyStr.is_empty a || PyStr.is_empty k); [discriminate|].
  eapply (rfold_raises cell_error); [|exact H].
  intros s d e'. apply rank_cell_raises.
Qed.

Lemma build_keyword_map_raises od sd e :
  build_keyword_map clock mk imp sc od sd = Raises e -> cell_error e.
Proof.
  unfold build_keyword_map. intros H.
  apply rbind_raises in H as [H|(? & _ & H)];
    (eapply (rfold_raises cell_error); [|exact H]);
    intros s r e'; apply keyword_row_raises.
Qed.

Lemma build_merged_ranks_raises od sd e :
  build_merged_ranks sc od sd = Raises e -> cell_error e.
Proof.
  unfold build_merged_ranks. intros H.
  apply rbind_raises in H as [H|(? & _ & H)];
    (eapply (rfold_raises cell_error); [|exact H]);
    intros s r e'; apply rank_row_raises.
Qed.

End Raises.

Lemma resolve_schema_raises wb e :
  resolve_schema wb = Raises e -> is_schema_error e = true.
Proof.
  unfold resolve_schema.
  destruct (negb _ && negb _); [intros [= <-]; reflexivity|].
  destruct (primary_sheet _ _) as [[|header [|r rows]]|];
    try (intros [= <-]; reflexivity).
  destruct (filter _ _); [|intros [= <-]; reflexivity].
  destruct (detect_date_columns _) as [[|dc dcs] dcm]; [|discriminate].
  intros [= <-]. reflexivity.
Qed.

(** A sheet without the optional metric columns and narrower than the
    fixed layout: the fallback position of a missing column is past the
    end of the row, and reading it raises an [IndexError]. *)
Lemma parse_excel_narrow_sheet_raises :
  parse_excel Examples.clock_a Examples.narrow "US" "imp-1" = Raises IndexError.
Proof. vm_compute. reflexivity. Qed.

(** How far C5 holds: a run returns the whole tuple or raises, and what
    it raises is a schema error from the checks of the structure, or an
    [IndexError] from a row shorter than a column position, or an
    [OverflowError] from a cell that reads as an infinite or too large
    number; the last two are not schema errors. *)
Lemma parse_excel_outcome clock wb mk imp :
  (exists kws ranks dates st,
     parse_excel clock wb mk imp = Returns (kws, ranks, dates, st)) \/
  (exists e, parse_excel clock wb mk imp = Raises e /\
             (is_schema_error e = true \/ cell_error e)).
Proof.
  destruct (parse_excel clock wb mk imp) as [[[[kws ranks] dates] st]|e] eqn:E.
  { left. eauto. }
  right. exists e. split; [reflexivity|].
  unfold parse_excel in E.
  apply rbind_raises in E as [E|([[od sd] sc] & _ & E)].
  { left. eapply resolve_schema_raises, E. }
  right.
  apply rbind_raises in E as [E|([n kmap] & _ & E)].
  { eapply build_keyword_map_raises, E. }
  apply rbind_raises in E as [E|([[m oc] sn] & _ & E)].
  { eapply build_merged_ranks_raises, E. }
  discriminate E.
Qed.

(** * Further properties *)

(** ** Trimming *)

Lemma rstrip_idem s : PyStr.rstrip (PyStr.rstrip s) = PyStr.rstrip s.
Proof.
  induction s as [|c s IH]; simpl; [reflexivity|].
  destruct (PyStr.rstrip s) as [|c' t] eqn:E.
  - destruct (PyStr.is_space c) eqn:Ec; simpl; [reflexivity|]. rewrite Ec. reflexivity.
  - change (PyStr.rstrip (String c (String c' t)))
      with (match PyStr.rstrip (String c' t) with
            | EmptyString => if PyStr.is_space c then EmptyString else String c EmptyString
            | u => String c u
            end).
    rewrite IH. reflexivity.
Qed.

Lemma lstrip_head s c t : PyStr.lstrip s = String c t -> PyStr.is_space c = false.
Proof.
  induction s as [|x s IH]; simpl; [discriminate|].
  destruct (PyStr.is_space x) eqn:Ex; [exact IH|]. intros [= <- _]. exact Ex.
Qed.

Lemma rstrip_head c s :
  PyStr.is_space c = false -> exists t, PyStr.rstrip (String c s) = String c t.
Proof.
  intros Hc. simpl. destruct (PyStr.rstrip s); [rewrite Hc|]; eauto.
Qed.

Lemma strip_head s c t : PyStr.strip s = String c t -> PyStr.is_space c = false.
Proof.
  unfold PyStr.strip. destruct (PyStr.lstrip s) as [|x u] eqn:E; [discriminate|].
  apply lstrip_head in E. destruct (rstrip_head x u E) as (t' & ->).
  intros [= <- _]. exact E.
Qed.

Lemma strip_idem s : PyStr.strip (PyStr.strip s) = PyStr.strip s.
Proof.
  destruct (PyStr.strip s) as [|c t] eqn:E; [reflexivity|].
  pose proof (strip_head _ _ _ E) as Hc.
  unfold PyStr.strip at 1. simpl PyStr.lstrip. rewrite Hc.
  rewrite <- E. unfold PyStr.strip. apply rstrip_idem.
Qed.

Lemma _safe_str_trimmed c : PyStr.strip (_safe_str c) = _safe_str c.
Proof.
  unfold _safe_str. destruct (is_none c); [reflexivity|].
  destruct (is_nan_float c); [reflexivity|]. apply strip_idem.
Qed.

Lemma is_nan_repr x : PyFloat.is_nan x = true -> PyFloat.repr x = "nan".
Proof. destruct x; try discriminate. intros _. vm_compute. reflexivity. Qed.

(** X1. The classification of a rank cell depends on nothing but the
    cell's text with the surrounding white space removed: the cell and
    the string cell holding that text classify alike, whether as a
    result or as an exception. *)
Theorem parse_rank_value_text (v : cell) :
  parse_rank_value v = parse_rank_value (CStr (PyStr.strip (str v))).
Proof.
  assert (Hs : forall s, parse_rank_value (CStr s)
                         = parse_rank_value (CStr (PyStr.strip s))).
  { intros s. unfold parse_rank_value. cbn [is_none eq_empty_str is_nan_float str orb].
    rewrite strip_idem.
    destruct (PyStr.is_empty (PyStr.strip s)) eqn:E.
    - destruct (PyStr.is_empty s); reflexivity.
    - destruct (PyStr.is_empty s) eqn:E'; [|reflexivity].
      destruct s; [discriminate E|discriminate E']. }
  destruct v; try exact (Hs _); unfold parse_rank_value at 1;
    cbn [is_none eq_empty_str is_nan_float orb].
  - vm_compute. reflexivity.
  - unfold parse_rank_value.
    cbn [is_none eq_empty_str is_nan_float str orb]. rewrite strip_idem.
    destruct (PyStr.is_empty (PyStr.strip (PyStr.of_int n))); reflexivity.
  - destruct (PyFloat.is_nan x) eqn:En.
    + cbn [str]. rewrite (is_nan_repr _ En). vm_compute. reflexivity.
    + unfold parse_rank_value.
      cbn [is_none eq_empty_str is_nan_float str orb]. rewrite strip_idem.
      destruct (PyStr.is_empty (PyStr.strip (PyFloat.repr x))); reflexivity.
  - destruct b; vm_compute; reflexivity.
  - unfold parse_rank_value.
    cbn [is_none eq_empty_str is_nan_float str orb]. rewrite strip_idem.
    destruct (PyStr.is_empty (PyStr.strip _)); reflexivity.
  - unfold parse_rank_value.
    cbn [is_none eq_empty_str is_nan_float str orb]. rewrite strip_idem.
    destruct (PyStr.is_empty (PyStr.strip _)); reflexivity.
  - unfold parse_rank_value.
    cbn [is_none eq_empty_str is_nan_float str orb]. rewrite strip_idem.
    destruct (PyStr.is_empty (PyStr.strip _)); reflexivity.
  - unfold parse_rank_value.
    cbn [is_none eq_empty_str is_nan_float str orb]. rewrite strip_idem.
    destruct (PyStr.is_empty (PyStr.strip _)); reflexivity.
Qed.

(** ** Integer ranks *)

Lemma classified_as_true p r : classified_as p r = true -> r = Returns p.
Proof.
  destruct r as [[[a|] b]|e], p as [[a'|] b']; simpl; try discriminate.
  - intros H. apply andb_true_iff in H as [Ha Hb].
    apply Z.eqb_eq in Ha as ->. apply Bool.eqb_prop in Hb as ->. reflexivity.
  - intros Hb. apply Bool.eqb_prop in Hb as ->. reflexivity.
Qed.

Lemma integers_ok : forallb integer_forms_ok (seq 0 (Z.to_nat 2001)) = true.
Proof. vm_compute. reflexivity. Qed.

(** X2. An integer between -1000 and 1000 classifies the same way as an
    [int] cell, as its decimal text, as the [float] of the same value
    and as the text of the value plus one half: a rank when it lies in
    1..306, out of range otherwise. *)
Theorem parse_rank_value_integers (n : Z) :
  -1000 <= n <= 1000 ->
  parse_rank_value (CInt n) = Returns (classify_int n) /\
  parse_rank_value (CStr (PyStr.of_int n)) = Returns (classify_int n) /\
  (exists x, PyFloat.of_int n = Returns x /\
             parse_rank_value (CFloat x) = Returns (classify_int n)) /\
  parse_rank_value (CStr (PyStr.of_int n +:+ ".5")) = Returns (classify_int n).
Proof.
  intros Hn. pose proof integers_ok as H.
  rewrite forallb_forall in H. specialize (H (Z.to_nat (n + 1000))).
  unfold integer_forms_ok in H.
  replace (Z.of_nat (Z.to_nat (n + 1000)) - 1000) with n in H by lia.
  assert (Hin : In (Z.to_nat (n + 1000)) (seq 0 (Z.to_nat 2001))).
  { apply in_seq. lia. }
  apply H in Hin. clear H.
  apply andb_true_iff in Hin as [Hin H4]. apply andb_true_iff in Hin as [Hin H3].
  apply andb_true_iff in Hin as [H1 H2].
  apply classified_as_true in H1, H2, H4.
  split; [exact H1|]. split; [exact H2|]. split; [|exact H4].
  destruct (PyFloat.of_int n) as [x|]; [|discriminate].
  exists x. split; [reflexivity|]. apply classified_as_true. exact H3.
Qed.

(** The upper bound 306. *)
Lemma parse_rank_value_integers_witness :
  parse_rank_value (CInt 306) = Returns (classify_int 306) /\
  parse_rank_value (CStr (PyStr.of_int 306)) = Returns (classify_int 306) /\
  (exists x, PyFloat.of_int 306 = Returns x /\
             parse_rank_value (CFloat x) = Returns (classify_int 306)) /\
  parse_rank_value (CStr (PyStr.of_int 306 +:+ ".5")) = Returns (classify_int 306).
Proof. apply (parse_rank_value_integers 306). lia. Defined.

(** ** Where a keyword record comes from *)

Section Provenance.
Variable clock : nat -> string.
Variables mk imp : string.
Variable sc : schema.

Lemma kw_record_of_fields now a k r record :
  kw_record_of mk imp sc now a k r = Returns record ->
  marketplace_id record = mk /\ import_id record = imp /\ updated_at record = now /\
  metrics_period_start record = head (sorted_dates sc) /\
  metrics_period_end record = last (sorted_dates sc) /\
  (exists c, sku record = PyStr.or_none (_safe_str c)) /\
  (exists c, tracked record = String.eqb (PyStr.lower (_safe_str c)) "yes").
Proof.
  unfold kw_record_of. intros H.
  repeat (let x := fresh "x" in let Hx := fresh "Hx" in
          apply rbind_returns in H; destruct H as (x & Hx & H)).
  injection H as <-. simpl. eauto 10.
Qed.

Lemma keyword_pass_rows is_organic rows : forall n m n' m' k record,
  rfold (keyword_row clock mk imp sc is_organic) rows (n, m) = Returns (n', m') ->
  (k, record) ∈ m' ->
  (k, record) ∈ m \/
  exists r, r ∈ rows /\ row_key sc r = Some k /\ built_from clock mk imp sc r record.
Proof.
  induction rows as [|r rows IH]; simpl; intros n m n' m' k record H Hin.
  { injection H as <- <-. auto. }
  inv_bind H. destruct a as [n1 m1].
  destruct (IH _ _ _ _ _ _ H Hin) as [Hm1 | (r' & Hr' & Hk & Hb)].
  2: { right. exists r'. split; [right; exact Hr'|auto]. }
  apply keyword_row_returns in Ha.
  destruct (row_key sc r) as [k0|] eqn:Ek.
  2: { destruct Ha as [_ ->]. auto. }
  destruct (negb is_organic && od_mem k0 m).
  { destruct Ha as [_ ->]. auto. }
  destruct Ha as (record0 & Hb & _ & _ & ->).
  apply od_set_elem in Hm1 as [[-> ->] | Hm]; [|auto].
  right. exists r. split; [left|auto].
Qed.

Lemma build_keyword_map_rows od sd n kmap k record :
  build_keyword_map clock mk imp sc od sd = Returns (n, kmap) ->
  (k, record) ∈ kmap ->
  exists r, (r ∈ rows_of od \/ r ∈ rows_of sd) /\ row_key sc r = Some k /\
            built_from clock mk imp sc r record.
Proof.
  unfold build_keyword_map. intros H Hin. inv_bind H. destruct a as [n1 m1].
  destruct (keyword_pass_rows _ _ _ _ _ _ _ _ H Hin) as [Hm1 | (r & Hr & Hk & Hb)].
  2: { exists r. auto. }
  destruct (keyword_pass_rows _ _ _ _ _ _ _ _ Ha Hm1) as [Hnil | (r & Hr & Hk & Hb)].
  { apply elem_of_nil in Hnil as []. }
  exists r. auto.
Qed.

End Provenance.

Lemma row_key_Some sc r k :
  row_key sc r = Some k ->
  exists a kw, row_identity sc r = Returns (a, kw) /\
               PyStr.is_empty a = false /\ PyStr.is_empty kw = false /\
               PyStr.strip a = a /\ PyStr.strip kw = kw /\
               k = (PyStr.upper a, PyStr.lower kw).
Proof.
  unfold row_key. destruct (row_identity sc r) as [[a kw]|] eqn:E; [|discriminate].
  destruct (PyStr.is_empty a) eqn:Ea; [discriminate|].
  destruct (PyStr.is_empty kw) eqn:Ek; [discriminate|]. simpl.
  intros [= <-]. exists a, kw. split; [reflexivity|].
  unfold row_identity in E. inv_bind E. inv_bind E. injection E as <- <-.
  rewrite !_safe_str_trimmed. auto 10.
Qed.

Lemma or_none_Some s t : PyStr.or_none s = Some t -> s = t /\ PyStr.is_empty t = false.
Proof.
  unfold PyStr.or_none. destruct (PyStr.is_empty s) eqn:E; [discriminate|].
  intros [= <-]. auto.
Qed.

(** X5. Every keyword record a run returns carries the marketplace and
    the import of the call and a reading of the clock; its product
    identifier and search term are trimmed and not empty; its SKU and
    title, when present, are not empty, the SKU trimmed and the title at
    most 500 characters long. *)
Theorem keyword_records_wellformed clock wb mk imp kws ranks dates st :
  parse_excel clock wb mk imp = Returns (kws, ranks, dates, st) ->
  forall kw, kw ∈ kws ->
    marketplace_id kw = mk /\ import_id kw = imp /\
    (exists n, updated_at kw = clock n) /\
    PyStr.is_empty (child_asin kw) = false /\ PyStr.strip (child_asin kw) = child_asin kw /\
    PyStr.is_empty (keyword kw) = false /\ PyStr.strip (keyword kw) = keyword kw /\
    (forall s, sku kw = Some s -> PyStr.is_empty s = false /\ PyStr.strip s = s) /\
    (forall t, title kw = Some t ->
       PyStr.is_empty t = false /\ (String.length t <= 500)%nat).
Proof.
  intros H kw Hkw.
  apply parse_excel_returns in H
    as (od & sd & sc & n & kmap & m & oc & scn & Hsc & Hk & _ & -> & _ & _).
  apply list_elem_of_filter in Hkw as [_ Hkw]. unfold od_values in Hkw.
  apply list_elem_of_fmap in Hkw as ([k kw'] & -> & Hin). simpl.
  destruct (build_keyword_map_rows _ _ _ _ _ _ _ _ _ _ Hk Hin)
    as (r & _ & Hrk & (a & t & i & Hid & Hrec)).
  apply row_key_Some in Hrk as (a' & t' & Hid' & Ha & Ht & Hsa & Hst & _).
  rewrite Hid in Hid'. injection Hid' as <- <-.
  destruct (kw_record_of_key _ _ _ _ _ _ _ _ Hrec) as [-> ->].
  destruct (kw_record_of_title _ _ _ _ _ _ _ _ Hrec) as (ct & _ & Htitle).
  destruct (kw_record_of_fields _ _ _ _ _ _ _ _ Hrec)
    as (-> & -> & Hu & _ & _ & (cs & Hsku) & _).
  repeat split; auto.
  - exists i. exact Hu.
  - rewrite Hsku in H. apply or_none_Some in H as [_ H]. exact H.
  - rewrite Hsku in H. apply or_none_Some in H as [<- _]. apply _safe_str_trimmed.
  - rewrite Htitle in H. apply or_none_Some in H as [_ H]. exact H.
  - rewrite Htitle in H. apply or_none_Some in H as [<- _]. apply take_length.
Qed.

(** The run of the example workbook. *)
Lemma keyword_records_wellformed_witness :
  exists kws ranks dates st,
    parse_excel Examples.clock_a Examples.both_sheets "US" "imp-1"
      = Returns (kws, ranks, dates, st) /\
    forall kw, kw ∈ kws ->
      marketplace_id kw = "US" /\ import_id kw = "imp-1" /\
      (exists n, updated_at kw = Examples.clock_a n) /\
      PyStr.is_empty (child_asin kw) = false /\ PyStr.strip (child_asin kw) = child_asin kw /\
      PyStr.is_empty (keyword kw) = false /\ PyStr.strip (keyword kw) = keyword kw /\
      (forall s, sku kw = Some s -> PyStr.is_empty s = false /\ PyStr.strip s = s) /\
      (forall t, title kw = Some t ->
         PyStr.is_empty t = false /\ (String.length t <= 500)%nat).
Proof.
  example_run E. eexists _, _, _, _. split; [exact E|].
  exact (keyword_records_wellformed _ _ _ _ _ _ _ _ E).
Defined.

(** ** The two placements of a rank record *)

Lemma last_with_snoc_hit {A} (P : A -> Prop) x l : P x -> last_with P (l ++ [x]) x.
Proof. intros Hx. exists l, []. split; [reflexivity|]. split; [exact Hx|constructor]. Qed.

Lemma last_with_snoc_miss {A} (P : A -> Prop) x y l :
  ~ P y -> last_with P l x -> last_with P (l ++ [y]) x.
Proof.
  intros Hy (pre & post & -> & Hx & Hpost). exists pre, (post ++ [y]).
  split; [rewrite <- app_assoc; reflexivity|]. split; [exact Hx|].
  apply Forall_app. split; [exact Hpost|]. apply Forall_singleton, Hy.
Qed.

Section Placements.
Variable sc : schema.

(** What one cell does to the map and to the two counters. *)
Lemma rank_cell_step is_organic a k r m oc sn d m' oc' sn' :
  rank_cell sc is_organic a k r (m, oc, sn) d = Returns (m', oc', sn') ->
  (~ cell_counts sc r d /\ m' = m /\ oc' = oc /\ sn' = sn) \/
  (exists rank o,
     cell_class sc r d (rank, o) /\ (rank <> None \/ o = true) /\
     let key := (PyStr.upper a, PyStr.lower k, d) in
     m' = alter (if is_organic then set_organic rank o else set_sponsored rank o) key
            (match m !! key with
             | Some _ => m
             | None => <[key := fresh_rank a k d]> m
             end) /\
     oc' = (if is_organic then S oc else oc) /\
     sn' = (if is_organic then sn else S sn)).
Proof.
  unfold rank_cell. destruct (date_index sc d) as [i|] eqn:Ei.
  2: { intros [= <- <- <-]. left. split; [|auto].
       intros (i & c & rank & o & Hi & _). congruence. }
  destruct (length r <=? i)%nat eqn:El.
  { intros [= <- <- <-]. left. split; [|auto].
    apply Nat.leb_le in El. apply lookup_ge_None in El.
    intros (i' & c & rank & o & Hi & Hc & _). congruence. }
  intros H. inv_bind_as H c0 Hc0. unfold getitem in Hc0.
  destruct (r !! i) as [c|] eqn:Ec; [|discriminate]. injection Hc0 as <-.
  inv_bind_as H p Hp0. destruct p as [rank o].
  destruct (bool_decide (rank = None) && negb o) eqn:Et.
  { injection H as <- <- <-. left. split; [|auto].
    apply andb_true_iff in Et as [Hr Ho]. apply bool_decide_eq_true in Hr.
    apply negb_true_iff in Ho.
    intros (i' & c' & rank' & o' & Hi & Hc & Hp & Hnt).
    assert (i' = i) as -> by congruence.
    assert (c' = c) as -> by congruence.
    rewrite Hp0 in Hp. injection Hp as <- <-.
    destruct Hnt; congruence. }
  right. exists rank, o. split; [exists i, c; auto|]. split.
  { apply andb_false_iff in Et as [Hr|Ho].
    - left. apply bool_decide_eq_false in Hr. exact Hr.
    - right. apply negb_false_iff in Ho. exact Ho. }
  destruct is_organic; injection H as <- <- <-; auto.
Qed.

Lemma cell_class_unique r d p q :
  cell_class sc r d p -> cell_class sc r d q -> p = q.
Proof.
  intros (i & c & Hi & Hc & Hp) (i' & c' & Hi' & Hc' & Hq).
  assert (i' = i) as -> by congruence.
  assert (c' = c) as -> by congruence. congruence.
Qed.

Lemma cell_counts_class r d :
  cell_counts sc r d <->
  exists rank o, cell_class sc r d (rank, o) /\ (rank <> None \/ o = true).
Proof.
  split.
  - intros (i & c & rank & o & Hi & Hc & Hp & Hnt). exists rank, o.
    split; [exists i, c; auto|exact Hnt].
  - intros (rank & o & (i & c & Hi & Hc & Hp) & Hnt). exists i, c, rank, o. auto.
Qed.

Lemma facet_set is_organic rank o rec :
  facet is_organic
    ((if is_organic then set_organic rank o else set_sponsored rank o) rec)
  = (rank, o) /\
  facet (negb is_organic)
    ((if is_organic then set_organic rank o else set_sponsored rank o) rec)
  = facet (negb is_organic) rec.
Proof. destruct is_organic; simpl; auto. Qed.

Lemma facet_of_snoc_miss rows r key p :
  ~ contributes sc r key -> facet_of sc rows key p -> facet_of sc (rows ++ [r]) key p.
Proof.
  intros Hno [[Hall ->] | (r0 & Hl & Hc)].
  - left. split; [|reflexivity]. apply Forall_app. split; [exact Hall|].
    apply Forall_singleton, Hno.
  - right. exists r0. split; [|exact Hc]. apply last_with_snoc_miss; assumption.
Qed.

Lemma rank_cell_facets is_organic a k r pre ds m oc sn d m' oc' sn' :
  row_identity sc r = Returns (a, k) ->
  PyStr.is_empty a || PyStr.is_empty k = false ->
  facet_cells_inv sc is_organic pre r ds m ->
  rank_cell sc is_organic a k r (m, oc, sn) d = Returns (m', oc', sn') ->
  facet_cells_inv sc is_organic pre r (ds ++ [d]) m'.
Proof.
  intros Hid Hne Hinv H.
  assert (Hrk : row_key sc r = Some (PyStr.upper a, PyStr.lower k)).
  { unfold row_key. rewrite Hid, Hne. reflexivity. }
  apply rank_cell_step in H
    as [(Hno & -> & _ & _) | (rank & o & Hcl & Hnt & Hm' & _ & _)].
  - intros key rec Hk. destruct (Hinv key rec Hk) as [[Hn Hf] | [Hc Hf]].
    + left. split; [|exact Hf]. intros Hc.
      apply contributes_in_snoc in Hc as [Hc | (_ & Hd & Hcc)]; [exact (Hn Hc)|].
      apply Hno. rewrite <- Hd. rewrite <- Hd in Hcc. exact Hcc.
    + right. split; [|exact Hf]. apply contributes_in_mono, Hc.
  - set (key0 := (PyStr.upper a, PyStr.lower k, d)) in *. cbv zeta in Hm'.
    assert (Hcc : cell_counts sc r d).
    { apply cell_counts_class. eauto. }
    intros key rec Hk. destruct (decide (key = key0)) as [-> | Hneq].
    + right. split.
      { split; [exact Hrk|]. split; [|exact Hcc].
        simpl. apply elem_of_app. right. left. }
      rewrite Hm', lookup_alter_eq in Hk.
      destruct (m !! key0) as [rec0|] eqn:E0.
      * rewrite E0 in Hk. injection Hk as <-.
        rewrite (proj1 (facet_set is_organic rank o rec0)). exact Hcl.
      * rewrite lookup_insert_eq in Hk. injection Hk as <-.
        rewrite (proj1 (facet_set is_organic rank o _)). exact Hcl.
    + assert (Hold : m !! key = Some rec).
      { rewrite Hm', lookup_alter_ne in Hk by congruence.
        destruct (m !! key0); [exact Hk|].
        rewrite lookup_insert_ne in Hk by congruence. exact Hk. }
      destruct (Hinv key rec Hold) as [[Hn Hf] | [Hc Hf]].
      * left. split; [|exact Hf]. intros Hc.
        apply contributes_in_snoc in Hc as [Hc | (Hk1 & Hd & _)]; [exact (Hn Hc)|].
        apply Hneq. destruct key as [k1 k2]. simpl in Hk1, Hd. subst k2.
        rewrite Hrk in Hk1. injection Hk1 as <-. reflexivity.
      * right. split; [|exact Hf]. apply contributes_in_mono, Hc.
Qed.

Lemma rank_cells_facets is_organic a k r pre :
  row_identity sc r = Returns (a, k) ->
  PyStr.is_empty a || PyStr.is_empty k = false ->
  forall todo ds st st',
    facet_cells_inv sc is_organic pre r ds st.1.1 ->
    rfold (rank_cell sc is_organic a k r) todo st = Returns st' ->
    facet_cells_inv sc is_organic pre r (ds ++ todo) st'.1.1.
Proof.
  intros Hid Hne. induction todo as [|d todo IH]; simpl; intros ds st st' Hinv H.
  - injection H as <-. rewrite app_nil_r. exact Hinv.
  - inv_bind_as H st1 Hst1.
    replace (ds ++ d :: todo) with ((ds ++ [d]) ++ todo)
      by (rewrite <- app_assoc; reflexivity).
    apply (IH _ st1); [|exact H].
    destruct st as [[m oc] sn], st1 as [[m1 oc1] sn1].
    eapply rank_cell_facets; eauto.
Qed.

Lemma rank_row_facets is_organic pre r st st' :
  facet_rows_inv sc is_organic pre st.1.1 ->
  rank_row sc is_organic st r = Returns st' ->
  facet_rows_inv sc is_organic (pre ++ [r]) st'.1.1.
Proof.
  intros Hinv H. unfold rank_row in H. inv_bind_as H ak Ha. destruct ak as [a k].
  destruct (PyStr.is_empty a || PyStr.is_empty k) eqn:Hne.
  { injection H as <-. intros key rec Hk. apply facet_of_snoc_miss; [|auto].
    intros (Hrk & _). unfold row_key in Hrk. rewrite Ha, Hne in Hrk.
    discriminate Hrk. }
  assert (Hstart : facet_cells_inv sc is_organic pre r [] st.1.1).
  { intros key rec Hk. left. split; [|auto].
    intros (_ & Hd & _). apply elem_of_nil in Hd as []. }
  pose proof (rank_cells_facets _ _ _ _ _ Ha Hne _ _ _ _ Hstart H) as Hend.
  simpl in Hend. intros key rec Hk.
  destruct (Hend key rec Hk) as [[Hn Hf] | [Hc Hf]].
  - apply facet_of_snoc_miss; assumption.
  - right. exists r. split; [|exact Hf]. apply last_with_snoc_hit. exact Hc.
Qed.

Lemma rank_rows_facets is_organic rows : forall pre st st',
  facet_rows_inv sc is_organic pre st.1.1 ->
  rfold (rank_row sc is_organic) rows st = Returns st' ->
  facet_rows_inv sc is_organic (pre ++ rows) st'.1.1.
Proof.
  induction rows as [|r rows IH]; simpl; intros pre st st' Hinv H.
  - injection H as <-. rewrite app_nil_r. exact Hinv.
  - inv_bind_as H st1 Hst1.
    replace (pre ++ r :: rows) with ((pre ++ [r]) ++ rows)
      by (rewrite <- app_assoc; reflexivity).
    apply (IH _ st1); [|exact H]. eapply rank_row_facets; eauto.
Qed.

(** The other placement. *)
Lemma keeps_other_refl is_organic m : keeps_other is_organic m m.
Proof. intros key. destruct (m !! key); reflexivity. Qed.

Lemma keeps_other_trans is_organic m1 m2 m3 :
  keeps_other is_organic m1 m2 -> keeps_other is_organic m2 m3 ->
  keeps_other is_organic m1 m3.
Proof.
  intros H12 H23 key. specialize (H12 key). specialize (H23 key).
  destruct (m3 !! key) as [rec3|].
  - destruct (m2 !! key) as [rec2|]; simpl in H23.
    + rewrite H23. exact H12.
    + rewrite H12. exact H23.
  - rewrite H23 in H12. exact H12.
Qed.

Lemma rank_cell_keeps is_organic a k r m oc sn d m' oc' sn' :
  rank_cell sc is_organic a k r (m, oc, sn) d = Returns (m', oc', sn') ->
  keeps_other is_organic m m'.
Proof.
  intros H. apply rank_cell_step in H
    as [(_ & -> & _ & _) | (rank & o & _ & _ & Hm' & _ & _)].
  { apply keeps_other_refl. }
  set (key0 := (PyStr.upper a, PyStr.lower k, d)) in *. cbv zeta in Hm'.
  intros key. rewrite Hm'. destruct (decide (key = key0)) as [-> | Hneq].
  - rewrite lookup_alter_eq. destruct (m !! key0) as [rec0|] eqn:E0; simpl.
    + rewrite E0. simpl. apply facet_set.
    + rewrite lookup_insert_eq. simpl.
      rewrite (proj2 (facet_set is_organic rank o _)).
      destruct is_organic; reflexivity.
  - rewrite lookup_alter_ne by congruence. destruct (m !! key0).
    + destruct (m !! key); reflexivity.
    + rewrite lookup_insert_ne by congruence. destruct (m !! key); reflexivity.
Qed.

Lemma rank_cells_keeps is_organic a k r ds : forall st st',
  rfold (rank_cell sc is_organic a k r) ds st = Returns st' ->
  keeps_other is_organic st.1.1 st'.1.1.
Proof.
  induction ds as [|d ds IH]; simpl; intros st st' H.
  - injection H as <-. apply keeps_other_refl.
  - inv_bind_as H st1 Hst1. apply (keeps_other_trans _ _ st1.1.1); [|eauto].
    destruct st as [[m oc] sn], st1 as [[m1 oc1] sn1].
    eapply rank_cell_keeps; eauto.
Qed.

Lemma rank_rows_keeps is_organic rows : forall st st',
  rfold (rank_row sc is_organic) rows st = Returns st' ->
  keeps_other is_organic st.1.1 st'.1.1.
Proof.
  induction rows as [|r rows IH]; simpl; intros st st' H.
  - injection H as <-. apply keeps_other_refl.
  - inv_bind_as H st1 Hst1. apply (keeps_other_trans _ _ st1.1.1); [|eauto].
    unfold rank_row in Hst1. inv_bind_as Hst1 ak Ha. destruct ak as [a k].
    destruct (PyStr.is_empty a || PyStr.is_empty k).
    + injection Hst1 as <-. apply keeps_other_refl.
    + eapply rank_cells_keeps; eauto.
Qed.

(** Both placements of every record of the merged map. *)
Lemma build_merged_ranks_facets od sd m oc sn key rec :
  build_merged_ranks sc od sd = Returns (m, oc, sn) ->
  m !! key = Some rec ->
  facet_of sc (rows_of od) key (facet true rec) /\
  facet_of sc (rows_of sd) key (facet false rec).
Proof.
  unfold build_merged_ranks. intros H Hk. inv_bind_as H st1 Hst1.
  destruct st1 as [[m1 oc1] sn1].
  assert (H1 : facet_rows_inv sc true (rows_of od) m1).
  { apply (rank_rows_facets true _ [] (∅, O, O) (m1, oc1, sn1)); [|exact Hst1].
    intros key' rec' Hk'. simpl in Hk'. rewrite lookup_empty in Hk'. discriminate. }
  assert (K1 : keeps_other true ∅ m1).
  { exact (rank_rows_keeps true _ (∅, O, O) (m1, oc1, sn1) Hst1). }
  assert (R1 : rows_inv sc (rows_of od) m1).
  { apply (rank_rows_inv sc true _ [] (∅, O, O) (m1, oc1, sn1)); [|exact Hst1].
    intros key'. simpl. rewrite lookup_empty. constructor. }
  assert (H2 : facet_rows_inv sc false (rows_of sd) m).
  { apply (rank_rows_facets false _ [] (m1, oc1, sn1) (m, oc, sn)); [|exact H].
    intros key' rec' Hk'. simpl in Hk'. left. split; [constructor|].
    specialize (K1 key'). rewrite Hk', lookup_empty in K1. exact K1. }
  assert (K2 : keeps_other false m1 m).
  { exact (rank_rows_keeps false _ (m1, oc1, sn1) (m, oc, sn) H). }
  split; [|exact (H2 key rec Hk)].
  specialize (K2 key). rewrite Hk in K2. cbn [negb] in K2. rewrite K2.
  destruct (m1 !! key) as [rec1|] eqn:E1; cbn [from_option].
  - exact (H1 key rec1 E1).
  - left. split; [|reflexivity]. specialize (R1 key). rewrite E1 in R1. exact R1.
Qed.

Lemma facet_of_shape rows key p : facet_of sc rows key p -> rank_shape p.
Proof.
  intros [[_ ->] | (r & _ & (i & c & _ & _ & Hp))].
  - left. reflexivity.
  - exact (parse_rank_value_shape _ _ Hp).
Qed.

Lemma facet_of_empty rows key :
  facet_of sc rows key (None, false) -> Forall (fun r => ~ contributes sc r key) rows.
Proof.
  intros [[Hall _] | (r & Hl & Hc)]; [exact Hall|].
  apply last_with_elem in Hl as [_ (_ & _ & Hcc)].
  apply cell_counts_class in Hcc as (rank & o & Hc' & Hnt).
  pose proof (cell_class_unique _ _ _ _ Hc Hc') as [= <- <-].
  destruct Hnt; congruence.
Qed.

End Placements.

(** X3. Each placement of a rank record is the classification of the
    cell of the last row of that placement's sheet that contributed to
    the record's key, and is empty when no row of that sheet did. *)
Theorem rank_facets_by_sheet clock wb mk imp kws ranks dates st :
  parse_excel clock wb mk imp = Returns (kws, ranks, dates, st) ->
  exists od sd sc,
    resolve_schema wb = Returns (od, sd, sc) /\
    forall key rec, ranks !! key = Some rec ->
      facet_of sc (rows_of od) key (organic_rank rec, organic_out_of_range rec) /\
      facet_of sc (rows_of sd) key (sponsored_rank rec, sponsored_out_of_range rec).
Proof.
  intros H. apply parse_excel_returns in H
    as (od & sd & sc & n & kmap & m & oc & scn & Hsc & _ & Hm & _ & -> & _).
  exists od, sd, sc. split; [exact Hsc|]. intros key rec Hk.
  apply map_lookup_filter_Some in Hk as [Hk _].
  exact (build_merged_ranks_facets _ _ _ _ _ _ _ _ Hm Hk).
Qed.

(** The run of the example workbook. *)
Lemma rank_facets_by_sheet_witness :
  exists kws ranks dates st,
    parse_excel Examples.clock_a Examples.both_sheets "US" "imp-1"
      = Returns (kws, ranks, dates, st) /\
    exists od sd sc,
      resolve_schema Examples.both_sheets = Returns (od, sd, sc) /\
      forall key rec, ranks !! key = Some rec ->
        facet_of sc (rows_of od) key (organic_rank rec, organic_out_of_range rec) /\
        facet_of sc (rows_of sd) key (sponsored_rank rec, sponsored_out_of_range rec).
Proof.
  example_run E. eexists _, _, _, _. split; [exact E|].
  exact (rank_facets_by_sheet _ _ _ _ _ _ _ _ E).
Defined.

(** X4. In every rank record of a run each placement is empty, out of
    range, or a rank between 1 and 306 that is not flagged; and the two
    placements are never both empty. *)
Theorem rank_records_shape clock wb mk imp kws ranks dates st :
  parse_excel clock wb mk imp = Returns (kws, ranks, dates, st) ->
  forall key rec, ranks !! key = Some rec ->
    rank_shape (organic_rank rec, organic_out_of_range rec) /\
    rank_shape (sponsored_rank rec, sponsored_out_of_range rec) /\
    ~ ((organic_rank rec, organic_out_of_range rec) = (None, false) /\
       (sponsored_rank rec, sponsored_out_of_range rec) = (None, false)).
Proof.
  intros H key rec Hk. apply parse_excel_returns in H
    as (od & sd & sc & n & kmap & m & oc & scn & Hsc & _ & Hm & _ & -> & _).
  apply map_lookup_filter_Some in Hk as [Hk _].
  destruct (build_merged_ranks_facets _ _ _ _ _ _ _ _ Hm Hk) as [Ho Hs].
  cbn [facet] in Ho, Hs.
  split; [exact (facet_of_shape _ _ _ _ Ho)|].
  split; [exact (facet_of_shape _ _ _ _ Hs)|].
  intros [Eo Es]. rewrite Eo in Ho. rewrite Es in Hs.
  apply facet_of_empty in Ho, Hs.
  pose proof (build_merged_ranks_inv _ _ _ _ _ _ Hm) as Hinv.
  assert (Hsome : is_Some (m !! key)) by eauto.
  apply (rows_inv_is_Some _ _ _ _ Hinv) in Hsome as (r & Hin & Hc).
  rewrite Forall_forall in Ho, Hs.
  apply elem_of_app in Hin as [Hin|Hin]; [exact (Ho r Hin Hc)|exact (Hs r Hin Hc)].
Qed.

(** The run of the example workbook. *)
Lemma rank_records_shape_witness :
  exists kws ranks dates st,
    parse_excel Examples.clock_a Examples.both_sheets "US" "imp-1"
      = Returns (kws, ranks, dates, st) /\
    forall key rec, ranks !! key = Some rec ->
      rank_shape (organic_rank rec, organic_out_of_range rec) /\
      rank_shape (sponsored_rank rec, sponsored_out_of_range rec) /\
      ~ ((organic_rank rec, organic_out_of_range rec) = (None, false) /\
         (sponsored_rank rec, sponsored_out_of_range rec) = (None, false)).
Proof.
  example_run E. eexists _, _, _, _. split; [exact E|].
  exact (rank_records_shape _ _ _ _ _ _ _ _ E).
Defined.

(** ** The counters *)

Section Counters.
Variable sc : schema.

Lemma size_alter (f : rank_record -> rank_record) (key : measurement_key)
    (m : gmap measurement_key rank_record) :
  size (alter f key m) = size m.
Proof. rewrite <- !(size_dom (D:=gset measurement_key)), dom_alter_L. reflexivity. Qed.

Lemma rank_cell_size is_organic a k r m oc sn d m' oc' sn' :
  rank_cell sc is_organic a k r (m, oc, sn) d = Returns (m', oc', sn') ->
  (size m <= oc + sn)%nat -> (size m' <= oc' + sn')%nat.
Proof.
  intros H Hle. apply rank_cell_step in H
    as [(_ & -> & -> & ->) | (rank & o & _ & _ & -> & -> & ->)]; [exact Hle|].
  cbv zeta. rewrite size_alter.
  destruct (m !! _) eqn:E.
  - destruct is_organic; lia.
  - rewrite map_size_insert_None by exact E. destruct is_organic; lia.
Qed.

Lemma rank_cells_size is_organic a k r ds : forall st st',
  rfold (rank_cell sc is_organic a k r) ds st = Returns st' ->
  (size st.1.1 <= st.1.2 + st.2)%nat -> (size st'.1.1 <= st'.1.2 + st'.2)%nat.
Proof.
  induction ds as [|d ds IH]; simpl; intros st st' H Hle.
  - injection H as <-. exact Hle.
  - inv_bind_as H st1 Hst1. apply (IH st1); [exact H|].
    destruct st as [[m oc] sn], st1 as [[m1 oc1] sn1].
    eapply rank_cell_size; eauto.
Qed.

Lemma rank_rows_size is_organic rows : forall st st',
  rfold (rank_row sc is_organic) rows st = Returns st' ->
  (size st.1.1 <= st.1.2 + st.2)%nat -> (size st'.1.1 <= st'.1.2 + st'.2)%nat.
Proof.
  induction rows as [|r rows IH]; simpl; intros st st' H Hle.
  - injection H as <-. exact Hle.
  - inv_bind_as H st1 Hst1. apply (IH st1); [exact H|].
    unfold rank_row in Hst1. inv_bind_as Hst1 ak Ha. destruct ak as [a k].
    destruct (PyStr.is_empty a || PyStr.is_empty k).
    + injection Hst1 as <-. exact Hle.
    + eapply rank_cells_size; eauto.
Qed.

Lemma build_merged_ranks_size od sd m oc sn :
  build_merged_ranks sc od sd = Returns (m, oc, sn) -> (size m <= oc + sn)%nat.
Proof.
  unfold build_merged_ranks. intros H. inv_bind_as H st1 Hst1.
  apply (rank_rows_size false _ st1 (m, oc, sn) H).
  apply (rank_rows_size true _ (∅, O, O) st1 Hst1).
  simpl. rewrite map_size_empty. lia.
Qed.

End Counters.

Lemma keyword_pass_length clock mk imp sc is_organic rows : forall n m n' m',
  rfold (keyword_row clock mk imp sc is_organic) rows (n, m) = Returns (n', m') ->
  (length m' <= length m + length rows)%nat /\ (n' <= n + length rows)%nat.
Proof.
  induction rows as [|r rows IH]; simpl; intros n m n' m' H.
  { injection H as <- <-. lia. }
  inv_bind H. destruct a as [n1 m1].
  apply IH in H. apply keyword_row_returns in Ha.
  assert (Hset : forall k record, (length (od_set k record m) <= S (length m))%nat).
  { intros k record. clear. induction m as [|[k' v'] m IHm]; simpl; [lia|].
    destruct (decide (k = k')); simpl; lia. }
  destruct (row_key sc r) as [k0|].
  2: { destruct Ha as [-> ->]. lia. }
  destruct (negb is_organic && od_mem k0 m).
  { destruct Ha as [-> ->]. lia. }
  destruct Ha as (record0 & _ & _ & -> & ->).
  specialize (Hset k0 record0). lia.
Qed.

(** X6. The counters of a run agree with what it returns: the records
    parsed are those kept plus those filtered out and no more than the
    data rows of the two sheets, and the rank records are no more than
    the cells counted for the two placements. *)
Theorem stats_consistent clock wb mk imp kws ranks dates st :
  parse_excel clock wb mk imp = Returns (kws, ranks, dates, st) ->
  keyword_count st = length kws /\
  keyword_total_parsed st = (keyword_count st + keyword_filtered st)%nat /\
  rank_entries st = size ranks /\
  (rank_entries st <= organic_ranks st + sponsored_ranks st)%nat /\
  date_count st = length dates /\
  exists od sd sc,
    resolve_schema wb = Returns (od, sd, sc) /\
    (keyword_total_parsed st <= length (rows_of od) + length (rows_of sd))%nat.
Proof.
  intros H. pose proof H as H0. apply parse_excel_returns in H0
    as (od & sd & sc & n & kmap & m & oc & scn & Hsc & Hk & Hm & Hkws & Hranks & Hd).
  unfold parse_excel in H. rewrite Hsc in H. cbn [rbind] in H.
  rewrite Hk in H. cbn [rbind] in H. rewrite Hm in H. cbn [rbind] in H.
  injection H as _ _ _ <-. cbn [keyword_count keyword_total_parsed keyword_filtered
    rank_entries organic_ranks sponsored_ranks date_count].
  rewrite <- Hkws, <- Hranks, <- Hd.
  pose proof (length_filter (fun kw => retained kw = true) (od_values kmap)) as Hf.
  rewrite <- Hkws in Hf.
  split; [reflexivity|]. split; [lia|]. split; [reflexivity|]. split.
  { pose proof (build_merged_ranks_size _ _ _ _ _ _ Hm) as Hs.
    pose proof (map_size_filter (fun kv => (kv.1.1.1, kv.1.1.2) ∈ kept_keys kws) m).
    rewrite Hranks. lia. }
  split; [reflexivity|].
  exists od, sd, sc. split; [exact Hsc|].
  unfold build_keyword_map in Hk. inv_bind Hk. destruct a as [n1 m1].
  apply keyword_pass_length in Hk, Ha. simpl in Ha.
  unfold od_values. rewrite length_fmap. lia.
Qed.

(** The run of the example workbook. *)
Lemma stats_consistent_witness :
  exists kws ranks dates st,
    parse_excel Examples.clock_a Examples.both_sheets "US" "imp-1"
      = Returns (kws, ranks, dates, st) /\
    keyword_count st = length kws /\
    keyword_total_parsed st = (keyword_count st + keyword_filtered st)%nat /\
    rank_entries st = size ranks /\
    (rank_entries st <= organic_ranks st + sponsored_ranks st)%nat /\
    date_count st = length dates /\
    exists od sd sc,
      resolve_schema Examples.both_sheets = Returns (od, sd, sc) /\
      (keyword_total_parsed st <= length (rows_of od) + length (rows_of sd))%nat.
Proof.
  example_run E. eexists _, _, _, _. split; [exact E|].
  exact (stats_consistent _ _ _ _ _ _ _ _ E).
Defined.

(** ** The header *)

Lemma index_headers_fold (hs : list string) :
  let st := fold_left (fun acc h => (<[h := acc.2]> acc.1, S acc.2)) hs
              ((∅ : gmap string nat), O) in
  st.2 = length hs /\
  forall h i, st.1 !! h = Some i <->
              hs !! i = Some h /\ forall j, hs !! j = Some h -> (j <= i)%nat.
Proof.
  induction hs as [|x hs IH] using rev_ind; simpl.
  { split; [reflexivity|]. intros h i. rewrite lookup_empty. split; [discriminate|].
    intros [H _]. discriminate H. }
  rewrite fold_left_app. simpl. destruct IH as [IHn IHm].
  set (st := fold_left _ hs _) in *. simpl.
  split; [rewrite length_app; simpl; lia|].
  intros h i. rewrite IHn. destruct (decide (x = h)) as [-> | Hne].
  - rewrite lookup_insert_eq. split.
    + intros [= <-]. split.
      * rewrite lookup_app_r by lia. rewrite Nat.sub_diag. reflexivity.
      * intros j Hj. apply lookup_lt_Some in Hj. rewrite length_app in Hj.
        simpl in Hj. lia.
    + intros [Hi Hmax]. f_equal.
      assert (Hl : (hs ++ [h]) !! length hs = Some h).
      { rewrite lookup_app_r by lia. rewrite Nat.sub_diag. reflexivity. }
      apply Hmax in Hl. apply lookup_lt_Some in Hi. rewrite length_app in Hi.
      simpl in Hi. lia.
  - rewrite lookup_insert_ne by exact Hne. rewrite IHm.
    assert (Hin : forall j, (hs ++ [x]) !! j = Some h <-> hs !! j = Some h).
    { intros j. destruct (decide (j < length hs)%nat) as [Hlt|Hge].
      - rewrite lookup_app_l by exact Hlt. reflexivity.
      - rewrite lookup_app_r by lia. split.
        + destruct (j - length hs)%nat as [|[|?]]; simpl; intros [= ?]. congruence.
        + intros H. apply lookup_lt_Some in H. lia. }
    rewrite Hin. split; intros [Hi Hmax]; (split; [exact Hi|]);
      intros j Hj; apply Hmax; apply Hin; exact Hj.
Qed.

(** A header name is indexed at its last position. *)
Lemma index_headers_lookup hs h i :
  index_headers hs !! h = Some i <->
  hs !! i = Some h /\ forall j, hs !! j = Some h -> (j <= i)%nat.
Proof. apply (index_headers_fold hs). Qed.

Lemma index_headers_None hs h : index_headers hs !! h = None <-> h ∉ hs.
Proof.
  split.
  - intros Hn Hin.
    destruct (exists_last_with (fun p => p = h) hs) as (y & Hy); [eauto|].
    pose proof (last_with_elem _ _ _ Hy) as [_ ->].
    destruct Hy as (pre & post & -> & _ & Hpost).
    assert (Hl : index_headers (pre ++ h :: post) !! h = Some (length pre)).
    { apply index_headers_lookup. split.
      - rewrite lookup_app_r by lia. rewrite Nat.sub_diag. reflexivity.
      - intros j Hj. destruct (decide (j <= length pre)%nat) as [|Hgt]; [assumption|].
        rewrite lookup_app_r in Hj by lia.
        destruct (j - length pre)%nat as [|n] eqn:En; [lia|]. simpl in Hj.
        rewrite Forall_forall in Hpost. exfalso.
        apply (Hpost h); [|reflexivity]. eapply list_elem_of_lookup_2. exact Hj. }
    congruence.
  - intros Hn. destruct (index_headers hs !! h) as [i|] eqn:E; [|reflexivity].
    apply index_headers_lookup in E as [Hi _]. exfalso. apply Hn.
    eapply list_elem_of_lookup_2. exact Hi.
Qed.

(** ** The map of date columns *)

Lemma last_with_unique {A} (P : A -> Prop) x y l :
  last_with P l x -> last_with P l y -> x = y.
Proof.
  induction l as [|z l IH]; intros Hx Hy.
  { destruct Hx as ([|? ?] & ? & H & _); discriminate H. }
  apply last_with_inv in Hx as [(-> & Pz & Hall) | Hx];
    apply last_with_inv in Hy as [(-> & Pz' & Hall') | Hy]; auto.
  - apply last_with_elem in Hy as [Hin Py]. rewrite Forall_forall in Hall.
    exfalso. exact (Hall _ Hin Py).
  - apply last_with_elem in Hx as [Hin Px]. rewrite Forall_forall in Hall'.
    exfalso. exact (Hall' _ Hin Px).
Qed.

Lemma normalize_column_nonempty col d :
  normalize_column col = Some d -> PyStr.is_empty d = false.
Proof. rewrite normalize_column_canonical. apply canonical_date_nonempty. Qed.

Lemma detect_step_map acc col d :
  od_get d (detect_step acc col).2
  = if decide (normalize_column col = Some d) then Some col else od_get d acc.2.
Proof.
  unfold detect_step. destruct (normalize_column col) as [d'|] eqn:E.
  - rewrite (normalize_column_nonempty _ _ E). simpl.
    destruct (decide (Some d' = Some d)) as [[= ->] | Hne].
    + apply od_get_set_eq.
    + apply od_get_set_ne. congruence.
  - destruct (decide (None = Some d)); [discriminate|reflexivity].
Qed.

Lemma detect_step_keys acc col :
  NoDup acc.2.*1 -> NoDup (detect_step acc col).2.*1.
Proof.
  intros Hnd. unfold detect_step. destruct (normalize_column col) as [d'|]; [|exact Hnd].
  destruct (PyStr.is_empty d'); [exact Hnd|]. simpl. apply od_set_NoDup, Hnd.
Qed.

Lemma detect_fold_map cols : forall acc d c,
  od_get d (fold_left detect_step cols acc).2 = Some c <->
  last_with (fun c => normalize_column c = Some d) cols c \/
  (Forall (fun c => normalize_column c <> Some d) cols /\ od_get d acc.2 = Some c).
Proof.
  induction cols as [|x cols IH]; simpl; intros acc d c.
  { split.
    - intros H. right. split; [constructor|exact H].
    - intros [([|? ?] & ? & H & _) | [_ H]]; [discriminate H|discriminate H|exact H]. }
  rewrite IH, detect_step_map.
  destruct (decide (normalize_column x = Some d)) as [Hx | Hx].
  - split.
    + intros [Hl | [Hall [= <-]]].
      * left. apply last_with_cons, Hl.
      * left. exists [], cols. split; [reflexivity|]. split; [exact Hx|exact Hall].
    + intros [Hl | [Hall _]].
      * apply last_with_inv in Hl as [(-> & _ & Hall) | Hl]; [|left; exact Hl].
        right. split; [exact Hall|reflexivity].
      * apply Forall_cons in Hall as [Hno _]. contradiction.
  - split.
    + intros [Hl | [Hall Hg]].
      * left. apply last_with_cons, Hl.
      * right. split; [constructor; assumption|exact Hg].
    + intros [Hl | [Hall Hg]].
      * apply last_with_inv in Hl as [(-> & Px & _) | Hl]; [contradiction|].
        left. exact Hl.
      * apply Forall_cons in Hall as [_ Hall]. right. auto.
Qed.

Lemma detect_fold_keys cols : forall acc,
  NoDup acc.2.*1 -> NoDup (fold_left detect_step cols acc).2.*1.
Proof.
  induction cols as [|x cols IH]; simpl; intros acc Hnd; [exact Hnd|].
  apply IH, detect_step_keys, Hnd.
Qed.

Lemma detect_dates_elem cols d :
  d ∈ (detect_date_columns cols).1 <->
  exists c, c ∈ cols /\ normalize_column c = Some d.
Proof.
  unfold detect_date_columns. rewrite detect_fold_dates. simpl.
  rewrite list_elem_of_omap. split; intros (c & Hc & Hn); exists c;
    (split; [exact Hc|]); [rewrite normalize_column_canonical|
                           rewrite <- normalize_column_canonical]; exact Hn.
Qed.

Lemma detect_col_map_keys cols : NoDup (detect_date_columns cols).2.*1.
Proof. unfold detect_date_columns. apply detect_fold_keys. constructor. Qed.

Lemma detect_col_map_lookup cols d c :
  od_get d (detect_date_columns cols).2 = Some c <->
  last_with (fun c => normalize_column c = Some d) cols c.
Proof.
  unfold detect_date_columns. rewrite detect_fold_map. simpl.
  split; [intros [H | [_ H]]; [exact H|discriminate H] | auto].
Qed.

Lemma detect_col_map_dates cols d :
  d ∈ (detect_date_columns cols).1 -> is_Some (od_get d (detect_date_columns cols).2).
Proof.
  rewrite detect_dates_elem. intros Hex.
  destruct (exists_last_with (fun c => normalize_column c = Some d) cols Hex)
    as (c & Hl).
  exists c. apply detect_col_map_lookup, Hl.
Qed.

(** X8. The map of date columns returned beside the list of dates has
    each date once, has exactly the dates of the list as its keys, and
    sends a date to the last column that normalizes to it. *)
Theorem detect_date_columns_map (cols : list cell) :
  let dates := (detect_date_columns cols).1 in
  let col_map := (detect_date_columns cols).2 in
  NoDup col_map.*1 /\
  (forall d, d ∈ dates <-> is_Some (od_get d col_map)) /\
  (forall d c, od_get d col_map = Some c <->
               last_with (fun c => normalize_column c = Some d) cols c).
Proof.
  cbv zeta. split; [apply detect_col_map_keys|]. split.
  - intros d. split; [apply detect_col_map_dates|].
    intros [c Hc]. apply detect_col_map_lookup in Hc.
    apply last_with_elem in Hc as [Hin Hn].
    apply detect_dates_elem. exists c. auto.
  - intros d c. apply detect_col_map_lookup.
Qed.

(** ** What the header resolves to *)

Lemma get_sheet_if_present (wb : workbook) name :
  (if bool_decide (name ∈ sheet_names wb) then get_sheet_by_name wb name else None)
  = get_sheet_by_name wb name.
Proof.
  destruct (bool_decide (name ∈ sheet_names wb)) eqn:E; [reflexivity|].
  apply bool_decide_eq_false in E. symmetry. apply od_get_None. exact E.
Qed.

Lemma resolve_schema_returns wb od sd sc :
  resolve_schema wb = Returns (od, sd, sc) ->
  od = get_sheet_by_name wb "Organic" /\ sd = get_sheet_by_name wb "Sponsored" /\
  exists header row rows,
    primary_sheet od sd = Some (header :: row :: rows) /\
    (forall name, name ∈ take 5 FIXED_COLUMNS ->
       index_headers (header_text <$> header) !! name <> None) /\
    (detect_date_columns (CStr <$> (header_text <$> header))).1 <> [] /\
    sc = {| col_indices :=
              fold_left add_date_index
                (detect_date_columns (CStr <$> (header_text <$> header))).2
                (index_headers (header_text <$> header));
            date_col_map := (detect_date_columns (CStr <$> (header_text <$> header))).2;
            sorted_dates :=
              sorted (detect_date_columns (CStr <$> (header_text <$> header))).1 |}.
Proof.
  unfold resolve_schema.
  destruct (negb _ && negb _); [discriminate|].
  rewrite !get_sheet_if_present.
  destruct (primary_sheet _ _) as [[|header [|r rows]]|] eqn:Ep; try discriminate.
  destruct (filter _ _) eqn:Ef; [|discriminate].
  destruct (detect_date_columns (CStr <$> (header_text <$> header)))
    as [[|dc dcs] dcm] eqn:Ed; [intros H; discriminate H|].
  intros [= <- <- <-]. split; [reflexivity|]. split; [reflexivity|].
  exists header, r, rows. rewrite Ed. split; [exact Ep|].
  split; [|split; [discriminate|reflexivity]].
  intros name Hin Hnone.
  assert (Hf : name ∈ filter (fun fc => index_headers (header_text <$> header) !! fc = None)
                 (take 5 FIXED_COLUMNS)).
  { apply list_elem_of_filter. auto. }
  rewrite Ef in Hf. apply elem_of_nil in Hf as [].
Qed.

Lemma add_date_index_keeps ci item k i :
  ci !! k = Some i -> add_date_index ci item !! k = Some i.
Proof.
  intros Hk. destruct item as [d c]. unfold add_date_index.
  destruct (ci !! d) eqn:Ed; [exact Hk|].
  destruct (ci !! str c); [|exact Hk].
  rewrite lookup_insert_ne by congruence. exact Hk.
Qed.

Lemma fold_add_date_index_keeps dcm : forall ci k i,
  ci !! k = Some i -> fold_left add_date_index dcm ci !! k = Some i.
Proof.
  induction dcm as [|item dcm IH]; simpl; intros ci k i Hk; [exact Hk|].
  apply IH, add_date_index_keeps, Hk.
Qed.

Lemma fold_add_date_index_sets dcm : forall ci d c j,
  NoDup dcm.*1 -> (d, c) ∈ dcm ->
  ci !! d = None -> ci !! str c = Some j ->
  fold_left add_date_index dcm ci !! d = Some j.
Proof.
  induction dcm as [|[d0 c0] dcm IH]; simpl; intros ci d c j Hnd Hin Hd Hc.
  { apply elem_of_nil in Hin as []. }
  apply NoDup_cons in Hnd as [Hd0 Hnd].
  apply elem_of_cons in Hin as [[= <- <-] | Hin].
  - apply fold_add_date_index_keeps. rewrite Hd, Hc. apply lookup_insert_eq.
  - assert (Hne : d0 <> d).
    { intros ->. apply Hd0. apply list_elem_of_fmap. exists (d, c). auto. }
    apply (IH _ d c j Hnd Hin).
    + destruct (ci !! d0); [exact Hd|]. destruct (ci !! str c0); [|exact Hd].
      rewrite lookup_insert_ne by exact Hne. exact Hd.
    + apply (add_date_index_keeps ci (d0, c0)). exact Hc.
Qed.

Lemma is_ymd_strip d : is_ymd d = true -> PyStr.strip d = d.
Proof.
  intros H. unfold is_ymd in H.
  destruct d as [|y1 [|y2 [|y3 [|y4 [|h1 [|m1 [|m2 [|h2 [|d1 [|d2 [|? ?]]]]]]]]]]];
    try discriminate H.
  ymd_facts H.
  repeat match goal with
         | Hx : Ascii.eqb _ _ = true |- _ => apply Ascii.eqb_eq in Hx; subst
         | Hx : PyStr.is_digit ?c = true |- _ =>
             apply is_digit_not_space in Hx
         end.
  unfold PyStr.strip. cbn [PyStr.lstrip].
  repeat match goal with Hx : PyStr.is_space _ = false |- _ => rewrite Hx end.
  cbn [PyStr.rstrip].
  repeat match goal with Hx : PyStr.is_space _ = false |- _ => rewrite Hx end.
  reflexivity.
Qed.

Lemma normalize_column_ymd d : is_ymd d = true -> normalize_column (CStr d) = Some d.
Proof.
  intros H. unfold normalize_column. cbn [str]. rewrite (is_ymd_strip _ H).
  assert (Hm : date_pattern_match d = true) by (apply date_pattern_match_true; auto).
  rewrite Hm. reflexivity.
Qed.

Lemma normalize_column_text_ymd h d :
  normalize_column (CStr h) = Some d -> is_ymd d = true.
Proof.
  rewrite normalize_column_canonical. unfold canonical_date. cbn [str strftime_ymd].
  destruct (is_ymd (PyStr.strip h)) eqn:E1; [intros [= <-]; exact E1|].
  destruct (10 <=? _)%nat; cbn [andb]; [|discriminate].
  destruct (is_ymd (PyStr.take 10 (PyStr.strip h))) eqn:E2; [|discriminate].
  intros [= <-]. exact E2.
Qed.

(** X9. Every required column and every date column resolves to a
    position of the header: a required name to the last position that
    holds it, a date to a position whose header cell normalizes to that
    date. *)
Theorem column_positions wb od sd sc :
  resolve_schema wb = Returns (od, sd, sc) ->
  exists header rows,
    primary_sheet od sd = Some (header :: rows) /\
    (forall name, name ∈ take 5 FIXED_COLUMNS ->
       exists i, col_indices sc !! name = Some i /\
                 (header_text <$> header) !! i = Some name /\
                 forall j, (header_text <$> header) !! j = Some name -> (j <= i)%nat) /\
    (forall d, d ∈ sorted_dates sc ->
       exists i h, date_index sc d = Some i /\
                   (header_text <$> header) !! i = Some h /\
                   normalize_column (CStr h) = Some d).
Proof.
  intros H. apply resolve_schema_returns in H
    as (_ & _ & header & row & rows & Hp & Hreq & _ & ->).
  exists header, (row :: rows). split; [exact Hp|].
  set (hs := header_text <$> header) in *.
  pose proof (detect_col_map_keys (CStr <$> hs)) as Hnd.
  pose proof (detect_col_map_dates (CStr <$> hs)) as Hkeys.
  pose proof (detect_col_map_lookup (CStr <$> hs)) as Hmap.
  set (dates := (detect_date_columns (CStr <$> hs)).1) in *.
  set (dcm := (detect_date_columns (CStr <$> hs)).2) in *.
  cbn [col_indices sorted_dates]. split.
  - intros name Hin. specialize (Hreq name Hin).
    destruct (index_headers hs !! name) as [i|] eqn:Ei; [|congruence].
    exists i. split; [apply fold_add_date_index_keeps, Ei|].
    apply index_headers_lookup, Ei.
  - intros d Hd. rewrite (sorted_perm dates) in Hd.
    unfold date_index. cbn [col_indices date_col_map].
    destruct (index_headers hs !! d) as [i|] eqn:Ei.
    + rewrite (fold_add_date_index_keeps _ _ _ _ Ei).
      exists i, d. split; [reflexivity|].
      apply index_headers_lookup in Ei as [Ei _]. split; [exact Ei|].
      apply normalize_column_ymd.
      apply detect_dates_elem in Hd as (c & Hc & Hn).
      apply list_elem_of_fmap in Hc as (h & -> & _).
      exact (normalize_column_text_ymd _ _ Hn).
    + apply Hkeys in Hd as [c Hc]. pose proof Hc as Hl. apply Hmap in Hl.
      apply last_with_elem in Hl as [Hin Hn].
      apply list_elem_of_fmap in Hin as (h & -> & Hin).
      destruct (index_headers hs !! h) as [j|] eqn:Ej.
      2: { apply index_headers_None in Ej. contradiction. }
      assert (Hset : fold_left add_date_index dcm (index_headers hs) !! d = Some j).
      { apply (fold_add_date_index_sets dcm _ d (CStr h) j Hnd); auto.
        apply od_get_elem, Hc. }
      rewrite Hset. exists j, h. split; [reflexivity|].
      apply index_headers_lookup in Ej as [Ej _]. auto.
Qed.

(** The header of the example workbook. *)
Lemma column_positions_witness :
  exists od sd sc,
    resolve_schema Examples.both_sheets = Returns (od, sd, sc) /\
    exists header rows,
      primary_sheet od sd = Some (header :: rows) /\
      (forall name, name ∈ take 5 FIXED_COLUMNS ->
         exists i, col_indices sc !! name = Some i /\
                   (header_text <$> header) !! i = Some name /\
                   forall j, (header_text <$> header) !! j = Some name -> (j <= i)%nat) /\
      (forall d, d ∈ sorted_dates sc ->
         exists i h, date_index sc d = Some i /\
                     (header_text <$> header) !! i = Some h /\
                     normalize_column (CStr h) = Some d).
Proof.
  assert (E : resolve_schema Examples.both_sheets = Examples.both_sheets_resolved)
    by (vm_cast_no_check (@eq_refl _ Examples.both_sheets_resolved)).
  unfold Examples.both_sheets_resolved in E.
  eexists _, _, _. split; [exact E|]. exact (column_positions _ _ _ _ E).
Defined.

(** ** The dates of a run *)

Lemma leb_refl a : PyStr.leb a a = true.
Proof. destruct (leb_total a a); assumption. Qed.

Lemma ascending_head l lo :
  ascending l -> head l = Some lo -> Forall (fun d => PyStr.leb lo d = true) l.
Proof.
  intros Hs Hh. destruct l as [|x l]; [discriminate|]. injection Hh as ->.
  apply StronglySorted_inv in Hs as [_ Hall]. constructor; [apply leb_refl|].
  rewrite Forall_forall. intros d Hd.
  rewrite List.Forall_forall in Hall. apply Hall. apply list_elem_of_In, Hd.
Qed.

Lemma ascending_last l hi :
  ascending l -> last l = Some hi -> Forall (fun d => PyStr.leb d hi = true) l.
Proof.
  induction l as [|x l IH]; intros Hs Hl; [constructor|].
  apply StronglySorted_inv in Hs as [Hs Hall].
  destruct l as [|y l].
  - injection Hl as ->. constructor; [apply leb_refl|constructor].
  - rewrite last_cons_cons in Hl. constructor; [|apply IH; assumption].
    rewrite List.Forall_forall in Hall. apply Hall.
    apply list_elem_of_In. eapply last_Some_elem_of. exact Hl.
Qed.

Lemma parse_excel_stats clock wb mk imp kws ranks dates st :
  parse_excel clock wb mk imp = Returns (kws, ranks, dates, st) ->
  date_range_start st = head dates /\ date_range_end st = last dates /\
  date_count st = length dates /\
  rank_entries st = size ranks /\ keyword_count st = length kws.
Proof.
  unfold parse_excel. intros H.
  inv_bind H. destruct a as [[od sd] sc].
  inv_bind H. destruct a as [n kmap].
  inv_bind H. destruct a as [[m oc] scn].
  injection H as <- <- <- <-. auto.
Qed.

(** X7. The dates a run returns each have the form YYYY-MM-DD; the
    start and the end of the range in the counters are the least and
    the greatest of them, so there is at least one; every keyword
    record carries this range as its metrics period, and every rank
    record is dated with one of them. *)
Theorem run_dates clock wb mk imp kws ranks dates st :
  parse_excel clock wb mk imp = Returns (kws, ranks, dates, st) ->
  Forall (fun d => is_ymd d = true) dates /\
  (exists lo hi,
     date_range_start st = Some lo /\ date_range_end st = Some hi /\
     lo ∈ dates /\ hi ∈ dates /\
     Forall (fun d => PyStr.leb lo d = true /\ PyStr.leb d hi = true) dates) /\
  (forall kw, kw ∈ kws ->
     metrics_period_start kw = date_range_start st /\
     metrics_period_end kw = date_range_end st) /\
  (forall a k d, is_Some (ranks !! (a, k, d)) -> d ∈ dates).
Proof.
  intros H. destruct (parse_excel_stats _ _ _ _ _ _ _ _ H) as (Hs & He & _ & _ & _).
  apply parse_excel_returns in H
    as (od & sd & sc & n & kmap & m & oc & scn & Hsc & Hk & Hm & -> & -> & ->).
  pose proof (resolve_schema_returns _ _ _ _ Hsc)
    as (_ & _ & header & row & rows & _ & _ & Hne & Esc).
  set (hs := header_text <$> header) in *.
  assert (Hsd : sorted_dates sc = sorted (detect_date_columns (CStr <$> hs)).1).
  { rewrite Esc. reflexivity. }
  assert (Hasc : ascending (sorted_dates sc)).
  { rewrite Hsd. apply sorted_ascending. }
  split; [|split; [|split]].
  - rewrite Hsd, (sorted_perm _). rewrite Forall_forall. intros d Hd.
    apply detect_dates_elem in Hd as (c & Hc & Hn).
    apply list_elem_of_fmap in Hc as (h & -> & _).
    exact (normalize_column_text_ymd _ _ Hn).
  - destruct (sorted_dates sc) as [|d0 ds] eqn:Ed.
    { exfalso. apply Hne. apply Permutation_nil_r.
      rewrite <- (sorted_perm _), <- Hsd. reflexivity. }
    destruct (last (d0 :: ds)) as [hi|] eqn:El.
    2: { apply last_None in El. discriminate El. }
    exists d0, hi. rewrite Hs, He. split; [reflexivity|]. split; [reflexivity|].
    split; [left|]. split; [eapply last_Some_elem_of; exact El|].
    pose proof (ascending_head _ d0 Hasc eq_refl) as H1.
    pose proof (ascending_last _ hi Hasc El) as H2.
    rewrite Forall_forall in H1, H2 |- *. auto.
  - intros kw Hkw. apply list_elem_of_filter in Hkw as [_ Hkw].
    unfold od_values in Hkw.
    apply list_elem_of_fmap in Hkw as ([k kw'] & -> & Hin). simpl.
    destruct (build_keyword_map_rows _ _ _ _ _ _ _ _ _ _ Hk Hin)
      as (r & _ & _ & (a & t & i & _ & Hrec)).
    destruct (kw_record_of_fields _ _ _ _ _ _ _ _ Hrec)
      as (_ & _ & _ & -> & -> & _). rewrite Hs, He. auto.
  - intros a k d Hsome. destruct Hsome as [rec Hrec].
    apply map_lookup_filter_Some in Hrec as [Hrec _].
    pose proof (build_merged_ranks_inv _ _ _ _ _ _ Hm) as Hinv.
    assert (Hsome : is_Some (m !! (a, k, d))) by eauto.
    apply (rows_inv_is_Some _ _ _ _ Hinv) in Hsome as (r & _ & (_ & Hd & _)).
    exact Hd.
Qed.

(** The run of the example workbook. *)
Lemma run_dates_witness :
  exists kws ranks dates st,
    parse_excel Examples.clock_a Examples.both_sheets "US" "imp-1"
      = Returns (kws, ranks, dates, st) /\
    Forall (fun d => is_ymd d = true) dates /\
    (exists lo hi,
       date_range_start st = Some lo /\ date_range_end st = Some hi /\
       lo ∈ dates /\ hi ∈ dates /\
       Forall (fun d => PyStr.leb lo d = true /\ PyStr.leb d hi = true) dates) /\
    (forall kw, kw ∈ kws ->
       metrics_period_start kw = date_range_start st /\
       metrics_period_end kw = date_range_end st) /\
    (forall a k d, is_Some (ranks !! (a, k, d)) -> d ∈ dates).
Proof.
  example_run E. eexists _, _, _, _. split; [exact E|].
  exact (run_dates _ _ _ _ _ _ _ _ E).
Defined.

(** ** The validation errors *)

Lemma parse_excel_value_error clock wb mk imp v :
  parse_excel clock wb mk imp = Raises (ValueError v) <->
  resolve_schema wb = Raises (ValueError v).
Proof.
  unfold parse_excel. split.
  - intros H. apply rbind_raises in H as [H | ([[od sd] sc] & _ & H)]; [exact H|].
    apply rbind_raises in H as [H | ([n kmap] & _ & H)].
    { apply build_keyword_map_raises in H as [H|H]; discriminate H. }
    apply rbind_raises in H as [H | ([[m oc] scn] & _ & H)]; [|discriminate H].
    apply build_merged_ranks_raises in H as [H|H]; discriminate H.
  - intros ->. reflexivity.
Qed.

Lemma filter_absent_headers hs (l : list string) :
  filter (fun fc => index_headers hs !! fc = None) l = filter (fun fc => fc ∉ hs) l.
Proof.
  induction l as [|x l IH]; [reflexivity|]. rewrite !filter_cons, IH.
  destruct (decide (index_headers hs !! x = None)) as [H|H];
    destruct (decide (x ∉ hs)) as [H'|H']; try reflexivity.
  - apply index_headers_None in H. contradiction.
  - apply index_headers_None in H'. contradiction.
Qed.

Lemma get_sheet_present (wb : workbook) name rows :
  get_sheet_by_name wb name = Some rows -> name ∈ sheet_names wb.
Proof.
  intros H. destruct (decide (name ∈ sheet_names wb)) as [|Hn]; [assumption|].
  apply od_get_None in Hn. unfold get_sheet_by_name in H. congruence.
Qed.

Lemma primary_sheet_present (wb : workbook) rows :
  primary_sheet (get_sheet_by_name wb "Organic") (get_sheet_by_name wb "Sponsored")
  = Some rows ->
  "Organic" ∈ sheet_names wb \/ "Sponsored" ∈ sheet_names wb.
Proof.
  unfold primary_sheet.
  destruct (get_sheet_by_name wb "Organic") as [[|h t]|] eqn:Eo.
  - intros H. right. eapply get_sheet_present, H.
  - intros _. left. eapply get_sheet_present, Eo.
  - intros H. right. eapply get_sheet_present, H.
Qed.

(** The five outcomes of reading the header, each with what the
    workbook holds in that case. *)
Lemma resolve_schema_cases (wb : workbook) :
  let od := get_sheet_by_name wb "Organic" in
  let sd := get_sheet_by_name wb "Sponsored" in
  (("Organic" ∉ sheet_names wb) /\ ("Sponsored" ∉ sheet_names wb) /\
   resolve_schema wb = Raises (ValueError (NoRankSheet (sheet_names wb)))) \/
  (("Organic" ∈ sheet_names wb \/ "Sponsored" ∈ sheet_names wb) /\
   (forall header row rows, primary_sheet od sd <> Some (header :: row :: rows)) /\
   resolve_schema wb = Raises (ValueError PrimarySheetEmpty)) \/
  (exists header row rows,
     primary_sheet od sd = Some (header :: row :: rows) /\
     let hs := header_text <$> header in
     let missing := filter (fun fc => fc ∉ hs) (take 5 FIXED_COLUMNS) in
     (missing <> [] /\
      resolve_schema wb = Raises (ValueError (MissingRequiredColumns missing))) \/
     (missing = [] /\ (detect_date_columns (CStr <$> hs)).1 = [] /\
      resolve_schema wb = Raises (ValueError NoDateColumns)) \/
     (missing = [] /\ (detect_date_columns (CStr <$> hs)).1 <> [] /\
      exists sc, resolve_schema wb = Returns (od, sd, sc))).
Proof.
  cbv zeta. unfold resolve_schema.
  destruct (bool_decide ("Organic" ∈ sheet_names wb)) eqn:Eo;
    destruct (bool_decide ("Sponsored" ∈ sheet_names wb)) eqn:Es; cbn [negb andb].
  4: { left. apply bool_decide_eq_false in Eo, Es. auto. }
  all: right.
  all: assert (Hpres : "Organic" ∈ sheet_names wb \/ "Sponsored" ∈ sheet_names wb)
         by (first [apply bool_decide_eq_true in Eo; left; exact Eo
                   |apply bool_decide_eq_true in Es; right; exact Es]).
  all: pose proof (get_sheet_if_present wb "Organic") as Go; rewrite Eo in Go;
       pose proof (get_sheet_if_present wb "Sponsored") as Gs; rewrite Es in Gs;
       rewrite <- ?Go, <- ?Gs.
  all: match goal with
       | |- context [primary_sheet ?o ?s] =>
           destruct (primary_sheet o s) as [[|header [|row rows]]|] eqn:Ep
       end.
  all: try (left; split; [exact Hpres|]; split; [intros ? ? ?; discriminate|reflexivity]).
  all: right; exists header, row, rows; split; [reflexivity|]; cbv zeta;
       rewrite filter_absent_headers;
       destruct (filter _ (take 5 FIXED_COLUMNS)) as [|x l] eqn:Ef;
       [|left; split; [discriminate|reflexivity]]; right;
       destruct (detect_date_columns _) as [[|dc dcs] dcm] eqn:Ed; cbn [fst];
       [left; auto | right; split; [reflexivity|]; split; [discriminate|]; eauto].
Qed.

(** X10. A run fails with one of the four validation errors exactly in
    these cases, tried in this order: no sheet named Organic or
    Sponsored; a primary sheet with fewer than two rows; required
    columns absent from the header, which the error lists in their
    fixed order; no header cell that normalizes to a date. *)
Theorem validation_errors clock (wb : workbook) mk imp :
  let run := parse_excel clock wb mk imp in
  let primary :=
    primary_sheet (get_sheet_by_name wb "Organic") (get_sheet_by_name wb "Sponsored") in
  let absent (header : list cell) :=
    filter (fun fc => fc ∉ header_text <$> header) (take 5 FIXED_COLUMNS) in
  (forall found,
     run = Raises (ValueError (NoRankSheet found)) <->
     found = sheet_names wb /\
     ("Organic" ∉ sheet_names wb) /\ ("Sponsored" ∉ sheet_names wb)) /\
  (run = Raises (ValueError PrimarySheetEmpty) <->
   ("Organic" ∈ sheet_names wb \/ "Sponsored" ∈ sheet_names wb) /\
   forall header row rows, primary <> Some (header :: row :: rows)) /\
  (forall missing,
     run = Raises (ValueError (MissingRequiredColumns missing)) <->
     missing <> [] /\
     exists header row rows,
       primary = Some (header :: row :: rows) /\ missing = absent header) /\
  (run = Raises (ValueError NoDateColumns) <->
   exists header row rows,
     primary = Some (header :: row :: rows) /\ absent header = [] /\
     forall h, h ∈ header_text <$> header -> normalize_column (CStr h) = None).
Proof.
  cbv zeta.
  assert (Hnone : forall hs : list string,
            (detect_date_columns (CStr <$> hs)).1 = [] <->
            forall h, h ∈ hs -> normalize_column (CStr h) = None).
  { intros hs. split.
    - intros He h Hh. destruct (normalize_column (CStr h)) as [d|] eqn:En; [|reflexivity].
      assert (Hd : d ∈ (detect_date_columns (CStr <$> hs)).1).
      { apply detect_dates_elem. exists (CStr h). split; [|exact En].
        apply list_elem_of_fmap. eauto. }
      rewrite He in Hd. apply elem_of_nil in Hd as [].
    - intros Hall. destruct (detect_date_columns (CStr <$> hs)).1 as [|d ds] eqn:Ed;
        [reflexivity|].
      assert (Hd : d ∈ (detect_date_columns (CStr <$> hs)).1) by (rewrite Ed; left).
      apply detect_dates_elem in Hd as (c & Hc & Hn).
      apply list_elem_of_fmap in Hc as (h & -> & Hh). rewrite (Hall h Hh) in Hn.
      discriminate Hn. }
  pose proof (resolve_schema_cases wb) as Hc. cbv zeta in Hc.
  split; [|split; [|split]].
  - intros found. rewrite parse_excel_value_error. split.
    + intros H. destruct Hc as [(Ho & Hs & E) | [(_ & _ & E) |
        (header & row & rows & Hp & [[_ E] | [(_ & _ & E) | (_ & _ & sc & E)]])]];
        rewrite E in H; try discriminate H.
      injection H as <-. auto.
    + intros (-> & Ho & Hs). destruct Hc as [(_ & _ & E) | [([Hp|Hp] & _) |
        (header & row & rows & Hp & _)]]; [exact E|contradiction|contradiction|].
      apply primary_sheet_present in Hp as [|]; contradiction.
  - rewrite parse_excel_value_error. split.
    + intros H. destruct Hc as [(Ho & Hs & E) | [(Hp & Hn & E) |
        (header & row & rows & Hp & [[_ E] | [(_ & _ & E) | (_ & _ & sc & E)]])]];
        rewrite E in H; try discriminate H. auto.
    + intros (Hp & Hn). destruct Hc as [(Ho & Hs & _) | [(_ & _ & E) |
        (header & row & rows & Hp' & _)]]; [destruct Hp; contradiction|exact E|].
      exfalso. exact (Hn _ _ _ Hp').
  - intros missing. rewrite parse_excel_value_error. split.
    + intros H. destruct Hc as [(Ho & Hs & E) | [(Hp & Hn & E) |
        (header & row & rows & Hp & [[Hm E] | [(_ & _ & E) | (_ & _ & sc & E)]])]];
        rewrite E in H; try discriminate H.
      injection H as <-. split; [exact Hm|]. exists header, row, rows. auto.
    + intros (Hm & header & row & rows & Hp & ->).
      destruct Hc as [(Ho & Hs & _) | [(_ & Hn & _) |
        (header' & row' & rows' & Hp' & Hcase)]].
      * apply primary_sheet_present in Hp as [|]; contradiction.
      * exfalso. exact (Hn _ _ _ Hp).
      * rewrite Hp in Hp'. injection Hp' as <- <- <-.
        destruct Hcase as [[_ E] | [(Hm' & _) | (Hm' & _)]];
          [exact E|contradiction|contradiction].
  - rewrite parse_excel_value_error. split.
    + intros H. destruct Hc as [(Ho & Hs & E) | [(Hp & Hn & E) |
        (header & row & rows & Hp & [[Hm E] | [(Hm & Hd & E) | (_ & _ & sc & E)]])]];
        rewrite E in H; try discriminate H.
      exists header, row, rows. split; [exact Hp|]. split; [exact Hm|].
      apply Hnone, Hd.
    + intros (header & row & rows & Hp & Hm & Hd).
      destruct Hc as [(Ho & Hs & _) | [(_ & Hn & _) |
        (header' & row' & rows' & Hp' & Hcase)]].
      * apply primary_sheet_present in Hp as [|]; contradiction.
      * exfalso. exact (Hn _ _ _ Hp).
      * rewrite Hp in Hp'. injection Hp' as <- <- <-.
        destruct Hcase as [[Hm' _] | [(_ & _ & E) | (_ & Hd' & _)]];
          [contradiction|exact E|].
        exfalso. apply Hd'. apply Hnone, Hd.
Qed.

(** ** Rows without an identity *)

Lemma rfold_filter_skip {A S} (f : S -> A -> result S) (P : A -> Prop)
    `{forall x, Decision (P x)} (xs : list A) :
  (forall s x, ~ P x -> f s x = Returns s) ->
  forall s, rfold f (filter P xs) s = rfold f xs s.
Proof.
  intros Hskip. induction xs as [|x xs IH]; intros s; [reflexivity|].
  rewrite filter_cons. destruct (decide (P x)) as [Hx|Hx]; simpl.
  - destruct (f s x); simpl; [apply IH|reflexivity].
  - rewrite (Hskip s x Hx). simpl. apply IH.
Qed.

Lemma rows_of_without_blank sc sheet_data :
  rows_of (without_blank_rows sc sheet_data)
  = filter (fun r => is_blank_row sc r = false) (rows_of sheet_data).
Proof. destruct sheet_data as [[|header rows]|]; reflexivity. Qed.

Lemma keyword_row_blank clock mk imp sc is_organic st r :
  is_blank_row sc r <> false ->
  keyword_row clock mk imp sc is_organic st r = Returns st.
Proof.
  unfold is_blank_row, keyword_row.
  destruct (row_identity sc r) as [[a k]|]; [|congruence]. simpl.
  destruct (PyStr.is_empty a || PyStr.is_empty k); [reflexivity|congruence].
Qed.

Lemma rank_row_blank sc is_organic st r :
  is_blank_row sc r <> false -> rank_row sc is_organic st r = Returns st.
Proof.
  unfold is_blank_row, rank_row.
  destruct (row_identity sc r) as [[a k]|]; [|congruence]. simpl.
  destruct (PyStr.is_empty a || PyStr.is_empty k); [reflexivity|congruence].
Qed.

(** X11. Data rows that name no product or no search term have no
    effect on either pass: taking them out of the two sheets changes
    neither the keyword map, nor the number of clock readings, nor the
    rank map and its counters, nor the exception raised. *)
Theorem blank_rows_inert clock mk imp sc od sd :
  build_keyword_map clock mk imp sc (without_blank_rows sc od) (without_blank_rows sc sd)
  = build_keyword_map clock mk imp sc od sd /\
  build_merged_ranks sc (without_blank_rows sc od) (without_blank_rows sc sd)
  = build_merged_ranks sc od sd.
Proof.
  unfold build_keyword_map, build_merged_ranks. rewrite !rows_of_without_blank.
  split.
  - rewrite (rfold_filter_skip (keyword_row clock mk imp sc false))
      by (intros; apply keyword_row_blank; assumption).
    destruct (rfold _ (rows_of sd) _) as [st|e]; [|reflexivity]. simpl.
    apply rfold_filter_skip. intros. apply keyword_row_blank. assumption.
  - rewrite (rfold_filter_skip (rank_row sc true))
      by (intros; apply rank_row_blank; assumption).
    destruct (rfold _ (rows_of od) _) as [st|e]; [|reflexivity]. simpl.
    apply rfold_filter_skip. intros. apply rank_row_blank. assumption.
Qed.

(** ** The cells the counters count *)

Section Counted.
Variable sc : schema.

Lemma cell_counted_true r d : cell_counted sc r d = true <-> cell_counts sc r d.
Proof.
  unfold cell_counted, cell_counts. split.
  - destruct (date_index sc d) as [i|]; [|discriminate].
    destruct (r !! i) as [c|] eqn:Ec; [|discriminate].
    destruct (parse_rank_value c) as [[rank o]|] eqn:Ep; [|discriminate].
    intros H. exists i, c, rank, o. repeat split; auto.
    apply negb_true_iff, andb_false_iff in H as [H|H].
    + left. apply bool_decide_eq_false in H. exact H.
    + right. apply negb_false_iff in H. exact H.
  - intros (i & c & rank & o & -> & -> & -> & Hnt).
    apply negb_true_iff, andb_false_iff. destruct Hnt as [H|H].
    + left. apply bool_decide_eq_false. exact H.
    + right. apply negb_false_iff. exact H.
Qed.

Lemma rank_cell_count is_organic a k r m oc sn d m' oc' sn' :
  rank_cell sc is_organic a k r (m, oc, sn) d = Returns (m', oc', sn') ->
  let n := if cell_counted sc r d then 1%nat else O in
  oc' = (if is_organic then oc + n else oc)%nat /\
  sn' = (if is_organic then sn else sn + n)%nat.
Proof.
  intros H. apply rank_cell_step in H
    as [(Hno & _ & -> & ->) | (rank & o & Hcl & Hnt & _ & -> & ->)]; cbv zeta.
  - destruct (cell_counted sc r d) eqn:E.
    + apply cell_counted_true in E. contradiction.
    + destruct is_organic; lia.
  - assert (E : cell_counted sc r d = true).
    { apply cell_counted_true, cell_counts_class. eauto. }
    rewrite E. destruct is_organic; lia.
Qed.

Lemma rank_cells_count is_organic a k r ds : forall st st',
  rfold (rank_cell sc is_organic a k r) ds st = Returns st' ->
  let n := length (filter (fun d => cell_counted sc r d = true) ds) in
  st'.1.2 = (if is_organic then st.1.2 + n else st.1.2)%nat /\
  st'.2 = (if is_organic then st.2 else st.2 + n)%nat.
Proof.
  induction ds as [|d ds IH]; simpl; intros st st' H.
  { injection H as <-. destruct is_organic; lia. }
  inv_bind_as H st1 Hst1. destruct st as [[m oc] sn], st1 as [[m1 oc1] sn1].
  apply rank_cell_count in Hst1 as [-> ->]. apply IH in H as [-> ->]. simpl.
  rewrite filter_cons.
  destruct (decide (cell_counted sc r d = true)) as [E|E].
  - rewrite E. simpl. destruct is_organic; lia.
  - apply not_true_is_false in E. rewrite E. destruct is_organic; lia.
Qed.

Lemma rank_rows_count is_organic rows : forall st st',
  rfold (rank_row sc is_organic) rows st = Returns st' ->
  let n := sum_list (cells_counted sc <$> rows) in
  st'.1.2 = (if is_organic then st.1.2 + n else st.1.2)%nat /\
  st'.2 = (if is_organic then st.2 else st.2 + n)%nat.
Proof.
  induction rows as [|r rows IH]; intros st st' H; cbn [rfold] in H; cbv zeta.
  { injection H as <-. simpl. destruct is_organic; lia. }
  change (sum_list (cells_counted sc <$> r :: rows))
    with (cells_counted sc r + sum_list (cells_counted sc <$> rows))%nat.
  inv_bind_as H st1 Hst1. apply IH in H as [-> ->].
  unfold rank_row in Hst1. inv_bind_as Hst1 ak Ha. destruct ak as [a k].
  assert (Hcc : cells_counted sc r
                = if PyStr.is_empty a || PyStr.is_empty k then O
                  else length (filter (fun d => cell_counted sc r d = true)
                                 (sorted_dates sc))).
  { unfold cells_counted, row_key. rewrite Ha.
    destruct (PyStr.is_empty a || PyStr.is_empty k); reflexivity. }
  rewrite Hcc. destruct (PyStr.is_empty a || PyStr.is_empty k).
  - injection Hst1 as <-. destruct is_organic; lia.
  - apply rank_cells_count in Hst1 as [-> ->]. destruct is_organic; lia.
Qed.

Lemma build_merged_ranks_count od sd m oc sn :
  build_merged_ranks sc od sd = Returns (m, oc, sn) ->
  oc = sum_list (cells_counted sc <$> rows_of od) /\
  sn = sum_list (cells_counted sc <$> rows_of sd).
Proof.
  unfold build_merged_ranks. intros H. inv_bind_as H st1 Hst1.
  apply rank_rows_count in Hst1 as [H1 H2]. apply rank_rows_count in H as [H3 H4].
  simpl in *. lia.
Qed.

End Counted.

(** X12. The two rank counters of a run count cells, not records: over
    the data rows of its sheet that name a product and a search term,
    each counts the cells under the dates of the run that classify as a
    rank or as out of range, whether or not the keyword of the row is
    retained. *)
Theorem rank_counters_count_cells clock wb mk imp kws ranks dates st :
  parse_excel clock wb mk imp = Returns (kws, ranks, dates, st) ->
  exists od sd sc,
    resolve_schema wb = Returns (od, sd, sc) /\
    organic_ranks st = sum_list (cells_counted sc <$> rows_of od) /\
    sponsored_ranks st = sum_list (cells_counted sc <$> rows_of sd).
Proof.
  intros H. pose proof H as H0. apply parse_excel_returns in H0
    as (od & sd & sc & n & kmap & m & oc & scn & Hsc & Hk & Hm & _ & _ & _).
  exists od, sd, sc. split; [exact Hsc|].
  unfold parse_excel in H. rewrite Hsc in H. cbn [rbind] in H.
  rewrite Hk in H. cbn [rbind] in H. rewrite Hm in H. cbn [rbind] in H.
  injection H as _ _ _ <-. cbn [organic_ranks sponsored_ranks].
  exact (build_merged_ranks_count _ _ _ _ _ _ Hm).
Qed.

(** The run of the example workbook. *)
Lemma rank_counters_count_cells_witness :
  exists kws ranks dates st,
    parse_excel Examples.clock_a Examples.both_sheets "US" "imp-1"
      = Returns (kws, ranks, dates, st) /\
    exists od sd sc,
      resolve_schema Examples.both_sheets = Returns (od, sd, sc) /\
      organic_ranks st = sum_list (cells_counted sc <$> rows_of od) /\
      sponsored_ranks st = sum_list (cells_counted sc <$> rows_of sd).
Proof.
  example_run E. eexists _, _, _, _. split; [exact E|].
  exact (rank_counters_count_cells _ _ _ _ _ _ _ _ E).
Defined.

(** ** The caller: rank rows for the database *)

Section RankRows.
Variable keyword_id_map : gmap entity_key string.
Variables mk imp : string.

Local Abbreviation row_of := (db_rank_of keyword_id_map mk imp).

Lemma rank_records_fold items : forall st,
  fold_left (rank_records_step keyword_id_map mk imp) items st
  = (st.1 ++ omap row_of items,
     (st.2 + length (filter (fun item => row_of item = None) items))%nat).
Proof.
  induction items as [|item items IH]; intros [rows skipped]; simpl.
  { rewrite app_nil_r. f_equal. lia. }
  rewrite IH. unfold rank_records_step. rewrite filter_cons.
  destruct (row_of item) as [row|] eqn:E; simpl.
  - destruct (decide (Some row = None)) as [|_]; [discriminate|].
    rewrite <- app_assoc. reflexivity.
  - destruct (decide (@None db_rank = None)) as [_|]; [|congruence].
    simpl. f_equal. lia.
Qed.

Lemma rank_records_for_eq items :
  rank_records_for keyword_id_map mk imp items
  = (omap row_of items, length (filter (fun item => row_of item = None) items)).
Proof. unfold rank_records_for. rewrite rank_records_fold. reflexivity. Qed.

Lemma rank_records_for_length items :
  (length (rank_records_for keyword_id_map mk imp items).1
   + (rank_records_for keyword_id_map mk imp items).2 = length items)%nat.
Proof.
  rewrite rank_records_for_eq. simpl.
  induction items as [|item items IH]; [reflexivity|].
  rewrite filter_cons. cbn [omap list_omap].
  destruct (row_of item) as [row|].
  - destruct (decide (Some row = None)) as [|_]; [discriminate|].
    cbn [length]. lia.
  - destruct (decide (@None db_rank = None)) as [_|]; [|congruence].
    cbn [length]. lia.
Qed.

Lemma db_rank_of_Some a k d data row :
  row_of (a, k, d, data) = Some row ->
  keyword_id_map !! (a, k) = Some (row_keyword_id row) /\
  PyStr.is_empty (row_keyword_id row) = false /\
  row_rank_date row = d /\
  row_marketplace_id row = mk /\ row_import_id row = imp /\
  row_child_asin row = rk_asin data /\ row_keyword row = rk_keyword data /\
  (row_organic_rank row, row_organic_out_of_range row) = facet true data /\
  (row_sponsored_rank row, row_sponsored_out_of_range row) = facet false data.
Proof.
  unfold db_rank_of. destruct (keyword_id_map !! (a, k)) as [id|]; [|discriminate].
  destruct (PyStr.is_empty id) eqn:E; [discriminate|].
  intros [= <-]. simpl. auto 10.
Qed.

Lemma db_rank_of_None a k d data :
  row_of (a, k, d, data) = None <->
  keyword_id_map !! (a, k) = None \/ keyword_id_map !! (a, k) = Some "".
Proof.
  unfold db_rank_of. destruct (keyword_id_map !! (a, k)) as [id|]; [|tauto].
  destruct id as [|c id]; simpl.
  - tauto.
  - split; [discriminate|]. intros [H|H]; discriminate H.
Qed.

End RankRows.

(** A record of the rank map a run returns, read against its key. *)
Lemma ranks_lookup_facts clock wb mk imp kws ranks dates st a k d rec :
  parse_excel clock wb mk imp = Returns (kws, ranks, dates, st) ->
  ranks !! (a, k, d) = Some rec ->
  PyStr.upper (rk_asin rec) = a /\ PyStr.lower (rk_keyword rec) = k /\
  d ∈ dates /\ exists kw, kw ∈ kws /\ key_of kw = (a, k).
Proof.
  intros H Hl. apply parse_excel_returns in H
    as (od & sd & sc & n & kmap & m & oc & scn & Hsc & _ & Hm & _ & -> & ->).
  apply map_lookup_filter_Some in Hl as [Hl Hk]. simpl in Hk.
  apply elem_of_kept_keys in Hk.
  apply build_merged_ranks_inv in Hm. specialize (Hm (a, k, d)).
  rewrite Hl in Hm. destruct Hm as [_ (r & Hf & Hi)].
  apply first_with_elem in Hf as [_ (Hrk & Hd & _)]. simpl in Hd.
  unfold row_key in Hrk. rewrite Hi in Hrk. simpl in Hrk.
  destruct (PyStr.is_empty (rk_asin rec) || PyStr.is_empty (rk_keyword rec));
    [discriminate|].
  injection Hrk as <- <-. auto.
Qed.

Lemma rank_records_total (clock : nat -> string) (wb : workbook)
    (mk imp : string) (kws : list kw_record)
    (ranks : gmap measurement_key rank_record) (dates : list string) (st : stats)
    (keyword_id_map : gmap entity_key string)
    (items : list (measurement_key * rank_record)) :
  parse_excel clock wb mk imp = Returns (kws, ranks, dates, st) ->
  items ≡ₚ map_to_list ranks ->
  (length (rank_records_for keyword_id_map mk imp items).1
   + (rank_records_for keyword_id_map mk imp items).2 = rank_entries st)%nat.
Proof.
  intros H Hitems.
  destruct (parse_excel_stats _ _ _ _ _ _ _ _ H) as (_ & _ & _ & Hn & _).
  rewrite rank_records_for_length, Hn, Hitems. apply length_map_to_list.
Qed.

Lemma rank_records_none_skipped (clock : nat -> string) (wb : workbook)
    (mk imp : string) (kws : list kw_record)
    (ranks : gmap measurement_key rank_record) (dates : list string) (st : stats)
    (keyword_id_map : gmap entity_key string)
    (items : list (measurement_key * rank_record)) :
  parse_excel clock wb mk imp = Returns (kws, ranks, dates, st) ->
  items ≡ₚ map_to_list ranks ->
  (forall kw, kw ∈ kws ->
     exists id, keyword_id_map !! key_of kw = Some id /\ PyStr.is_empty id = false) ->
  (rank_records_for keyword_id_map mk imp items).2 = O.
Proof.
  intros H Hitems Hids. rewrite rank_records_for_eq. simpl.
  destruct (filter _ items) as [|item l] eqn:Ef; [reflexivity|]. exfalso.
  assert (Hf : item ∈ filter
            (fun item => db_rank_of keyword_id_map mk imp item = None) items)
    by (rewrite Ef; left).
  apply list_elem_of_filter in Hf as [Hnone Hi].
  destruct item as [[[a k] d] data]. rewrite Hitems in Hi.
  apply elem_of_map_to_list in Hi.
  destruct (ranks_lookup_facts _ _ _ _ _ _ _ _ _ _ _ _ H Hi)
    as (_ & _ & _ & kw & Hkw & Hkey).
  destruct (Hids kw Hkw) as (id & Hid & Hne). rewrite Hkey in Hid.
  apply db_rank_of_None in Hnone as [Hnone|Hnone]; rewrite Hid in Hnone.
  - discriminate Hnone.
  - injection Hnone as ->. discriminate Hne.
Qed.

(** X13. The rank rows built for the database account for every record
    of the rank map: rows and skipped records add up to the rank
    entries of the run; each row carries the marketplace and the import
    of the call, one of the dates of the run, and the id, not empty,
    that the id map holds for the row's own product identifier and
    search term, which are those of a keyword record of the run; and
    nothing is skipped when the id map has a non-empty id for every
    keyword record of the run. *)
Theorem rank_rows_accounted (clock : nat -> string) (wb : workbook)
    (mk imp : string) (kws : list kw_record)
    (ranks : gmap measurement_key rank_record) (dates : list string) (st : stats)
    (keyword_id_map : gmap entity_key string)
    (items : list (measurement_key * rank_record)) :
  parse_excel clock wb mk imp = Returns (kws, ranks, dates, st) ->
  items ≡ₚ map_to_list ranks ->
  let rows := (rank_records_for keyword_id_map mk imp items).1 in
  let skipped := (rank_records_for keyword_id_map mk imp items).2 in
  (length rows + skipped = rank_entries st)%nat /\
  (forall row, row ∈ rows ->
     row_marketplace_id row = mk /\ row_import_id row = imp /\
     row_rank_date row ∈ dates /\
     PyStr.is_empty (row_keyword_id row) = false /\
     keyword_id_map !! (PyStr.upper (row_child_asin row), PyStr.lower (row_keyword row))
     = Some (row_keyword_id row) /\
     exists kw, kw ∈ kws /\
       key_of kw = (PyStr.upper (row_child_asin row), PyStr.lower (row_keyword row))) /\
  ((forall kw, kw ∈ kws ->
      exists id, keyword_id_map !! key_of kw = Some id /\ PyStr.is_empty id = false) ->
   skipped = O).
Proof.
  intros H Hitems. cbv zeta.
  split; [exact (rank_records_total _ _ _ _ _ _ _ _ _ _ H Hitems)|].
  split; [|exact (rank_records_none_skipped _ _ _ _ _ _ _ _ _ _ H Hitems)].
  intros row Hrow. rewrite rank_records_for_eq in Hrow. simpl in Hrow.
  apply list_elem_of_omap in Hrow as ([[[a k] d] data] & Hi & Hr).
  rewrite Hitems in Hi. apply elem_of_map_to_list in Hi.
  destruct (ranks_lookup_facts _ _ _ _ _ _ _ _ _ _ _ _ H Hi) as (Ha & Hk & Hd & Hkw).
  apply db_rank_of_Some in Hr as (Hid & Hne & -> & -> & -> & -> & -> & _).
  rewrite Ha, Hk. auto 10.
Qed.

(** The run of the example workbook, joined with the ids of two of its
    keywords. *)
Lemma rank_rows_accounted_witness :
  exists kws ranks dates st,
    parse_excel Examples.clock_a Examples.both_sheets "US" "imp-1"
      = Returns (kws, ranks, dates, st) /\
    let idm := CallerExamples.keyword_id_map in
    let rows := (rank_records_for idm "US" "imp-1" (map_to_list ranks)).1 in
    let skipped := (rank_records_for idm "US" "imp-1" (map_to_list ranks)).2 in
    (length rows + skipped = rank_entries st)%nat /\
    (forall row, row ∈ rows ->
       row_marketplace_id row = "US" /\ row_import_id row = "imp-1" /\
       row_rank_date row ∈ dates /\
       PyStr.is_empty (row_keyword_id row) = false /\
       idm !! (PyStr.upper (row_child_asin row), PyStr.lower (row_keyword row))
       = Some (row_keyword_id row) /\
       exists kw, kw ∈ kws /\
         key_of kw = (PyStr.upper (row_child_asin row), PyStr.lower (row_keyword row))) /\
    ((forall kw, kw ∈ kws ->
        exists id, idm !! key_of kw = Some id /\ PyStr.is_empty id = false) ->
     skipped = O).
Proof.
  example_run E. eexists _, _, _, _. split; [exact E|].
  exact (rank_rows_accounted _ _ _ _ _ _ _ _ CallerExamples.keyword_id_map _
           E (reflexivity _)).
Defined.

Lemma conflict_keys_NoDup (keyword_id_map : gmap entity_key string)
    (mk imp : string) (items : list (measurement_key * rank_record)) :
  (forall k1 k2 id,
     keyword_id_map !! k1 = Some id -> keyword_id_map !! k2 = Some id -> k1 = k2) ->
  NoDup items.*1 ->
  NoDup (conflict_key <$> omap (db_rank_of keyword_id_map mk imp) items).
Proof.
  intros Hinj. induction items as [|[[[a k] d] data] items IH]; intros Hnd.
  { constructor. }
  apply NoDup_cons in Hnd as [Hnotin Hnd]. cbn [omap list_omap].
  destruct (db_rank_of keyword_id_map mk imp (a, k, d, data)) as [row|] eqn:E;
    [|exact (IH Hnd)].
  cbn [fmap list_fmap]. apply NoDup_cons. split; [|exact (IH Hnd)].
  intros Hdup. apply list_elem_of_fmap in Hdup as (row' & Hck & Hrow').
  apply list_elem_of_omap in Hrow' as ([[[a' k'] d'] data'] & Hi & Hr).
  apply db_rank_of_Some in E as (Hid & _ & Hd & _).
  apply db_rank_of_Some in Hr as (Hid' & _ & Hd' & _).
  unfold conflict_key in Hck. injection Hck as Hk1 Hk2.
  rewrite Hd, Hd' in Hk2. subst d'. rewrite <- Hk1 in Hid'.
  pose proof (Hinj _ _ _ Hid Hid') as [= <- <-].
  apply Hnotin. apply list_elem_of_fmap. exists (a, k, d, data'). auto.
Qed.

(** X14. When different keys of the id map have different ids, no two
    of the rank rows built for the database agree on both columns of
    the conflict target, the keyword id and the rank date. *)
Theorem rank_rows_conflict_free (keyword_id_map : gmap entity_key string)
    (mk imp : string) (ranks : gmap measurement_key rank_record)
    (items : list (measurement_key * rank_record)) :
  items ≡ₚ map_to_list ranks ->
  (forall k1 k2 id,
     keyword_id_map !! k1 = Some id -> keyword_id_map !! k2 = Some id -> k1 = k2) ->
  NoDup (conflict_key <$> (rank_records_for keyword_id_map mk imp items).1).
Proof.
  intros Hitems Hinj. rewrite rank_records_for_eq. simpl.
  apply conflict_keys_NoDup; [exact Hinj|].
  rewrite Hitems. apply NoDup_fst_map_to_list.
Qed.

Lemma rank_rows_conflict_free_witness :
  NoDup (conflict_key <$>
           (rank_records_for CallerExamples.keyword_id_map "US" "imp-1"
              (map_to_list CallerExamples.rank_map)).1).
Proof.
  apply (rank_rows_conflict_free _ _ _ CallerExamples.rank_map); [reflexivity|].
  unfold CallerExamples.keyword_id_map. intros k1 k2 id H1 H2.
  apply lookup_insert_Some in H1 as [[<- <-] | [_ H1]];
    apply lookup_insert_Some in H2 as [[<- E2] | [_ H2]];
    try apply lookup_singleton_Some in H1 as [<- <-];
    try apply lookup_singleton_Some in H2 as [<- E2];
    first [reflexivity | discriminate].
Defined.

(** ** The caller: batched upserts *)

Lemma range_from_slices {A} (l : list A) step : (0 < step)%nat ->
  forall fuel start, (length l - start <= fuel)%nat ->
  concat ((fun i => take step (drop i l)) <$> range_from fuel start (length l) step)
  = drop start l /\
  Forall (fun i => (i < length l)%nat) (range_from fuel start (length l) step).
Proof.
  intros Hstep. induction fuel as [|fuel IH]; intros start Hfuel; simpl.
  { split; [|constructor]. symmetry. apply drop_ge. lia. }
  destruct (start <? length l)%nat eqn:E.
  - apply Nat.ltb_lt in E. destruct (IH (start + step)%nat) as [IHc IHf]; [lia|].
    split; [|constructor; assumption].
    cbn [fmap list_fmap concat]. rewrite IHc.
    rewrite <- (take_drop step (drop start l)) at 2. rewrite drop_drop. reflexivity.
  - apply Nat.ltb_ge in E. split; [|constructor]. symmetry. apply drop_ge. lia.
Qed.

Section UpsertFacts.
Context {A J DB E : Type}.
Variable json_roundtrip : A -> J.
Variable execute : list J -> DB -> DB * option E.
Variable client_error : option E.
Variable zero_step : E.

Lemma upsert_loop_send_all starts batch_size (records : list A) :
  forall upserted db,
    upsert_loop json_roundtrip execute starts batch_size records upserted db
    = let batches := (fun i => take batch_size (drop i records)) <$> starts in
      let '(db', r) := send_all json_roundtrip execute batches db in
      (db', match r with
            | None => inl (upserted + length (concat batches))%nat
            | Some e => inr e
            end).
Proof.
  induction starts as [|i starts IH]; intros upserted db; simpl.
  { rewrite Nat.add_0_r. reflexivity. }
  destruct (execute _ db) as [db' [e|]]; [reflexivity|].
  rewrite IH. cbv zeta. destruct (send_all _ _ _ db') as [db'' [e|]]; [reflexivity|].
  rewrite length_app, Nat.add_assoc. reflexivity.
Qed.

(** X15. An upsert of no records returns 0 without asking for a client
    and without a request. With a client and a positive batch size, the
    records are sent in batches that are consecutive pieces of the list
    in its order, none empty and none longer than the batch size, each
    after the one before it succeeded; the call returns the number of
    records when every request succeeds, and raises the exception of
    the first request that fails, the later batches unsent. *)
Theorem upsert_in_batches (batch_size : nat) (records : list A) (db : DB) :
  upsert_records json_roundtrip execute client_error zero_step batch_size [] db
  = (db, inl O) /\
  ((0 < batch_size)%nat -> client_error = None ->
   exists batches,
     concat batches = records /\
     Forall (fun batch => (0 < length batch <= batch_size)%nat) batches /\
     upsert_records json_roundtrip execute client_error zero_step batch_size records db
     = let '(db', r) := send_all json_roundtrip execute batches db in
       (db', match r with
             | None => inl (length records)
             | Some e => inr e
             end)).
Proof.
  split; [reflexivity|]. intros Hpos Hclient.
  destruct records as [|x records'] eqn:Er.
  { exists []. split; [reflexivity|]. split; [constructor|reflexivity]. }
  rewrite <- Er.
  exists ((fun i => take batch_size (drop i records))
            <$> range_step (length records) batch_size).
  destruct (range_from_slices records batch_size Hpos (length records) O) as [Hc Hf];
    [lia|].
  fold (range_step (length records) batch_size) in Hc, Hf.
  split; [exact Hc|]. split.
  - apply Forall_fmap. eapply Forall_impl; [exact Hf|]. intros i Hi. simpl in Hi |- *.
    rewrite length_take, length_drop. lia.
  - unfold upsert_records. rewrite Er at 1. rewrite Hclient.
    destruct batch_size as [|b]; [lia|].
    rewrite upsert_loop_send_all. cbv zeta. rewrite Hc. reflexivity.
Qed.

End UpsertFacts.

(** Five records sent in batches of two to a service that accepts
    them. *)
Lemma upsert_in_batches_witness :
  exists batches,
    concat batches = [1; 2; 3; 4; 5]%nat /\
    Forall (fun batch : list nat => (0 < length batch <= 2)%nat) batches /\
    upsert_records id UpsertExamples.log_request None "zero step" 2
      [1; 2; 3; 4; 5]%nat []
    = let '(db', r) := send_all id UpsertExamples.log_request batches [] in
      (db', match r with
            | None => inl (length [1; 2; 3; 4; 5]%nat)
            | Some e => inr e
            end).
Proof.
  apply (upsert_in_batches id UpsertExamples.log_request None "zero step" 2
           [1; 2; 3; 4; 5]%nat []); [lia|reflexivity].
Defined.

(** ** The caller: the keyword ids *)

Lemma add_keyword_ids_lookup rows : forall m key id,
  fold_left add_keyword_id rows m !! key = Some id <->
  (exists kw, last_with (fun kw => si_keyword_key kw = key) rows kw /\ kw_id kw = id) \/
  (Forall (fun kw => si_keyword_key kw <> key) rows /\ m !! key = Some id).
Proof.
  induction rows as [|x rows IH]; simpl; intros m key id.
  { split.
    - intros H. right. split; [constructor|exact H].
    - intros [(kw & ([|? ?] & ? & H & _) & _) | [_ H]];
        [discriminate H|discriminate H|exact H]. }
  rewrite IH. unfold add_keyword_id.
  destruct (decide (si_keyword_key x = key)) as [Hx | Hx].
  - split.
    + intros [(kw & Hl & Hid) | [Hall Hm]].
      * left. exists kw. split; [apply last_with_cons, Hl|exact Hid].
      * left. exists x. rewrite Hx, lookup_insert_eq in Hm. injection Hm as Hm.
        split; [|exact Hm]. exists [], rows. auto.
    + intros [(kw & Hl & Hid) | [Hall _]].
      * apply last_with_inv in Hl as [(-> & _ & Hall) | Hl]; [|left; eauto].
        right. split; [exact Hall|]. rewrite Hx, lookup_insert_eq. congruence.
      * apply Forall_cons in Hall as [Hno _]. contradiction.
  - rewrite lookup_insert_ne by exact Hx. split.
    + intros [(kw & Hl & Hid) | [Hall Hm]].
      * left. exists kw. split; [apply last_with_cons, Hl|exact Hid].
      * right. split; [constructor; assumption|exact Hm].
    + intros [(kw & Hl & Hid) | [Hall Hm]].
      * apply last_with_inv in Hl as [(-> & Px & _) | Hl]; [contradiction|].
        left. eauto.
      * apply Forall_cons in Hall as [_ Hall]. right. auto.
Qed.

Section FetchFacts.
Context {E : Type}.
Variable query : string -> nat -> nat -> list si_keyword + E.
Variable mk : string.
Variable table : list si_keyword.
Hypothesis Hserves : serves query mk table.

Lemma fetch_loop_table page_size : (0 < page_size)%nat ->
  forall fuel offset m,
    (length table - offset < fuel * page_size)%nat ->
    fetch_loop query fuel page_size mk offset m
    = Some (inl (fold_left add_keyword_id (drop offset table) m)).
Proof.
  intros Hps. induction fuel as [|fuel IH]; intros offset m Hfuel; [lia|].
  simpl. rewrite Hserves.
  replace (S (offset + page_size - 1) - offset)%nat with page_size by lia.
  destruct (length (take page_size (drop offset table)) <? page_size)%nat eqn:El.
  - apply Nat.ltb_lt in El. rewrite length_take, length_drop in El.
    rewrite take_ge by (rewrite length_drop; lia). reflexivity.
  - apply Nat.ltb_ge in El. rewrite length_take, length_drop in El.
    rewrite IH by lia. rewrite <- fold_left_app.
    rewrite <- drop_drop, take_drop. reflexivity.
Qed.

End FetchFacts.

Lemma fetch_keyword_ids_fold {E : Type}
    (query : string -> nat -> nat -> list si_keyword + E)
    (mk : string) (table : list si_keyword) (fuel : nat) :
  serves query mk table ->
  (length table < fuel * Z.to_nat 10000)%nat ->
  fetch_keyword_ids query None fuel mk
  = Some (inl (fold_left add_keyword_id table ∅)).
Proof.
  intros Hserves Hfuel. unfold fetch_keyword_ids.
  rewrite (fetch_loop_table query mk table Hserves) by lia. reflexivity.
Qed.

(** X16. When the service answers each range query from one table of
    keyword rows, the paginated fetch ends, given fuel for more pages
    than the table fills, and returns a map in which a key has an id
    exactly when some row of the table has that product identifier in
    upper case and that search term in lower case, the id being that of
    the last such row. *)
Theorem fetch_keyword_ids_table {E : Type}
    (query : string -> nat -> nat -> list si_keyword + E)
    (mk : string) (table : list si_keyword) (fuel : nat) :
  serves query mk table ->
  (length table < fuel * Z.to_nat 10000)%nat ->
  exists keyword_id_map,
    fetch_keyword_ids query None fuel mk = Some (inl keyword_id_map) /\
    forall key id,
      keyword_id_map !! key = Some id <->
      exists kw, last_with (fun kw => si_keyword_key kw = key) table kw /\ kw_id kw = id.
Proof.
  intros Hserves Hfuel. exists (fold_left add_keyword_id table ∅). split.
  - exact (fetch_keyword_ids_fold query mk table fuel Hserves Hfuel).
  - intros key id. rewrite add_keyword_ids_lookup. rewrite lookup_empty. split.
    + intros [H | [_ H]]; [exact H|discriminate H].
    + auto.
Qed.

(** The example table, fetched in one page. *)
Lemma fetch_keyword_ids_table_witness :
  exists keyword_id_map,
    fetch_keyword_ids FetchExamples.table_query None 1 "US"
    = Some (inl keyword_id_map) /\
    forall key id,
      keyword_id_map !! key = Some id <->
      exists kw, last_with (fun kw => si_keyword_key kw = key)
                   FetchExamples.keyword_table kw /\ kw_id kw = id.
Proof.
  apply (fetch_keyword_ids_table FetchExamples.table_query "US"
           FetchExamples.keyword_table 1).
  - intros first last. reflexivity.
  - apply Nat.ltb_lt. vm_compute. reflexivity.
Defined.

(** X17. When the table of keywords the service answers from has a row
    for every keyword record of a run and no row with an empty id, the
    ids fetched give every record of the run's rank map a row for the
    database: nothing is skipped, and the rows are as many as the rank
    entries of the run. *)
Theorem ranks_reach_database {E : Type} (clock : nat -> string) (wb : workbook)
    (mk imp : string) (kws : list kw_record)
    (ranks : gmap measurement_key rank_record) (dates : list string) (st : stats)
    (query : string -> nat -> nat -> list si_keyword + E)
    (table : list si_keyword) (fuel : nat)
    (items : list (measurement_key * rank_record)) :
  parse_excel clock wb mk imp = Returns (kws, ranks, dates, st) ->
  items ≡ₚ map_to_list ranks ->
  serves query mk table ->
  (length table < fuel * Z.to_nat 10000)%nat ->
  Forall (fun kw => key_of kw ∈ si_keyword_key <$> table) kws ->
  Forall (fun row => PyStr.is_empty (kw_id row) = false) table ->
  exists keyword_id_map rows,
    fetch_keyword_ids query None fuel mk = Some (inl keyword_id_map) /\
    rank_records_for keyword_id_map mk imp items = (rows, O) /\
    length rows = rank_entries st.
Proof.
  intros H Hitems Hserves Hfuel Hrows Hids.
  set (idm := fold_left add_keyword_id table ∅).
  assert (Hz : (rank_records_for idm mk imp items).2 = O).
  { apply (rank_records_none_skipped _ _ _ _ _ _ _ _ _ _ H Hitems).
    intros kw Hkw. rewrite Forall_forall in Hrows. rewrite Forall_forall in Hids.
    pose proof (Hrows kw Hkw) as Hin.
    apply list_elem_of_fmap in Hin as (row & Hkey & Hrow).
    destruct (exists_last_with (fun r => si_keyword_key r = key_of kw) table)
      as (row' & Hl); [eauto|].
    exists (kw_id row'). split.
    - apply add_keyword_ids_lookup. left. eauto.
    - apply Hids. apply last_with_elem in Hl as [Hin _]. exact Hin. }
  pose proof (rank_records_total _ _ _ _ _ _ _ _ idm _ H Hitems) as Ht.
  destruct (rank_records_for idm mk imp items) as [rows skipped] eqn:Er.
  simpl in Hz, Ht. subst skipped. exists idm, rows.
  split; [exact (fetch_keyword_ids_fold query mk table fuel Hserves Hfuel)|].
  split; [exact Er|lia].
Qed.

(** The run of the example workbook against the example table. *)
Lemma ranks_reach_database_witness :
  exists kws ranks dates st,
    parse_excel Examples.clock_a Examples.both_sheets "US" "imp-1"
      = Returns (kws, ranks, dates, st) /\
    exists keyword_id_map rows,
      fetch_keyword_ids FetchExamples.table_query None 1 "US"
      = Some (inl keyword_id_map) /\
      rank_records_for keyword_id_map "US" "imp-1" (map_to_list ranks) = (rows, O) /\
      length rows = rank_entries st.
Proof.
  example_run E. eexists _, _, _, _. split; [exact E|].
  apply (ranks_reach_database _ _ _ _ _ _ _ _ FetchExamples.table_query
           FetchExamples.keyword_table 1 _ E).
  - reflexivity.
  - intros first last. reflexivity.
  - apply Nat.ltb_lt. vm_compute. reflexivity.
  - apply (bool_decide_unpack _). vm_compute. exact I.
  - apply (bool_decide_unpack _). vm_compute. exact I.
Defined.
